(** * Casemellow assistant: ingestion scripts and the /query pipeline

    A shallow embedding of [utils/embedding_utils.py], [embed_products.py],
    [embed_faqs.py] and [main.py].  The embedding service, the generative
    model and the vector store are external; they appear as oracles and as
    a finite-map model of a collection, and every call to them is recorded
    in the world's trace. *)

From Stdlib Require Import ZArith String Ascii List Lia.
From stdpp Require Import base option list gmap strings pretty.

Set Warnings "-register-all".
Local Open Scope string_scope.
Local Open Scope Z_scope.

(** ** Python values the scripts handle *)

Module Py.

(** A [str] is modelled as a sequence of code points below 256, one per
    [ascii].  [isspace] is [str.isspace] on that range: the characters
    [str.strip()] removes. *)
Definition isspace (c : ascii) : bool :=
  let n := nat_of_ascii c in
  ((9 <=? n)%nat && (n <=? 13)%nat)
  || ((28 <=? n)%nat && (n <=? 32)%nat)
  || (n =? 133)%nat || (n =? 160)%nat.

Fixpoint lstrip (s : string) : string :=
  match s with
  | EmptyString => EmptyString
  | String c s' => if isspace c then lstrip s' else s
  end.

Fixpoint rstrip (s : string) : string :=
  match s with
  | EmptyString => EmptyString
  | String c s' =>
      match rstrip s' with
      | EmptyString => if isspace c then EmptyString else String c EmptyString
      | r => String c r
      end
  end.

(** [s.strip()] *)
Definition strip (s : string) : string := rstrip (lstrip s).

(** Every character is white space (the empty string included). *)
Fixpoint blank (s : string) : bool :=
  match s with
  | EmptyString => true
  | String c s' => isspace c && blank s'
  end.

(** [not s] for a [str]. *)
Definition is_empty (s : string) : bool :=
  match s with EmptyString => true | _ => false end.

(** [s[:n]] for a [str]. *)
Fixpoint prefix (n : nat) (s : string) : string :=
  match n, s with
  | S n', String c s' => String c (prefix n' s')
  | _, _ => EmptyString
  end.

(** [sep.join(parts)] for a list of [str]. *)
Fixpoint join (sep : string) (parts : list string) : string :=
  match parts with
  | [] => EmptyString
  | [p] => p
  | p :: rest => p +:+ sep +:+ join sep rest
  end.

(** What [json.load] produces.  A float carries its own [repr], the only
    thing the scripts ever do with one is to format it. *)
Inductive json :=
| JNull
| JBool (b : bool)
| JInt (z : Z)
| JFloat (repr : string)
| JStr (s : string)
| JList (items : list json)
| JDict (fields : gmap string json).

Inductive exn :=
| AttributeError
| TypeError
| ZeroDivisionError
| FileNotFoundError
| ProviderError
| StoreError
| HTTPException (status_code : Z) (detail : string).

Inductive result (A : Type) :=
| Ok (a : A)
| Raise (e : exn).
Arguments Ok {A} a.
Arguments Raise {A} e.

Definition rbind {A B} (r : result A) (k : A -> result B) : result B :=
  match r with
  | Ok a => k a
  | Raise e => Raise e
  end.

(** [value.get(key, dflt)]: only a dict has the method. *)
Definition get (value : json) (key : string) (dflt : json) : result json :=
  match value with
  | JDict fields => Ok (default dflt (fields !! key))
  | _ => Raise AttributeError
  end.

(** [value[:n]]: a str or a list can be sliced, the other JSON values
    raise [TypeError]. *)
Definition slice_prefix (n : nat) (value : json) : result json :=
  match value with
  | JStr s => Ok (JStr (prefix n s))
  | JList items => Ok (JList (take n items))
  | _ => Raise TypeError
  end.

(** [sep.join(items)] on a loaded list: every item has to be a str. *)
Fixpoint str_items (items : list json) : result (list string) :=
  match items with
  | [] => Ok []
  | JStr s :: rest => rbind (str_items rest) (fun l => Ok (s :: l))
  | _ :: _ => Raise TypeError
  end.

Section Rendering.
(** [repr] of a list or a dict, Python's own business. *)
Variable py_repr : json -> string.

(** [str(value)], which is also what an f-string field renders. *)
Definition str (value : json) : string :=
  match value with
  | JStr s => s
  | JNull => "None"
  | JBool true => "True"
  | JBool false => "False"
  | JInt z => pretty z
  | JFloat r => r
  | JList _ | JDict _ => py_repr value
  end.
End Rendering.

(** State and exceptions: a computation runs on a state, leaves a state
    behind also when it raises, and returns a value or an exception. *)
Definition M (St A : Type) : Type := St -> St * result A.

Definition ret {St A} (a : A) : M St A := fun s => (s, Ok a).

Definition raise {St A} (e : exn) : M St A := fun s => (s, Raise e).

Definition bind {St A B} (m : M St A) (k : A -> M St B) : M St B :=
  fun s =>
    match m s with
    | (s', Ok a) => k a s'
    | (s', Raise e) => (s', Raise e)
    end.

(** [try: body / except Exception as e: handler] *)
Definition try_except {St A} (body : M St A) (handler : exn -> M St A) : M St A :=
  fun s =>
    match body s with
    | (s', Ok a) => (s', Ok a)
    | (s', Raise e) => handler e s'
    end.

Definition lift {St A} (r : result A) : M St A := fun s => (s, r).

Definition modify {St} (f : St -> St) : M St unit := fun s => (f s, Ok tt).

End Py.

Import Py.

Notation "x <- m ;; k" := (Py.bind m (fun x => k))
  (at level 20, m at level 99, k at level 200, only parsing).
Notation "m ;; k" := (Py.bind m (fun _ => k))
  (at level 100, k at level 200, right associativity, only parsing).
Notation "x <-? r ;; k" := (Py.rbind r (fun x => k))
  (at level 20, r at level 99, k at level 200, only parsing).

(** ** The world outside the scripts *)

(** A vector's components are never inspected by this code. *)
Definition Embedding : Type := list Z.

(** One entry of a collection: what [collection.add] is handed besides
    the id. *)
Record Entry := {
  embedding : Embedding;
  metadata : gmap string string;
  document : string
}.

(** Lines the scripts print about a record; the numbers are the ones the
    f-strings show. *)
Inductive Line :=
| Skipped (item : nat)
| Stored (count : nat)
| Pausing (processed : nat)
| ErrorProcessing (item : nat).

(** Everything that leaves the process. *)
Inductive Event :=
| EmbedContent (contents : string)
| CollectionAdd (name id : string)
| CollectionQuery (name : string) (query_embedding : Embedding) (n_results : Z)
| GenerateContent (prompt : string)
| Sleep (seconds : nat)
| Print (line : Line).

Record World := {
  store : gmap string (gmap string Entry);
  trace : list Event
}.

Definition emit (e : Event) : M World unit :=
  modify (fun w => {| store := store w; trace := trace w ++ [e] |}).

(** The moment a request to an outside service is made: the number of
    events before it.  The services' answers may depend on it. *)
Definition now (w : World) : nat := length (trace w).

(** ** utils/embedding_utils.py *)

Module EmbeddingUtils.

(** What one request to the embedding service comes to: the call (or
    reading the first embedding off its result) raises, or there is a
    [values] field, which the client library types as optional. *)
Inductive EmbedOutcome :=
| EmbedRaises
| EmbedValues (values : option Embedding).

Section Provider.
(** [client.models.embed_content(model=..., contents=text)] at a
    given moment: the answer may change from one request to the next. *)
Variable embed_content : nat -> string -> EmbedOutcome.

Definition call_provider (text : string) : M World (option Embedding) :=
  fun w =>
    let w' := {| store := store w; trace := trace w ++ [EmbedContent text] |} in
    match embed_content (now w) text with
    | EmbedRaises => (w', Raise ProviderError)
    | EmbedValues values => (w', Ok values)
    end.

Definition get_embedding (text : string) : M World (option Embedding) :=
  if Py.is_empty text || Py.is_empty (Py.strip text) then ret None
  else call_provider text.
End Provider.

End EmbeddingUtils.

(** ** The vector store, as far as the scripts use it *)

Module Chroma.

(** What [add] does with an id the collection already holds is the
    library's business and has changed between its releases (it keeps
    the entry it holds; it used to raise), and the specification takes
    it to replace the entry.  So it is a parameter here: replace the
    entry, keep the old one, or raise. *)
Inductive DuplicatePolicy :=
| Overwrite
| KeepExisting
| RejectDuplicate.

Definition overwrites (policy : DuplicatePolicy) : bool :=
  match policy with Overwrite => true | _ => false end.

(** The vectors of a collection all have the number of components of
    the first one it was given (this code never removes an entry, so
    that number can be read off the entries).  The library refuses, in
    [add] and in [query], an empty vector and a vector of another
    length than the collection's. *)
Definition same_length (v : Embedding) (e : Entry) : bool :=
  (length (embedding e) =? length v)%nat.

Definition fits (c : gmap string Entry) (v : Embedding) : bool :=
  negb (length v =? 0)%nat && forallb (same_length v) (map_to_list c).*2.

Definition add_entry (policy : DuplicatePolicy) (c : gmap string Entry)
    (id : string) (e : Entry) : result (gmap string Entry) :=
  if fits c (embedding e) then
    match c !! id, policy with
    | Some _, KeepExisting => Ok c
    | Some _, RejectDuplicate => Raise StoreError
    | _, _ => Ok (<[id := e]> c)
    end
  else Raise StoreError.

(** [client.get_or_create_collection(name=...)]; the handle is the name. *)
Definition get_or_create_collection (name : string) : M World string :=
  fun w =>
    match store w !! name with
    | Some _ => (w, Ok name)
    | None => ({| store := <[name := ∅]> (store w); trace := trace w |}, Ok name)
    end.

(** [client.get_collection(name)]: there is no handle for a collection
    that does not exist. *)
Definition get_collection (name : string) : M World string :=
  fun w =>
    match store w !! name with
    | Some _ => (w, Ok name)
    | None => (w, Raise StoreError)
    end.

(** [collection.add(ids=[id], embeddings=[...], metadatas=[...], documents=[...])] *)
Definition add (policy : DuplicatePolicy) (name id : string) (e : Entry)
    : M World unit :=
  emit (CollectionAdd name id) ;;
  fun w =>
    match store w !! name with
    | None => (w, Raise StoreError)
    | Some c =>
        match add_entry policy c id e with
        | Ok c' => ({| store := <[name := c']> (store w); trace := trace w |}, Ok tt)
        | Raise err => (w, Raise err)
        end
    end.

(** [collection.count()] *)
Definition count (w : World) (name : string) : nat :=
  match store w !! name with
  | Some c => size c
  | None => 0%nat
  end.

Section Search.
(** The library's nearest-neighbour ranking of a collection's ids
    for a query vector, closest first. *)
Variable rank : gmap string Entry -> Embedding -> list string.

(** [collection.query(query_embeddings=[v], n_results=n, include=[...])],
    read at [results['metadatas'][0]]: the metadata of the n best
    ranked entries.  The library refuses [n_results] below 1 and a
    vector the collection does not take. *)
Definition query (name : string) (v : Embedding) (n_results : Z)
    : M World (list (gmap string string)) :=
  emit (CollectionQuery name v n_results) ;;
  fun w =>
    match store w !! name with
    | None => (w, Raise StoreError)
    | Some c =>
        if (n_results <=? 0) || negb (fits c v) then (w, Raise StoreError)
        else (w, Ok (omap (fun id => metadata <$> c !! id)
                          (take (Z.to_nat n_results) (rank c v))))
    end.
End Search.

End Chroma.

(** ** The ingestion loop of embed_products.py and embed_faqs.py

    The two scripts run the same loop; what differs between them is
    gathered in a [Script]. *)

Module Ingest.

Record Script := {
  collection_name : string;
  id_prefix : string;
  create_text : json -> result string;
  build_metadata : json -> result (gmap string string);
  (** the field shown, cut to 50 characters, in the line printed for a
      stored record, and the default of that [get] *)
  shown_key : string;
  shown_default : json
}.

(** The loop's variables next to the world it runs in. *)
Record Loop := {
  world : World;
  success_count : nat;
  error_count : nat
}.

Definition in_world {A} (m : M World A) : M Loop A :=
  fun l =>
    let '(w, r) := m (world l) in
    ({| world := w;
        success_count := success_count l;
        error_count := error_count l |}, r).

Definition incr_success : M Loop unit :=
  modify (fun l => {| world := world l;
                      success_count := S (success_count l);
                      error_count := error_count l |}).

Definition incr_error : M Loop unit :=
  modify (fun l => {| world := world l;
                      success_count := success_count l;
                      error_count := S (error_count l) |}).

Definition print (line : Line) : M Loop unit := in_world (emit (Print line)).

(** [time.sleep(1)] *)
Definition sleep (seconds : nat) : M Loop unit := in_world (emit (Sleep seconds)).

(** [for idx, item in enumerate(items)], counting from [idx]. *)
Fixpoint for_each (body : nat -> json -> M Loop unit) (idx : nat)
    (items : list json) : M Loop unit :=
  match items with
  | [] => ret tt
  | item :: rest => body idx item ;; for_each body (S idx) rest
  end.

Section Run.
Variable embed_content : nat -> string -> EmbeddingUtils.EmbedOutcome.
Variable policy : Chroma.DuplicatePolicy.
Variable script : Script.
Variable batch_size : Z.

(** f"product_{idx}", f"faq_{idx}" *)
Definition entry_id (idx : nat) : string := id_prefix script +:+ pretty idx.

(** The pacing test [(idx + 1) % batch_size == 0]. *)
Definition pacing_due (idx : nat) : result bool :=
  if batch_size =? 0 then Raise ZeroDivisionError
  else Ok ((Z.of_nat idx + 1) mod batch_size =? 0).

(** The body of the [try] inside the loop. *)
Definition process_record (idx : nat) (record : json) : M Loop unit :=
  text <- lift (create_text script record) ;;
  embedding <- in_world (EmbeddingUtils.get_embedding embed_content text) ;;
  match embedding with
  | None =>
      print (Skipped (idx + 1)) ;;
      incr_error
  | Some v =>
      meta <- lift (build_metadata script record) ;;
      in_world (Chroma.add policy (collection_name script) (entry_id idx)
                  {| embedding := v; metadata := meta; document := text |}) ;;
      incr_success ;;
      _ <- lift (shown <-? Py.get record (shown_key script) (shown_default script) ;;
                 Py.slice_prefix 50 shown) ;;
      count <- (fun l => (l, Ok (success_count l))) ;;
      print (Stored count) ;;
      due <- lift (pacing_due idx) ;;
      if due : bool then
        print (Pausing (idx + 1)) ;;
        sleep 1
      else ret tt
  end.

(** One turn of the loop: the [try] and its [except Exception]. *)
Definition loop_body (idx : nat) (record : json) : M Loop unit :=
  try_except (process_record idx record)
    (fun _ => incr_error ;; print (ErrorProcessing (idx + 1))).

(** The whole function: load, open the collection, loop, report the
    two counters.  [data] is what [load_json(DATA_PATH)] comes to.
    Both outer [except] clauses return [(0, 0)]. *)
Definition embed_and_store (data : result (list json)) : M World (nat * nat) :=
  try_except
    (records <- lift data ;;
     _ <- Chroma.get_or_create_collection (collection_name script) ;;
     fun w =>
       let '(l, r) := for_each loop_body 0 records
                        {| world := w; success_count := 0; error_count := 0 |} in
       (world l, match r with
                 | Ok _ => Ok (success_count l, error_count l)
                 | Raise e => Raise e
                 end))
    (fun _ => ret (0%nat, 0%nat)).
End Run.

End Ingest.

(** ** embed_products.py *)

Module EmbedProducts.

Section WithRepr.
Variable py_repr : json -> string.

Definition field (product : json) (key : string) : result string :=
  v <-? Py.get product key (JStr EmptyString) ;; Ok (Py.str py_repr v).

Definition create_product_text (product : json) : result string :=
  cover_types <-? Py.get product "coverType" (JList []) ;;
  cover_type_str <-? match cover_types with
                     | JList items => parts <-? Py.str_items items ;;
                                      Ok (Py.join ", " parts)
                     | other => Ok (Py.str py_repr other)
                     end ;;
  productName <-? field product "productName" ;;
  brandName <-? field product "brandName" ;;
  phoneModel <-? field product "phoneModel" ;;
  productDescription <-? field product "productDescription" ;;
  productPrice <-? field product "productPrice" ;;
  productCategory <-? field product "productCategory" ;;
  Ok ("Product Name: " +:+ productName +:+ "
        Brand: " +:+ brandName +:+ "
        Model: " +:+ phoneModel +:+ "
        Type: " +:+ cover_type_str +:+ "
        Description: " +:+ productDescription +:+ "
        Price: " +:+ productPrice +:+ "
        Category: " +:+ productCategory).

Definition product_metadata (product : json) : result (gmap string string) :=
  productName <-? field product "productName" ;;
  productUrl <-? field product "productUrl" ;;
  productImage <-? field product "productImage" ;;
  productPrice <-? field product "productPrice" ;;
  brandName <-? field product "brandName" ;;
  phoneModel <-? field product "phoneModel" ;;
  productCategory <-? field product "productCategory" ;;
  Ok (list_to_map [("productName", productName);
                   ("productUrl", productUrl);
                   ("productImage", productImage);
                   ("productPrice", productPrice);
                   ("brandName", brandName);
                   ("phoneModel", phoneModel);
                   ("productCategory", productCategory)]).

Definition script : Ingest.Script :=
  {| Ingest.collection_name := "products";
     Ingest.id_prefix := "product_";
     Ingest.create_text := create_product_text;
     Ingest.build_metadata := product_metadata;
     Ingest.shown_key := "productName";
     Ingest.shown_default := JStr "Unknown" |}.

Definition embed_and_store_products
    (embed_content : nat -> string -> EmbeddingUtils.EmbedOutcome)
    (policy : Chroma.DuplicatePolicy) (batch_size : Z)
    (data : result (list json)) : M World (nat * nat) :=
  Ingest.embed_and_store embed_content policy script batch_size data.
End WithRepr.

End EmbedProducts.

(** ** embed_faqs.py *)

Module EmbedFaqs.

Section WithRepr.
Variable py_repr : json -> string.

Definition field (faq : json) (key : string) : result string :=
  v <-? Py.get faq key (JStr EmptyString) ;; Ok (Py.str py_repr v).

Definition create_faq_text (faq : json) : result string :=
  question <-? field faq "question" ;;
  answer <-? field faq "answer" ;;
  Ok ("Q: " +:+ question +:+ "
A: " +:+ answer).

Definition faq_metadata (faq : json) : result (gmap string string) :=
  question <-? field faq "question" ;;
  answer <-? field faq "answer" ;;
  Ok (list_to_map [("question", question); ("answer", answer)]).

Definition script : Ingest.Script :=
  {| Ingest.collection_name := "faqs";
     Ingest.id_prefix := "faq_";
     Ingest.create_text := create_faq_text;
     Ingest.build_metadata := faq_metadata;
     Ingest.shown_key := "question";
     Ingest.shown_default := JStr EmptyString |}.

Definition embed_and_store_faqs
    (embed_content : nat -> string -> EmbeddingUtils.EmbedOutcome)
    (policy : Chroma.DuplicatePolicy) (batch_size : Z)
    (data : result (list json)) : M World (nat * nat) :=
  Ingest.embed_and_store embed_content policy script batch_size data.
End WithRepr.

End EmbedFaqs.

(** ** main.py *)

Module Main.

Definition TOP_K_PRODUCTS : Z := 3.
Definition TOP_K_FAQS : Z := 2.

Record QueryRequest := {
  req_query : string;
  top_k_products : option Z;
  top_k_faqs : option Z;
  user_id : option string
}.

Record ProductResult := {
  productName : string;
  productUrl : string;
  productImage : string;
  productPrice : string;
  brandName : option string;
  phoneModel : option string
}.

Record FAQResult := {
  question : string;
  answer : string
}.

Record QueryResponse := {
  query : string;
  responseText : string;
  products : list ProductResult;
  faqs : list FAQResult;
  hasResults : bool;
  conversationContext : option string
}.

(** The module's globals after start-up; [None] is what the [except]
    clauses of the two set-up blocks leave behind.  A collection handle
    is the collection's name. *)
Record Globals := {
  gemini_client : option unit;
  products_collection : option string;
  faqs_collection : option string
}.

(** What one request to the generative model comes to: the call raises,
    or there is a response whose [text] may be missing. *)
Inductive GenOutcome :=
| GenRaises
| GenResponse (text : option string).

(** [if value:] for an optional str. *)
Definition truthy (value : option string) : bool :=
  match value with
  | Some s => negb (Py.is_empty s)
  | None => false
  end.

Definition nl : string := String "010"%char EmptyString.
Definition dq : string := String "034"%char EmptyString.

(** [min(a, b)] where [a] may be [None]. *)
Definition py_min (a : option Z) (b : Z) : result Z :=
  match a with
  | Some z => Ok (Z.min z b)
  | None => Raise TypeError
  end.

(** The loop of [retrieve_products] over [results['metadatas'][0]]. *)
Definition collect_products (metadatas : list (gmap string string)) : list ProductResult :=
  omap (fun m : gmap string string =>
          if truthy (m !! "productName") && truthy (m !! "productPrice")
          then Some {| productName := default EmptyString (m !! "productName");
                       productUrl := default EmptyString (m !! "productUrl");
                       productImage := default EmptyString (m !! "productImage");
                       productPrice := default EmptyString (m !! "productPrice");
                       brandName := m !! "brandName";
                       phoneModel := m !! "phoneModel" |}
          else None)
       metadatas.

(** The loop of [retrieve_faqs]. *)
Definition collect_faqs (metadatas : list (gmap string string)) : list FAQResult :=
  omap (fun m : gmap string string =>
          if truthy (m !! "question") && truthy (m !! "answer")
          then Some {| question := default EmptyString (m !! "question");
                       answer := default EmptyString (m !! "answer") |}
          else None)
       metadatas.

(** [for i, prod in enumerate(products[:5], 1)], the lines added for
    the products from number [i] on. *)
Fixpoint product_lines (i : nat) (prods : list ProductResult) : string :=
  match prods with
  | [] => EmptyString
  | prod :: rest =>
      pretty i +:+ ". " +:+ productName prod +:+ " - " +:+ productPrice prod +:+ nl
      +:+ (if truthy (brandName prod)
           then "   Brand: " +:+ default EmptyString (brandName prod) +:+ nl
           else EmptyString)
      +:+ (if truthy (phoneModel prod)
           then "   Model: " +:+ default EmptyString (phoneModel prod) +:+ nl
           else EmptyString)
      +:+ product_lines (S i) rest
  end.

Fixpoint faq_lines (i : nat) (fs : list FAQResult) : string :=
  match fs with
  | [] => EmptyString
  | faq :: rest =>
      "Q" +:+ pretty i +:+ ": " +:+ question faq +:+ nl
      +:+ "A" +:+ pretty i +:+ ": " +:+ answer faq +:+ nl +:+ nl
      +:+ faq_lines (S i) rest
  end.

Definition products_context (prods : list ProductResult) : string :=
  match prods with
  | [] => EmptyString
  | _ => "Available Products:" +:+ nl +:+ product_lines 1 (take 5 prods)
  end.

Definition faqs_context (fs : list FAQResult) : string :=
  match fs with
  | [] => EmptyString
  | _ => nl +:+ "Frequently Asked Questions:" +:+ nl +:+ faq_lines 1 (take 3 fs)
  end.

Definition build_prompt (q : string) (prods : list ProductResult)
    (fs : list FAQResult) : string :=
  "You are a helpful e-commerce chatbot assistant for Casemellow, a phone case store.

User Query: " +:+ dq +:+ q +:+ dq +:+ "

" +:+ products_context prods +:+ "

" +:+ faqs_context fs +:+ "

Instructions:
- Provide a friendly, conversational response to the user's query
- If products are available, mention them naturally (e.g., " +:+ dq
  +:+ "I found some great options for you..." +:+ dq +:+ ")
- If FAQs are relevant, incorporate that information naturally
- If no products/FAQs are found, politely suggest alternative searches or general help
- Keep response concise (2-4 sentences)
- Be enthusiastic and helpful
- Don't mention technical terms like " +:+ dq +:+ "embeddings" +:+ dq
  +:+ " or " +:+ dq +:+ "database" +:+ dq +:+ "
- Don't make up product details not in the context

Response:".

(** The answer given in the [except] clause of
    [generate_response_with_gemini]. *)
Definition fallback_response (prods : list ProductResult) (fs : list FAQResult)
    : string :=
  match prods, fs with
  | _ :: _, _ =>
      "I found " +:+ pretty (length prods)
      +:+ " product(s) that match your query. Check them out below!"
  | [], _ :: _ =>
      "I found some helpful information that might answer your question."
  | [], [] =>
      "I couldn't find exactly what you're looking for. Try rephrasing your question or browse our categories!"
  end.

Section Server.
Variable embed_content : nat -> string -> EmbeddingUtils.EmbedOutcome.
Variable rank : gmap string Entry -> Embedding -> list string.
(** [gemini_client.models.generate_content(...)] at a given moment. *)
Variable generate_content : nat -> string -> GenOutcome.
Variable globals : Globals.

Definition retrieve_products (query_text : string) (top_k : Z)
    : M World (list ProductResult) :=
  match products_collection globals with
  | None => ret []
  | Some collection =>
      try_except
        (query_embedding <- EmbeddingUtils.get_embedding embed_content query_text ;;
         match query_embedding with
         | None => ret []
         | Some v =>
             metadatas <- Chroma.query rank collection v (Z.min top_k 10) ;;
             ret (collect_products metadatas)
         end)
        (fun _ => ret [])
  end.

Definition retrieve_faqs (query_text : string) (top_k : Z)
    : M World (list FAQResult) :=
  match faqs_collection globals with
  | None => ret []
  | Some collection =>
      try_except
        (query_embedding <- EmbeddingUtils.get_embedding embed_content query_text ;;
         match query_embedding with
         | None => ret []
         | Some v =>
             metadatas <- Chroma.query rank collection v (Z.min top_k 5) ;;
             ret (collect_faqs metadatas)
         end)
        (fun _ => ret [])
  end.

Definition call_model (prompt : string) : M World (option string) :=
  fun w =>
    let w' := {| store := store w; trace := trace w ++ [GenerateContent prompt] |} in
    match generate_content (now w) prompt with
    | GenRaises => (w', Raise ProviderError)
    | GenResponse text => (w', Ok text)
    end.

Definition generate_response_with_gemini (q : string)
    (prods : list ProductResult) (fs : list FAQResult) : M World string :=
  match gemini_client globals with
  | None =>
      ret "I'm having trouble connecting to the AI service. Please try again later."
  | Some _ =>
      try_except
        (text <- call_model (build_prompt q prods fs) ;;
         match text with
         | Some t => ret (Py.strip t)
         | None => raise AttributeError
         end)
        (fun _ => ret (fallback_response prods fs))
  end.

Definition is_none {A} (o : option A) : bool :=
  match o with None => true | Some _ => false end.

Definition query_chatbot (request : QueryRequest) : M World QueryResponse :=
  let query_text := Py.strip (req_query request) in
  if Py.is_empty query_text then
    raise (HTTPException 400 "Query cannot be empty.")
  else if (500 <? String.length query_text)%nat then
    raise (HTTPException 400 "Query is too long. Max 500 characters.")
  else if is_none (products_collection globals)
          || is_none (faqs_collection globals) then
    raise (HTTPException 503 "Database not available. Please contact support.")
  else if is_none (gemini_client globals) then
    raise (HTTPException 503 "AI service temporarily unavailable. Please try again.")
  else
    try_except
      (k_products <- lift (py_min (top_k_products request) 10) ;;
       prods <- retrieve_products query_text k_products ;;
       k_faqs <- lift (py_min (top_k_faqs request) 5) ;;
       fs <- retrieve_faqs query_text k_faqs ;;
       response_text <- generate_response_with_gemini query_text prods fs ;;
       let has_results := (0 <? length prods)%nat || (0 <? length fs)%nat in
       ret {| query := query_text;
              responseText := response_text;
              products := prods;
              faqs := fs;
              hasResults := has_results;
              conversationContext :=
                Some ("Found " +:+ pretty (length prods) +:+ " products and "
                      +:+ pretty (length fs) +:+ " FAQs") |})
      (fun _ => raise (HTTPException 500
         "An error occurred processing your request. Please try again.")).

(** The body of the answer of [GET /health]. *)
Record Health := {
  status : string;
  services_chromadb : bool;
  services_gemini : bool;
  collections_products : nat;
  collections_faqs : nat
}.

Definition healthcheck (w : World) : Health :=
  {| status := "ok";
     services_chromadb := negb (is_none (products_collection globals))
                          && negb (is_none (faqs_collection globals));
     services_gemini := negb (is_none (gemini_client globals));
     collections_products :=
       match products_collection globals with
       | Some collection => Chroma.count w collection
       | None => 0%nat
       end;
     collections_faqs :=
       match faqs_collection globals with
       | Some collection => Chroma.count w collection
       | None => 0%nat
       end |}.

(** What [startup_event] prints between its two rules. *)
Inductive StartupLine :=
| ChromaNotLoaded
| GeminiNotInitialized
| AllServicesReady.

Definition startup_event : list StartupLine :=
  (if is_none (products_collection globals) || is_none (faqs_collection globals)
   then [ChromaNotLoaded] else [])
  ++ (if is_none (gemini_client globals) then [GeminiNotInitialized] else [])
  ++ (if negb (is_none (products_collection globals))
         && negb (is_none (faqs_collection globals))
         && negb (is_none (gemini_client globals))
      then [AllServicesReady] else []).
End Server.

Section Process.
Variable py_repr : json -> string.
Variable embed_content : nat -> string -> EmbeddingUtils.EmbedOutcome.
Variable policy : Chroma.DuplicatePolicy.

(** The module's second set-up block: open the store, run the two
    ingestion functions with their default [batch_size], take the two
    handles; any exception leaves both globals [None].  [client] is
    what [chromadb.PersistentClient(path=CHROMA_DIR)] comes to, the
    two [data] arguments what the scripts' [load_json] calls come to;
    the scripts open the same store, which opens for them as it did
    here. *)
Definition chroma_setup (client : result unit)
    (products_data faqs_data : result (list json))
    : M World (option string * option string) :=
  try_except
    (_ <- lift client ;;
     _ <- EmbedProducts.embed_and_store_products py_repr embed_content policy 10
            products_data ;;
     _ <- EmbedFaqs.embed_and_store_faqs py_repr embed_content policy 10 faqs_data ;;
     products <- Chroma.get_collection "products" ;;
     faqs <- Chroma.get_collection "faqs" ;;
     ret (Some products, Some faqs))
    (fun _ => ret (None, None)).

(** Running the module.  Its first import of this repository's code,
    [from utils.embedding_utils import get_embedding], runs that
    module's own [genai.Client(...)], which stands outside any [try]:
    [embedding_client] is what that call comes to, and when it raises
    the import ends the module there.  Then come the two set-up
    blocks; [gemini] is what the [genai.Client(...)] of the first one
    comes to. *)
Definition module_setup (embedding_client gemini client : result unit)
    (products_data faqs_data : result (list json)) : M World Globals :=
  _ <- lift embedding_client ;;
  collections <- chroma_setup client products_data faqs_data ;;
  ret {| gemini_client := match gemini with Ok _ => Some tt | Raise _ => None end;
         products_collection := collections.1;
         faqs_collection := collections.2 |}.
End Process.

End Main.

(** ** utils/clean_products.py *)

Module CleanProducts.

(** [c.lower()] for a code point below 256. *)
Definition lower_char (c : ascii) : ascii :=
  let n := nat_of_ascii c in
  if ((65 <=? n)%nat && (n <=? 90)%nat)
     || ((192 <=? n)%nat && (n <=? 222)%nat && negb (n =? 215)%nat)
  then ascii_of_nat (n + 32)
  else c.

(** [s.lower()] *)
Fixpoint lower (s : string) : string :=
  match s with
  | EmptyString => EmptyString
  | String c s' => String (lower_char c) (lower s')
  end.

(** [p.get(key, dflt).strip()]: only a str has the method. *)
Definition get_stripped (p : json) (key : string) : result string :=
  v <-? Py.get p key (JStr EmptyString) ;;
  match v with
  | JStr s => Ok (Py.strip s)
  | _ => Raise AttributeError
  end.

(** The body of the loop: one raw product to one cleaned product. *)
Definition clean_product (p : json) : result json :=
  category <-? get_stripped p "productCategory" ;;
  let productCategory := lower category in
  productId <-? get_stripped p "_id" ;;
  let productUrl :=
    "http://localhost:3000/products/" +:+ productCategory +:+ "/" +:+ productId in
  productName <-? get_stripped p "productName" ;;
  brands <-? Py.get p "brands" (JDict ∅) ;;
  brandName <-? get_stripped brands "brandName" ;;
  phoneModel <-? get_stripped p "phoneModel" ;;
  coverType <-? Py.get p "coverType" (JList []) ;;
  productDescription <-? get_stripped p "productDescription" ;;
  productPrice <-? Py.get p "productPrice" (JInt 0) ;;
  category' <-? get_stripped p "productCategory" ;;
  productImage <-? get_stripped p "productImage" ;;
  Ok (JDict (list_to_map [("productName", JStr productName);
                          ("brandName", JStr brandName);
                          ("phoneModel", JStr phoneModel);
                          ("coverType", coverType);
                          ("productDescription", JStr productDescription);
                          ("productPrice", productPrice);
                          ("productCategory", JStr category');
                          ("productImage", JStr productImage);
                          ("productUrl", JStr productUrl)])).

(** The loop: there is no [try] in it, the first product that raises
    ends the script before anything is written. *)
Fixpoint clean_products (products : list json) : result (list json) :=
  match products with
  | [] => Ok []
  | p :: rest =>
      cleaned <-? clean_product p ;;
      others <-? clean_products rest ;;
      Ok (cleaned :: others)
  end.

End CleanProducts.

(** ** Reading a trace *)

Module Observed.

(** The texts sent to the embedding service, in order. *)
Definition embed_calls (evs : list Event) : list string :=
  omap (fun e => match e with EmbedContent t => Some t | _ => None end) evs.

(** The item numbers of the records reported as skipped or in error. *)
Definition failures (evs : list Event) : list nat :=
  omap (fun e => match e with
                 | Print (Skipped item) | Print (ErrorProcessing item) => Some item
                 | _ => None
                 end) evs.

(** A request to the generative model that gives no answer text: it
    raised, or its response has no [text] to strip. *)
Definition generation_failed (o : Main.GenOutcome) : Prop :=
  match o with
  | Main.GenResponse (Some _) => False
  | _ => True
  end.

Definition is_sleep (e : Event) : bool :=
  match e with Sleep _ => true | _ => false end.

Definition is_stored_line (e : Event) : bool :=
  match e with Print (Stored _) => true | _ => false end.

(** What one retrieval helper sends out for a query text that is not
    blank, when it starts at moment [t]: the embedding request, and the
    nearest-neighbour query if that request gave a vector. *)
Definition retrieval_events
    (embed_content : nat -> string -> EmbeddingUtils.EmbedOutcome)
    (collection : string) (cap : Z) (t : nat) (query_text : string) (top_k : Z)
    : list Event :=
  EmbedContent query_text ::
  match embed_content t query_text with
  | EmbeddingUtils.EmbedValues (Some v) =>
      [CollectionQuery collection v (Z.min top_k cap)]
  | _ => []
  end.

End Observed.

(** ** What a record does to the loop *)

Module Records.

Definition is_str (value : json) : bool :=
  match value with JStr _ => true | _ => false end.

(** The [coverType] of a product is absent, not a list, or a list of
    strings: [', '.join] accepts it. *)
Definition cover_types_joinable (fields : gmap string json) : bool :=
  match fields !! "coverType" with
  | Some (JList items) => forallb is_str items
  | _ => true
  end.

(** The collection holding at most the one entry. *)
Definition single (id : string) (oe : option Entry) : gmap string Entry :=
  match oe with
  | Some e => {[id := e]}
  | None => ∅
  end.

Section Shape.
Variable embed_content : nat -> string -> EmbeddingUtils.EmbedOutcome.
Variable policy : Chroma.DuplicatePolicy.
Variable script : Ingest.Script.
Variable batch_size : Z.

(** The entry a turn of the loop hands to [collection.add] when the
    embedding service is asked at moment [t]; [None] when the turn
    ends before that (the text cannot be built, there is no
    embedding, the metadata cannot be built). *)
Definition candidate (t : nat) (record : json) : option Entry :=
  match Ingest.create_text script record with
  | Ok text =>
      if Py.blank text then None
      else match embed_content t text with
           | EmbeddingUtils.EmbedValues (Some v) =>
               match Ingest.build_metadata script record with
               | Ok meta => Some {| embedding := v; metadata := meta; document := text |}
               | Raise _ => None
               end
           | _ => None
           end
  | Raise _ => None
  end.

(** The field shown in the line for a stored record can be cut to 50
    characters. *)
Definition displays (record : json) : bool :=
  match (shown <-? Py.get record (Ingest.shown_key script) (Ingest.shown_default script) ;;
         Py.slice_prefix 50 shown) with
  | Ok _ => true
  | Raise _ => false
  end.

(** What [add] leaves in the collection, whether it raises or not. *)
Definition settle (c : gmap string Entry) (id : string) (e : option Entry)
    : gmap string Entry :=
  match e with
  | Some e => match Chroma.add_entry policy c id e with
              | Ok c' => c'
              | Raise _ => c
              end
  | None => c
  end.

(** The turn gets its entry into the collection. *)
Definition stores (t idx : nat) (record : json) (oc : option (gmap string Entry))
    : bool :=
  match oc, candidate t record with
  | Some c, Some e =>
      match Chroma.add_entry policy c (Ingest.entry_id script idx) e with
      | Ok _ => true
      | Raise _ => false
      end
  | _, _ => false
  end.

(** The turn runs to its end without an exception and without
    skipping. *)
Definition completes (t idx : nat) (record : json) (oc : option (gmap string Entry))
    : bool :=
  stores t idx record oc && displays record && negb (batch_size =? 0).

(** The collection after the turns for the given candidates, the
    first of them at index [idx]. *)
Fixpoint settle_all (c : gmap string Entry) (idx : nat) (cands : list (option Entry))
    : gmap string Entry :=
  match cands with
  | [] => c
  | e :: rest => settle_all (settle c (Ingest.entry_id script idx) e) (S idx) rest
  end.

(** The store after a turn of the loop. *)
Definition store_after (idx : nat) (record : json) (l : Ingest.Loop)
    : gmap string (gmap string Entry) :=
  match store (Ingest.world l) !! Ingest.collection_name script with
  | Some c =>
      <[Ingest.collection_name script :=
          settle c (Ingest.entry_id script idx)
                 (candidate (now (Ingest.world l)) record)]>
        (store (Ingest.world l))
  | None => store (Ingest.world l)
  end.

(** The moment the turn for the record at [i] begins, in a run over
    [records] that starts in [w]: the loop has been through the [i]
    records before it. *)
Definition turn_start (records : list json) (w : World) (i : nat) : nat :=
  now (Ingest.embed_and_store embed_content policy script batch_size
         (Ok (take i records)) w).1.

(** A record the loop can take when its turn begins at moment [t]:
    its text and its metadata can be built, the embedding service
    answers the request for its text with a vector, and its shown
    field can be cut. *)
Definition well_formed (t : nat) (record : json) : Prop :=
  displays record = true /\ is_Some (candidate t record).

(** A record whose turn, begun at moment [t], cannot finish: it
    yields nothing for [add] (its text or its metadata cannot be
    built, or the request for its text gives no embedding), or the
    field shown for it cannot be cut. *)
Definition malformed (t : nat) (record : json) : Prop :=
  candidate t record = None \/ displays record = false.

(** The embedding service gives vectors of [d] components, whenever
    it gives one. *)
Definition gives_vectors_of (d : nat) : Prop :=
  forall t text v,
    embed_content t text = EmbeddingUtils.EmbedValues (Some v) -> length v = d.

(** The collection the run finds, if the store has it, holds vectors
    of [d] components only. *)
Definition holds_vectors_of (d : nat) (w : World) : Prop :=
  forall c id e, store w !! Ingest.collection_name script = Some c ->
                 c !! id = Some e -> length (embedding e) = d.

(** The collection has the records: every record that yields an
    entry whose vector the collection takes has an entry under its
    id, and it is that entry where [add] overwrites. *)
Definition holds_records (records : list json) (w : World) : Prop :=
  forall c i record t e,
    store w !! Ingest.collection_name script = Some c ->
    records !! i = Some record ->
    candidate t record = Some e ->
    Chroma.fits c (embedding e) = true ->
    exists held, c !! Ingest.entry_id script i = Some held
                 /\ (Chroma.overwrites policy = true -> held = e).

(** The collection the run finds, if the store has it, has none of
    the ids the run will use for [n] records. *)
Definition ids_unused (n : nat) (w : World) : Prop :=
  forall c i, store w !! Ingest.collection_name script = Some c ->
              (i < n)%nat -> c !! Ingest.entry_id script i = None.
End Shape.

End Records.

(** ** Further vocabulary for the properties *)

Module Derived.

(** The texts of the records whose text can be built, in input order. *)
Definition texts (script : Ingest.Script) (records : list json) : list string :=
  omap (fun r => match Ingest.create_text script r with
                 | Ok text => Some text
                 | Raise _ => None
                 end) records.

(** The ids handed to [collection.add], in order. *)
Definition added_ids (evs : list Event) : list string :=
  omap (fun e => match e with CollectionAdd _ id => Some id | _ => None end) evs.

(** A product or FAQ the retrieval helpers keep. *)
Definition displayable_product (p : Main.ProductResult) : bool :=
  negb (Py.is_empty (Main.productName p)) && negb (Py.is_empty (Main.productPrice p)).

Definition displayable_faq (f : Main.FAQResult) : bool :=
  negb (Py.is_empty (Main.question f)) && negb (Py.is_empty (Main.answer f)).

Section Shown.
Variable py_repr : json -> string.

(** [str(record.get(key, ""))] for a record that is an object. *)
Definition rendered (fields : gmap string json) (key : string) : string :=
  Py.str py_repr (default (JStr EmptyString) (fields !! key)).

(** What [retrieve_products] makes of the metadata the product script
    stores for an object. *)
Definition shown_product (fields : gmap string json) : Main.ProductResult :=
  {| Main.productName := rendered fields "productName";
     Main.productUrl := rendered fields "productUrl";
     Main.productImage := rendered fields "productImage";
     Main.productPrice := rendered fields "productPrice";
     Main.brandName := Some (rendered fields "brandName");
     Main.phoneModel := Some (rendered fields "phoneModel") |}.

Definition shown_faq (fields : gmap string json) : Main.FAQResult :=
  {| Main.question := rendered fields "question";
     Main.answer := rendered fields "answer" |}.
End Shown.

(** After an ingestion function ran on [data], the store has the
    collection: the data loaded (the collection was opened), or the store
    had it before. *)
Definition available (data : result (list json)) (w : World) (name : string) : bool :=
  match data, store w !! name with
  | Raise _, None => false
  | _, _ => true
  end.

Definition succeeded {A} (r : result A) : bool :=
  match r with Ok _ => true | Raise _ => false end.

(** The dict [clean_products.py] builds for one product. *)
Definition cleaned (name brand model : string) (cover : json) (description : string)
    (price : json) (category image url : string) : gmap string json :=
  list_to_map [("productName", JStr name);
               ("brandName", JStr brand);
               ("phoneModel", JStr model);
               ("coverType", cover);
               ("productDescription", JStr description);
               ("productPrice", price);
               ("productCategory", JStr category);
               ("productImage", JStr image);
               ("productUrl", JStr url)].

(** The keys of a cleaned product that hold stripped text. *)
Definition stripped_keys : list string :=
  ["productName"; "brandName"; "phoneModel"; "productDescription";
   "productCategory"; "productImage"].

(** The field of a cleaned product, when the product is an object and
    the field a str. *)
Definition text_field (product : json) (key : string) : option string :=
  match product with
  | JDict fields => match fields !! key with
                    | Some (JStr s) => Some s
                    | _ => None
                    end
  | _ => None
  end.

End Derived.

(** ** Sample inputs *)

Module Samples.

Definition repr (value : json) : string := "[...]".

(** An embedding service whose vectors change with the moment of the
    request, and one that always answers the same. *)
Definition embed (t : nat) (text : string) : EmbeddingUtils.EmbedOutcome :=
  EmbeddingUtils.EmbedValues (Some [Z.of_nat t; Z.of_nat (String.length text)]).

Definition steady_embed (t : nat) (text : string) : EmbeddingUtils.EmbedOutcome :=
  EmbeddingUtils.EmbedValues (Some [1; Z.of_nat (String.length text)]).

Definition rank (c : gmap string Entry) (v : Embedding) : list string :=
  (map_to_list c).*1.

Definition generate (t : nat) (prompt : string) : Main.GenOutcome :=
  Main.GenResponse (Some " We have a few cases you may like! ").

Definition failing_generate (t : nat) (prompt : string) : Main.GenOutcome :=
  Main.GenRaises.

Definition globals : Main.Globals :=
  {| Main.gemini_client := Some tt;
     Main.products_collection := Some "products";
     Main.faqs_collection := Some "faqs" |}.

Definition empty_world : World := {| store := ∅; trace := [] |}.

Definition product_entry (name price : string) : Entry :=
  {| embedding := [1; 2];
     metadata := list_to_map [("productName", name); ("productPrice", price)];
     document := name |}.

Definition faq_entry (q a : string) : Entry :=
  {| embedding := [3; 4];
     metadata := list_to_map [("question", q); ("answer", a)];
     document := q |}.

(** A store with two products, one of them without a price, and one FAQ. *)
Definition shop : World :=
  {| store := list_to_map
       [("products", list_to_map [("product_0", product_entry "Clear Case" "499");
                                  ("product_1", product_entry "Matte Case" EmptyString)]);
        ("faqs", list_to_map [("faq_0", faq_entry "What is your return policy?" "30 days.")])];
     trace := [] |}.

Definition ask (text : string) : Main.QueryRequest :=
  {| Main.req_query := text;
     Main.top_k_products := Some Main.TOP_K_PRODUCTS;
     Main.top_k_faqs := Some Main.TOP_K_FAQS;
     Main.user_id := None |}.

Fixpoint repeat_char (n : nat) (c : ascii) : string :=
  match n with
  | O => EmptyString
  | S n' => String c (repeat_char n' c)
  end.

(** 600 characters, of which the 500 in the middle are not white space. *)
Definition padded_query : string :=
  repeat_char 50 " " +:+ repeat_char 500 "a" +:+ repeat_char 50 " ".

Definition faq_record (q a : string) : json :=
  JDict (list_to_map [("question", JStr q); ("answer", JStr a)]).

Definition returns_faq : json := faq_record "What is your return policy?" "30 days.".
Definition shipping_faq : json := faq_record "Do you ship abroad?" "Yes.".

(** Not an object: [.get] raises on it. *)
Definition broken_record : json := JInt 7.

Definition clear_case : json :=
  JDict (list_to_map [("productName", JStr "Clear Case");
                      ("productPrice", JInt 499);
                      ("coverType", JList [JStr "hard"; JStr "clear"])]).

(** A product with a name, whose cover types are numbers. *)
Definition numbered_cover_case : json :=
  JDict (list_to_map [("productName", JStr "Clear Case");
                      ("coverType", JList [JInt 1; JInt 2])]).

(** A request that leaves [top_k_faqs] null. *)
Definition ask_without_faq_count (text : string) : Main.QueryRequest :=
  {| Main.req_query := text;
     Main.top_k_products := Some Main.TOP_K_PRODUCTS;
     Main.top_k_faqs := None;
     Main.user_id := None |}.

(** Globals after a start-up that found no store. *)
Definition no_store : Main.Globals :=
  {| Main.gemini_client := Some tt;
     Main.products_collection := None;
     Main.faqs_collection := None |}.

(** An embedding service that is down. *)
Definition failing_embed (t : nat) (text : string) : EmbeddingUtils.EmbedOutcome :=
  EmbeddingUtils.EmbedRaises.

(** A generative model that answers with white space. *)
Definition blank_generate (t : nat) (prompt : string) : Main.GenOutcome :=
  Main.GenResponse (Some "   ").

(** A raw product as the shop exports it. *)
Definition raw_case : json :=
  JDict (list_to_map
           [("_id", JStr " 64af01 ");
            ("productName", JStr "  Clear Case ");
            ("brands", JDict (list_to_map [("brandName", JStr "Apple ")]));
            ("phoneModel", JStr "iPhone 14");
            ("coverType", JList [JStr "hard"]);
            ("productDescription", JStr " A clear case. ");
            ("productPrice", JInt 499);
            ("productCategory", JStr " Phone Cases ");
            ("productImage", JStr "clear.png")]).

Definition raw_case_fields : gmap string json :=
  match raw_case with JDict fields => fields | _ => ∅ end.

(** A raw product whose name is a number. *)
Definition raw_numbered : json :=
  JDict (list_to_map [("_id", JStr "1"); ("productName", JInt 14)]).

End Samples.

(** Unfolding the state-and-exception plumbing in a goal. *)
Ltac unfold_monad :=
  unfold Py.bind, Py.ret, Py.raise, Py.try_except, Py.lift, Py.modify, emit in *.

(** * Properties *)

Section StringFacts.

Lemma lstrip_blank s : blank s = true -> lstrip s = EmptyString.
Proof.
  induction s as [|c s IH]; simpl; [done|].
  destruct (isspace c); simpl; [auto|discriminate].
Qed.

Lemma lstrip_head s :
  lstrip s = EmptyString \/
  exists c r, lstrip s = String c r /\ isspace c = false.
Proof.
  induction s as [|c s IH]; simpl; [by left|].
  destruct (isspace c) eqn:Hc; [done|]. right. by exists c, s.
Qed.

Lemma lstrip_empty_blank s : lstrip s = EmptyString -> blank s = true.
Proof.
  induction s as [|c s IH]; simpl; [done|].
  destruct (isspace c); simpl; [auto|discriminate].
Qed.

Lemma rstrip_head c s :
  isspace c = false -> exists r, rstrip (String c s) = String c r.
Proof.
  intros Hc. simpl. destruct (rstrip s); rewrite ?Hc; eauto.
Qed.

Lemma rstrip_idem s : rstrip (rstrip s) = rstrip s.
Proof.
  induction s as [|c s IH]; simpl; [done|].
  destruct (rstrip s) as [|d r] eqn:Hr.
  - destruct (isspace c) eqn:Hc; simpl; by rewrite ?Hc.
  - change (rstrip (String c (String d r))) with
      (match rstrip (String d r) with
       | EmptyString => if isspace c then EmptyString else String c EmptyString
       | x => String c x end).
    by rewrite IH.
Qed.

(** [strip] leaves either nothing or a text that starts with a
    character that is not white space. *)
Lemma strip_head s :
  strip s = EmptyString \/
  exists c r, strip s = String c r /\ isspace c = false.
Proof.
  unfold strip. destruct (lstrip_head s) as [->|(c & r & -> & Hc)]; [by left|].
  right. destruct (rstrip_head c r Hc) as [r' ->]. eauto.
Qed.

Lemma strip_empty s : is_empty (strip s) = blank s.
Proof.
  destruct (blank s) eqn:Hb.
  - unfold strip. by rewrite lstrip_blank.
  - unfold strip. destruct (lstrip_head s) as [He|(c & r & He & Hc)].
    + apply lstrip_empty_blank in He. congruence.
    + rewrite He. by destruct (rstrip_head c r Hc) as [r' ->].
Qed.

Lemma strip_idem s : strip (strip s) = strip s.
Proof.
  destruct (strip_head s) as [->|(c & r & He & Hc)]; [done|].
  unfold strip at 1. rewrite He. simpl lstrip. rewrite Hc.
  rewrite <- He. unfold strip. apply rstrip_idem.
Qed.

Lemma blank_strip s : blank (strip s) = is_empty (strip s).
Proof. by rewrite <- strip_empty, strip_idem. Qed.

End StringFacts.

Lemma omap_length_le {A B} (f : A -> option B) (l : list A) :
  (length (omap f l) <= length l)%nat.
Proof. induction l as [|x l IH]; csimpl; [lia|]. destruct (f x); csimpl; lia. Qed.

Section ProviderFacts.
Variable embed_content : nat -> string -> EmbeddingUtils.EmbedOutcome.

Lemma get_embedding_blank text w :
  blank text = true ->
  EmbeddingUtils.get_embedding embed_content text w = (w, Ok None).
Proof.
  intros Hb. unfold EmbeddingUtils.get_embedding.
  rewrite strip_empty, Hb, orb_true_r. done.
Qed.

Lemma get_embedding_calls text w :
  blank text = false ->
  EmbeddingUtils.get_embedding embed_content text w
  = EmbeddingUtils.call_provider embed_content text w.
Proof.
  intros Hb. unfold EmbeddingUtils.get_embedding.
  rewrite strip_empty, Hb. by destruct text.
Qed.

Lemma get_embedding_run text w :
  EmbeddingUtils.get_embedding embed_content text w
  = if blank text then (w, Ok None)
    else EmbeddingUtils.call_provider embed_content text w.
Proof.
  destruct (blank text) eqn:Hb;
    [by apply get_embedding_blank | by apply get_embedding_calls].
Qed.
End ProviderFacts.

Section ServerFacts.
Variable embed_content : nat -> string -> EmbeddingUtils.EmbedOutcome.
Variable rank : gmap string Entry -> Embedding -> list string.
Variable generate_content : nat -> string -> Main.GenOutcome.
Variable globals : Main.Globals.

Local Abbreviation retrieve_products := (Main.retrieve_products embed_content rank globals).
Local Abbreviation retrieve_faqs := (Main.retrieve_faqs embed_content rank globals).
Local Abbreviation generate_response_with_gemini :=
  (Main.generate_response_with_gemini generate_content globals).
Local Abbreviation query_chatbot :=
  (Main.query_chatbot embed_content rank generate_content globals).

Lemma query_bounded name v n w :
  exists r, Chroma.query rank name v n w
            = ({| store := store w; trace := trace w ++ [CollectionQuery name v n] |}, r)
    /\ forall l, r = Ok l -> (Z.of_nat (length l) <= Z.max 0 n)%Z.
Proof.
  unfold Chroma.query. unfold_monad. simpl.
  destruct (store w !! name) as [c|]; [|eexists; split; [done|discriminate]].
  destruct (n <=? 0)%Z eqn:Hn; [eexists; split; [done|discriminate]|].
  destruct (Chroma.fits c v); simpl; [|eexists; split; [done|discriminate]].
  eexists; split; [done|]. intros l [= <-].
  apply Z.leb_gt in Hn.
  etrans; [apply inj_le, omap_length_le|]. rewrite length_take. lia.
Qed.

Lemma collect_products_length ms : (length (Main.collect_products ms) <= length ms)%nat.
Proof. apply omap_length_le. Qed.

Lemma collect_faqs_length ms : (length (Main.collect_faqs ms) <= length ms)%nat.
Proof. apply omap_length_le. Qed.

(** One retrieval helper, for a text that is not blank. *)
Lemma retrieve_products_run c q k w :
  Main.products_collection globals = Some c -> blank q = false ->
  exists l, retrieve_products q k w
    = ({| store := store w;
          trace := trace w ++ Observed.retrieval_events embed_content c 10 (now w) q k |},
       Ok l)
    /\ (length l <= 10)%nat.
Proof.
  intros Hc Hq. unfold Main.retrieve_products. rewrite Hc.
  unfold Py.try_except, Py.bind. rewrite get_embedding_calls by done.
  unfold EmbeddingUtils.call_provider, Observed.retrieval_events.
  destruct (embed_content (now w) q) as [|[v|]]; simpl.
  - exists []. split; [done|simpl; lia].
  - match goal with |- context [Chroma.query rank c v ?n ?w1] =>
      destruct (query_bounded c v n w1) as (r & -> & Hr) end.
    simpl. rewrite <- app_assoc. simpl.
    destruct r as [ms|e]; simpl.
    + eexists; split; [done|]. specialize (Hr ms eq_refl).
      pose proof (collect_products_length ms). lia.
    + exists []. split; [done|simpl; lia].
  - exists []. split; [done|simpl; lia].
Qed.

Lemma retrieve_faqs_run c q k w :
  Main.faqs_collection globals = Some c -> blank q = false ->
  exists l, retrieve_faqs q k w
    = ({| store := store w;
          trace := trace w ++ Observed.retrieval_events embed_content c 5 (now w) q k |},
       Ok l)
    /\ (length l <= 5)%nat.
Proof.
  intros Hc Hq. unfold Main.retrieve_faqs. rewrite Hc.
  unfold Py.try_except, Py.bind. rewrite get_embedding_calls by done.
  unfold EmbeddingUtils.call_provider, Observed.retrieval_events.
  destruct (embed_content (now w) q) as [|[v|]]; simpl.
  - exists []. split; [done|simpl; lia].
  - match goal with |- context [Chroma.query rank c v ?n ?w1] =>
      destruct (query_bounded c v n w1) as (r & -> & Hr) end.
    simpl. rewrite <- app_assoc. simpl.
    destruct r as [ms|e]; simpl.
    + eexists; split; [done|]. specialize (Hr ms eq_refl).
      pose proof (collect_faqs_length ms). lia.
    + exists []. split; [done|simpl; lia].
  - exists []. split; [done|simpl; lia].
Qed.

(** The helpers called on their own, for any text. *)
Lemma retrieve_products_total q k w :
  exists w' l, retrieve_products q k w = (w', Ok l) /\ (length l <= 10)%nat.
Proof.
  destruct (Main.products_collection globals) as [c|] eqn:Hc.
  - destruct (blank q) eqn:Hq.
    + unfold Main.retrieve_products. rewrite Hc. unfold Py.try_except, Py.bind.
      rewrite get_embedding_blank by done. exists w, []. split; [done|simpl; lia].
    + destruct (retrieve_products_run c q k w Hc Hq) as (l & -> & Hl). eauto.
  - unfold Main.retrieve_products. rewrite Hc. exists w, []. split; [done|simpl; lia].
Qed.

Lemma retrieve_faqs_total q k w :
  exists w' l, retrieve_faqs q k w = (w', Ok l) /\ (length l <= 5)%nat.
Proof.
  destruct (Main.faqs_collection globals) as [c|] eqn:Hc.
  - destruct (blank q) eqn:Hq.
    + unfold Main.retrieve_faqs. rewrite Hc. unfold Py.try_except, Py.bind.
      rewrite get_embedding_blank by done. exists w, []. split; [done|simpl; lia].
    + destruct (retrieve_faqs_run c q k w Hc Hq) as (l & -> & Hl). eauto.
  - unfold Main.retrieve_faqs. rewrite Hc. exists w, []. split; [done|simpl; lia].
Qed.

Lemma fallback_nonempty prods fs : Main.fallback_response prods fs <> EmptyString.
Proof. by destruct prods, fs. Qed.

(** The generation step never raises; with a client it sends exactly
    one request, and answers with the fallback when that request fails. *)
Lemma generate_response_run q prods fs w :
  Main.gemini_client globals = Some tt ->
  exists text, generate_response_with_gemini q prods fs w
    = ({| store := store w;
          trace := trace w ++ [GenerateContent (Main.build_prompt q prods fs)] |},
       Ok text)
    /\ (match generate_content (now w) (Main.build_prompt q prods fs) with
        | Main.GenResponse (Some t) => text = strip t
        | _ => text = Main.fallback_response prods fs
        end).
Proof.
  intros Hg. unfold Main.generate_response_with_gemini. rewrite Hg.
  unfold Py.try_except, Py.bind, Main.call_model.
  destruct (generate_content _ _) as [|[t|]]; simpl; eauto.
Qed.

Lemma strip_not_blank raw :
  blank raw = false -> blank (strip raw) = false /\ is_empty (strip raw) = false.
Proof. intros Hb. by rewrite blank_strip, strip_empty. Qed.

(** The handler on a request that passes its four checks and carries
    both counts: what is sent out, in order, and what comes back. *)
Lemma query_chatbot_run request w c_p c_f k_p k_f :
  let q := strip (Main.req_query request) in
  blank (Main.req_query request) = false ->
  (String.length q <= 500)%nat ->
  Main.gemini_client globals = Some tt ->
  Main.products_collection globals = Some c_p ->
  Main.faqs_collection globals = Some c_f ->
  Main.top_k_products request = Some k_p ->
  Main.top_k_faqs request = Some k_f ->
  let evs_p := Observed.retrieval_events embed_content c_p 10 (now w) q (Z.min k_p 10) in
  let w1 := {| store := store w; trace := trace w ++ evs_p |} in
  let evs_f := Observed.retrieval_events embed_content c_f 5 (now w1) q (Z.min k_f 5) in
  let w2 := {| store := store w; trace := trace w1 ++ evs_f |} in
  exists prods fs text,
    query_chatbot request w
    = ({| store := store w;
          trace := trace w2 ++ [GenerateContent (Main.build_prompt q prods fs)] |},
       Ok {| Main.query := q;
             Main.responseText := text;
             Main.products := prods;
             Main.faqs := fs;
             Main.hasResults := (0 <? length prods)%nat || (0 <? length fs)%nat;
             Main.conversationContext :=
               Some ("Found " +:+ pretty (length prods) +:+ " products and "
                     +:+ pretty (length fs) +:+ " FAQs") |})
    /\ (length prods <= 10)%nat /\ (length fs <= 5)%nat
    /\ (match generate_content (now w2) (Main.build_prompt q prods fs) with
        | Main.GenResponse (Some t) => text = strip t
        | _ => text = Main.fallback_response prods fs
        end).
Proof.
  intros q Hb Hlen Hg Hp Hf Hkp Hkf evs_p w1 evs_f w2.
  destruct (strip_not_blank _ Hb) as [Hqb Hqe]. fold q in Hqb, Hqe.
  unfold Main.query_chatbot. fold q. rewrite Hqe.
  replace (500 <? String.length q)%nat with false
    by (symmetry; apply Nat.ltb_ge; lia).
  rewrite Hg, Hp, Hf, Hkp, Hkf. simpl.
  unfold Py.try_except, Py.bind, Py.lift. simpl.
  destruct (retrieve_products_run c_p q (Z.min k_p 10) w Hp Hqb) as (prods & -> & Hlp).
  fold evs_p. fold w1.
  destruct (retrieve_faqs_run c_f q (Z.min k_f 5) w1 Hf Hqb) as (fs & -> & Hlf).
  fold evs_f. change (store w1) with (store w). fold w2.
  destruct (generate_response_run q prods fs w2 Hg) as (text & -> & Ht).
  exists prods, fs, text. auto.
Qed.

Lemma query_chatbot_rejects request w :
  blank (Main.req_query request) = true \/
  (500 < String.length (strip (Main.req_query request)))%nat ->
  exists detail,
    query_chatbot request w = (w, Raise (HTTPException 400 detail))
    /\ detail = (if blank (Main.req_query request)
                 then "Query cannot be empty."
                 else "Query is too long. Max 500 characters.").
Proof.
  intros H. unfold Main.query_chatbot. rewrite strip_empty.
  destruct (blank (Main.req_query request)) eqn:Hb; [by eexists|].
  destruct H as [?|H]; [done|].
  apply Nat.ltb_lt in H. rewrite H. by eexists.
Qed.

(** Every way a request that passes the two checks on its text can go. *)
Lemma query_chatbot_cases request w :
  let q := strip (Main.req_query request) in
  blank (Main.req_query request) = false ->
  (String.length q <= 500)%nat ->
  (exists code detail,
      query_chatbot request w = (w, Raise (HTTPException code detail))
      /\ (code = 503 \/ code = 500)%Z)
  \/ (exists c_p k_p detail,
        query_chatbot request w
        = ({| store := store w;
              trace := trace w ++ Observed.retrieval_events embed_content c_p 10
                                    (now w) q (Z.min k_p 10) |},
           Raise (HTTPException 500 detail)))
  \/ (exists c_p c_f k_p k_f,
        Main.gemini_client globals = Some tt
        /\ Main.products_collection globals = Some c_p
        /\ Main.faqs_collection globals = Some c_f
        /\ Main.top_k_products request = Some k_p
        /\ Main.top_k_faqs request = Some k_f).
Proof.
  intros q Hb Hlen.
  destruct (strip_not_blank _ Hb) as [Hqb Hqe]. fold q in Hqb, Hqe.
  destruct (Main.products_collection globals) as [c_p|] eqn:Hp; cycle 1.
  { left. unfold Main.query_chatbot. fold q. rewrite Hqe, Hp.
    replace (500 <? String.length q)%nat with false
      by (symmetry; apply Nat.ltb_ge; lia).
    simpl. eauto 10. }
  destruct (Main.faqs_collection globals) as [c_f|] eqn:Hf; cycle 1.
  { left. unfold Main.query_chatbot. fold q. rewrite Hqe, Hp, Hf.
    replace (500 <? String.length q)%nat with false
      by (symmetry; apply Nat.ltb_ge; lia).
    simpl. eauto 10. }
  destruct (Main.gemini_client globals) as [[]|] eqn:Hg; cycle 1.
  { left. unfold Main.query_chatbot. fold q. rewrite Hqe, Hp, Hf, Hg.
    replace (500 <? String.length q)%nat with false
      by (symmetry; apply Nat.ltb_ge; lia).
    simpl. eauto 10. }
  destruct (Main.top_k_products request) as [k_p|] eqn:Hkp; cycle 1.
  { left. unfold Main.query_chatbot. fold q. rewrite Hqe, Hp, Hf, Hg, Hkp.
    replace (500 <? String.length q)%nat with false
      by (symmetry; apply Nat.ltb_ge; lia).
    simpl. eauto 10. }
  destruct (Main.top_k_faqs request) as [k_f|] eqn:Hkf; cycle 1.
  { right. left. unfold Main.query_chatbot. fold q. rewrite Hqe, Hp, Hf, Hg, Hkp, Hkf.
    replace (500 <? String.length q)%nat with false
      by (symmetry; apply Nat.ltb_ge; lia).
    simpl. unfold Py.try_except, Py.bind, Py.lift. simpl.
    destruct (retrieve_products_run c_p q (Z.min k_p 10) w Hp Hqb) as (prods & -> & Hlp).
    simpl. eauto 10. }
  right. right. eauto 10.
Qed.

Lemma embed_calls_retrieval c cap t q k :
  Observed.embed_calls (Observed.retrieval_events embed_content c cap t q k) = [q].
Proof.
  unfold Observed.retrieval_events, Observed.embed_calls.
  by destruct (embed_content t q) as [|[v|]].
Qed.

Lemma embed_calls_app evs1 evs2 :
  Observed.embed_calls (evs1 ++ evs2)
  = (Observed.embed_calls evs1 ++ Observed.embed_calls evs2)%list.
Proof. apply omap_app. Qed.

Lemma retrieval_events_no_generate c cap t q k i p :
  Observed.retrieval_events embed_content c cap t q k !! i = Some (GenerateContent p) ->
  False.
Proof.
  unfold Observed.retrieval_events.
  destruct (embed_content t q) as [|[v|]]; destruct i as [|[|[|i]]]; done.
Qed.

Lemma fallback_by_counts prods fs prods' fs' :
  length prods' = length prods -> length fs' = length fs ->
  Main.fallback_response prods' fs' = Main.fallback_response prods fs.
Proof.
  intros Hp Hf. destruct prods, prods'; try discriminate.
  - destruct fs, fs'; try discriminate; done.
  - unfold Main.fallback_response. by rewrite Hp.
Qed.

(** C3: when the request to the generative model made for a query
    fails, the handler still answers, and the failure does not reach
    the caller.  The answer's [responseText] is the sentence of the
    [except] clause: with products retrieved, the one that gives their
    number; with FAQs only, the one about helpful information; with
    neither, the one that asks to rephrase.  It is not empty, it is
    fixed by the numbers of products and FAQs retrieved, and the answer
    reports both numbers in [conversationContext]. *)
Theorem generation_failure_is_masked (request : Main.QueryRequest)
    (w w' : World) (r : result Main.QueryResponse) :
  query_chatbot request w = (w', r) ->
  (exists (t : nat) (prompt : string),
      (now w <= t)%nat
      /\ trace w' !! t = Some (GenerateContent prompt)
      /\ Observed.generation_failed (generate_content t prompt)) ->
  exists response,
    r = Ok response
    /\ Main.responseText response
       = Main.fallback_response (Main.products response) (Main.faqs response)
    /\ Main.responseText response
       = match Main.products response, Main.faqs response with
         | _ :: _, _ =>
             "I found " +:+ pretty (length (Main.products response))
             +:+ " product(s) that match your query. Check them out below!"
         | [], _ :: _ =>
             "I found some helpful information that might answer your question."
         | [], [] =>
             "I couldn't find exactly what you're looking for. Try rephrasing your question or browse our categories!"
         end
    /\ Main.responseText response <> EmptyString
    /\ (forall prods fs,
          length prods = length (Main.products response) ->
          length fs = length (Main.faqs response) ->
          Main.fallback_response prods fs = Main.responseText response)
    /\ Main.conversationContext response
       = Some ("Found " +:+ pretty (length (Main.products response))
               +:+ " products and " +:+ pretty (length (Main.faqs response))
               +:+ " FAQs").
Proof.
  intros Hrun (t & prompt & Ht & Hev & Hfail). unfold now in Ht.
  assert (Hnone : trace w !! t = Some (GenerateContent prompt) -> False).
  { intros H. apply lookup_lt_Some in H. lia. }
  destruct (blank (Main.req_query request)) eqn:Hb.
  { destruct (query_chatbot_rejects request w (or_introl Hb)) as (d & Hr & _).
    rewrite Hr in Hrun. injection Hrun as <- <-. by destruct Hnone. }
  destruct (Nat.le_gt_cases (String.length (strip (Main.req_query request))) 500)
    as [Hlen|Hlen]; cycle 1.
  { destruct (query_chatbot_rejects request w (or_intror Hlen)) as (d & Hr & _).
    rewrite Hr in Hrun. injection Hrun as <- <-. by destruct Hnone. }
  destruct (query_chatbot_cases request w Hb Hlen)
    as [(code & d & Hr & _)|[(c_p & k_p & d & Hr)|
        (c_p & c_f & k_p & k_f & Hg & Hp & Hf & Hkp & Hkf)]].
  - rewrite Hr in Hrun. injection Hrun as <- <-. by destruct Hnone.
  - rewrite Hr in Hrun. injection Hrun as <- <-. simpl in Hev.
    rewrite lookup_app_r in Hev by done.
    by apply retrieval_events_no_generate in Hev.
  - destruct (query_chatbot_run request w c_p c_f k_p k_f Hb Hlen Hg Hp Hf Hkp Hkf)
      as (prods & fs & text & Hr & _ & _ & Htext).
    rewrite Hr in Hrun. injection Hrun as <- <-.
    cbv zeta in Htext. simpl trace in Hev, Htext.
    set (evs_p := Observed.retrieval_events _ c_p _ _ _ _) in *.
    set (evs_f := Observed.retrieval_events _ c_f _ _ _ _) in *.
    assert (t = length ((trace w ++ evs_p) ++ evs_f) /\
            prompt = Main.build_prompt (strip (Main.req_query request)) prods fs)
      as [-> ->].
    { destruct (decide (t < length ((trace w ++ evs_p) ++ evs_f))%nat) as [Hlt|Hge].
      - rewrite lookup_app_l in Hev by done.
        destruct (decide (t < length (trace w ++ evs_p))%nat) as [Hlt'|Hge'].
        + rewrite lookup_app_l in Hev by done.
          rewrite lookup_app_r in Hev by done.
          by apply retrieval_events_no_generate in Hev.
        + rewrite lookup_app_r in Hev by lia.
          by apply retrieval_events_no_generate in Hev.
      - rewrite lookup_app_r in Hev by lia.
        destruct (t - length ((trace w ++ evs_p) ++ evs_f))%nat as [|i] eqn:Hi;
          simpl in Hev; [|done].
        injection Hev as <-. split; [lia|done]. }
    unfold now in Htext. simpl trace in Htext.
    destruct (generate_content _ _) as [|[reply|]]; [|done|]; subst text;
      (eexists; split; [done|]; simpl;
       split; [done|]; split; [by destruct prods, fs|];
       split; [apply fallback_nonempty|]; split; [apply fallback_by_counts | done]).
Qed.

(** C8: whatever [top_k] is asked for, [retrieve_products] returns at
    most 10 products and [retrieve_faqs] at most 5 FAQs (neither ever
    raises), and so does every answer of the /query handler. *)
Theorem retrieval_never_exceeds_caps (query_text : string) (top_k : Z)
    (request : Main.QueryRequest) (w : World) :
  (match (retrieve_products query_text top_k w).2 with
   | Ok prods => (length prods <= 10)%nat
   | Raise _ => False
   end)
  /\ (match (retrieve_faqs query_text top_k w).2 with
      | Ok fs => (length fs <= 5)%nat
      | Raise _ => False
      end)
  /\ (match (query_chatbot request w).2 with
      | Ok response => (length (Main.products response) <= 10)%nat
                       /\ (length (Main.faqs response) <= 5)%nat
      | Raise _ => True
      end).
Proof.
  split; [|split].
  - by destruct (retrieve_products_total query_text top_k w) as (w' & l & -> & Hl).
  - by destruct (retrieve_faqs_total query_text top_k w) as (w' & l & -> & Hl).
  - destruct (blank (Main.req_query request)) eqn:Hb.
    { by destruct (query_chatbot_rejects request w (or_introl Hb)) as (d & -> & _). }
    destruct (Nat.le_gt_cases (String.length (strip (Main.req_query request))) 500)
      as [Hlen|Hlen]; cycle 1.
    { by destruct (query_chatbot_rejects request w (or_intror Hlen)) as (d & -> & _). }
    destruct (query_chatbot_cases request w Hb Hlen)
      as [(code & d & -> & _)|[(c_p & k_p & d & ->)|
          (c_p & c_f & k_p & k_f & Hg & Hp & Hf & Hkp & Hkf)]]; [done..|].
    destruct (query_chatbot_run request w c_p c_f k_p k_f Hb Hlen Hg Hp Hf Hkp Hkf)
      as (prods & fs & text & -> & Hlp & Hlf & _).
    by simpl.
Qed.

(** C9, amended: a query whose text is blank, or longer than 500
    characters after [strip()], is refused with status 400 and the world
    is left as it was: nothing was sent to the embedding service, the
    vector store or the generative model. *)
Theorem stripped_query_checked_before_any_call (request : Main.QueryRequest)
    (w : World) :
  blank (Main.req_query request) = true \/
  (500 < String.length (strip (Main.req_query request)))%nat ->
  exists detail, query_chatbot request w = (w, Raise (HTTPException 400 detail)).
Proof.
  intros H. destruct (query_chatbot_rejects request w H) as (d & -> & _). eauto.
Qed.

(** C10: the handler works on the stripped query.  A blank query is
    refused as empty; the 500-character limit is applied to the stripped
    text, so a request within it is never answered 400, however long the
    raw text is; every text the request sends to the embedding service
    is the stripped text, and so is the [query] field of the answer. *)
Theorem query_is_stripped_before_use (request : Main.QueryRequest)
    (w w' : World) (r : result Main.QueryResponse) :
  query_chatbot request w = (w', r) ->
  let q := strip (Main.req_query request) in
  (blank (Main.req_query request) = true ->
     w' = w /\ r = Raise (HTTPException 400 "Query cannot be empty."))
  /\ (blank (Main.req_query request) = false -> (500 < String.length q)%nat ->
        w' = w /\ r = Raise (HTTPException 400 "Query is too long. Max 500 characters."))
  /\ (blank (Main.req_query request) = false -> (String.length q <= 500)%nat ->
        (forall detail, r <> Raise (HTTPException 400 detail))
        /\ (exists n, Observed.embed_calls (trace w')
                      = (Observed.embed_calls (trace w) ++ replicate n q)%list)
        /\ (forall response, r = Ok response -> Main.query response = q)).
Proof.
  intros Hrun q. split; [|split].
  - intros Hb. destruct (query_chatbot_rejects request w (or_introl Hb)) as (d & Hr & ->).
    rewrite Hb in Hr. split; congruence.
  - intros Hb Hlen.
    destruct (query_chatbot_rejects request w (or_intror Hlen)) as (d & Hr & ->).
    rewrite Hb in Hr. split; congruence.
  - intros Hb Hlen.
    destruct (query_chatbot_cases request w Hb Hlen)
      as [(code & d & Hr & Hcode)|[(c_p & k_p & d & Hr)|
          (c_p & c_f & k_p & k_f & Hg & Hp & Hf & Hkp & Hkf)]].
    + rewrite Hr in Hrun. injection Hrun as <- <-. split; [|split].
      * intros d' [= -> _]. lia.
      * exists 0%nat. by rewrite app_nil_r.
      * discriminate.
    + rewrite Hr in Hrun. injection Hrun as <- <-. split; [|split].
      * discriminate.
      * exists 1%nat. simpl. by rewrite embed_calls_app, embed_calls_retrieval.
      * discriminate.
    + destruct (query_chatbot_run request w c_p c_f k_p k_f Hb Hlen Hg Hp Hf Hkp Hkf)
        as (prods & fs & text & Hr & _).
      rewrite Hr in Hrun. injection Hrun as <- <-. split; [|split].
      * discriminate.
      * exists 2%nat. simpl.
        rewrite !embed_calls_app, !embed_calls_retrieval. simpl.
        by rewrite app_nil_r, <- app_assoc.
      * by intros response [= <-].
Qed.

(** C2, amended: a request that passes the handler's checks and carries
    both counts has its stripped text sent to the embedding service
    twice, once by [retrieve_products] and once by [retrieve_faqs]; each
    helper queries its collection with the vector its own request
    returned (and not at all when that request gave none), and the
    generative model is called after both. *)
Theorem each_helper_embeds_the_query (request : Main.QueryRequest) (w : World)
    (c_p c_f : string) (k_p k_f : Z) :
  let q := strip (Main.req_query request) in
  blank (Main.req_query request) = false ->
  (String.length q <= 500)%nat ->
  Main.gemini_client globals = Some tt ->
  Main.products_collection globals = Some c_p ->
  Main.faqs_collection globals = Some c_f ->
  Main.top_k_products request = Some k_p ->
  Main.top_k_faqs request = Some k_f ->
  let w' := (query_chatbot request w).1 in
  let evs_p := Observed.retrieval_events embed_content c_p 10 (now w) q (Z.min k_p 10) in
  let evs_f := Observed.retrieval_events embed_content c_f 5
                 (now w + length evs_p) q (Z.min k_f 5) in
  (exists prompt,
      trace w' = (trace w ++ evs_p ++ evs_f ++ [GenerateContent prompt])%list)
  /\ Observed.embed_calls (trace w')
     = (Observed.embed_calls (trace w) ++ [q; q])%list.
Proof.
  intros q Hb Hlen Hg Hp Hf Hkp Hkf w' evs_p evs_f.
  destruct (query_chatbot_run request w c_p c_f k_p k_f Hb Hlen Hg Hp Hf Hkp Hkf)
    as (prods & fs & text & Hr & _).
  subst w'. rewrite Hr. simpl. fold q. fold evs_p.
  replace (now {| store := store w; trace := trace w ++ evs_p |})
    with (now w + length evs_p)%nat by (unfold now; simpl; by rewrite length_app).
  fold evs_f. split.
  - eexists. by rewrite <- !app_assoc.
  - rewrite !embed_calls_app. subst evs_p evs_f.
    rewrite !embed_calls_retrieval. simpl. by rewrite app_nil_r, <- app_assoc.
Qed.

End ServerFacts.

Section IngestBlank.
Variable embed_content : nat -> string -> EmbeddingUtils.EmbedOutcome.
Variable policy : Chroma.DuplicatePolicy.
Variable script : Ingest.Script.
Variable batch_size : Z.

(** A record whose text is blank is skipped: one line, one more error,
    nothing sent out and nothing stored. *)
Lemma loop_body_blank idx record text l :
  Ingest.create_text script record = Ok text ->
  blank text = true ->
  Ingest.loop_body embed_content policy script batch_size idx record l
  = ({| Ingest.world := {| store := store (Ingest.world l);
                           trace := trace (Ingest.world l)
                                    ++ [Print (Skipped (idx + 1))] |};
        Ingest.success_count := Ingest.success_count l;
        Ingest.error_count := S (Ingest.error_count l) |}, Ok tt).
Proof.
  intros Ht Hb. unfold Ingest.loop_body, Ingest.process_record.
  unfold Py.try_except, Py.bind, Py.lift. rewrite Ht.
  unfold Ingest.in_world at 1. rewrite get_embedding_blank by done.
  done.
Qed.
End IngestBlank.

(** C6: for a text that is empty or all white space, [get_embedding]
    returns [None] without raising and leaves the world as it was, so the
    embedding service is not called; the callers take that [None] as
    nothing to do: the ingestion loop counts the record as skipped and
    stores nothing, the retrieval helpers return an empty list without
    querying the store. *)
Theorem blank_text_gets_no_embedding
    (embed_content : nat -> string -> EmbeddingUtils.EmbedOutcome) (text : string) :
  blank text = true ->
  (forall w, EmbeddingUtils.get_embedding embed_content text w = (w, Ok None))
  /\ (forall policy script batch_size idx record l,
        Ingest.create_text script record = Ok text ->
        Ingest.loop_body embed_content policy script batch_size idx record l
        = ({| Ingest.world := {| store := store (Ingest.world l);
                                 trace := trace (Ingest.world l)
                                          ++ [Print (Skipped (idx + 1))] |};
              Ingest.success_count := Ingest.success_count l;
              Ingest.error_count := S (Ingest.error_count l) |}, Ok tt))
  /\ (forall rank globals top_k w,
        Main.retrieve_products embed_content rank globals text top_k w = (w, Ok [])
        /\ Main.retrieve_faqs embed_content rank globals text top_k w = (w, Ok [])).
Proof.
  intros Hb. split; [|split].
  - intros w. by apply get_embedding_blank.
  - intros policy script batch_size idx record l Ht.
    by apply loop_body_blank with (text := text).
  - intros rank globals top_k w. split.
    + unfold Main.retrieve_products.
      destruct (Main.products_collection globals); [|done].
      unfold Py.try_except, Py.bind. by rewrite get_embedding_blank.
    + unfold Main.retrieve_faqs.
      destruct (Main.faqs_collection globals); [|done].
      unfold Py.try_except, Py.bind. by rewrite get_embedding_blank.
Qed.

(** A collection takes a vector that is not empty and has the length of
    every vector it holds. *)
Lemma fits_spec (c : gmap string Entry) (v : Embedding) :
  Chroma.fits c v = true
  <-> length v <> 0%nat
      /\ forall id e, c !! id = Some e -> length (embedding e) = length v.
Proof.
  unfold Chroma.fits, Chroma.same_length.
  rewrite andb_true_iff, negb_true_iff, Nat.eqb_neq, forallb_forall.
  split; intros [Hv H]; (split; [done|]).
  - intros id e He. apply Nat.eqb_eq, H, list_elem_of_In, list_elem_of_fmap.
    exists (id, e). split; [done|]. by apply elem_of_map_to_list.
  - intros e He. apply list_elem_of_In, list_elem_of_fmap in He as [[id e'] [-> Hin]].
    apply elem_of_map_to_list in Hin. apply Nat.eqb_eq. eauto.
Qed.

Lemma fits_empty (v : Embedding) : length v <> 0%nat -> Chroma.fits ∅ v = true.
Proof. intros Hv. apply fits_spec. split; [done|]. intros id e. by rewrite lookup_empty. Qed.

Section IngestFacts.
Variable embed_content : nat -> string -> EmbeddingUtils.EmbedOutcome.
Variable policy : Chroma.DuplicatePolicy.
Variable script : Ingest.Script.
Variable batch_size : Z.

Local Abbreviation loop_body := (Ingest.loop_body embed_content policy script batch_size).
Local Abbreviation entry_id := (Ingest.entry_id script).
Local Abbreviation name := (Ingest.collection_name script).
Local Abbreviation candidate := (Records.candidate embed_content script).
Local Abbreviation displays := (Records.displays script).
Local Abbreviation settle := (Records.settle policy).
Local Abbreviation stores := (Records.stores embed_content policy script).
Local Abbreviation completes := (Records.completes embed_content policy script batch_size).

Local Abbreviation store_after := (Records.store_after embed_content policy script).

(** One turn of the loop, whatever the record. *)
Lemma loop_body_step idx record l :
  let t := now (Ingest.world l) in
  let oc := store (Ingest.world l) !! name in
  exists evs,
    loop_body idx record l
    = ({| Ingest.world := {| store := store_after idx record l;
                             trace := trace (Ingest.world l) ++ evs |};
          Ingest.success_count :=
            (Ingest.success_count l + Nat.b2n (stores t idx record oc))%nat;
          Ingest.error_count :=
            (Ingest.error_count l + Nat.b2n (negb (completes t idx record oc)))%nat |},
       Ok tt)
    /\ Observed.failures evs
       = (if completes t idx record oc then [] else [(idx + 1)%nat])
    /\ existsb Observed.is_stored_line evs = stores t idx record oc && displays record
    /\ existsb Observed.is_sleep evs
       = completes t idx record oc && ((Z.of_nat idx + 1) mod batch_size =? 0).
Proof.
  intros t oc. subst t oc.
  unfold Ingest.loop_body, Ingest.process_record, Records.store_after,
    Records.completes, Records.stores, Records.candidate, Records.displays,
    Records.settle, Ingest.pacing_due, Ingest.print, Ingest.sleep,
    Ingest.incr_success, Ingest.incr_error.
  unfold Py.try_except, Py.bind, Py.lift, Py.ret, Py.modify, Ingest.in_world.
  destruct (store (Ingest.world l) !! name) as [c|] eqn:Hc;
    destruct (Ingest.create_text script record) as [text|e] eqn:Htext;
    rewrite ?get_embedding_run;
    unfold EmbeddingUtils.call_provider, Chroma.add, Py.bind, emit, Py.modify;
    fold (now (Ingest.world l));
    repeat (case_match; simplify_eq/=);
    rewrite ?(insert_id _ _ _ Hc), ?Nat.add_0_r, ?Nat.add_1_r, <- ?app_assoc;
    (eexists; split; [reflexivity|]; done).
Qed.

(** The turns of [for_each] never raise, so an invariant of one turn
    is an invariant of the loop. *)
Lemma for_each_ind (P : nat -> Ingest.Loop -> Prop) records idx0 :
  (forall i r l, records !! i = Some r -> P i l ->
                 P (S i) (loop_body (idx0 + i) r l).1) ->
  forall l, P 0%nat l ->
  exists l', Ingest.for_each loop_body idx0 records l = (l', Ok tt)
             /\ P (length records) l'.
Proof.
  revert P idx0. induction records as [|r rest IH]; intros P idx0 Hstep l HP.
  - exists l. by split.
  - simpl. unfold Py.bind.
    pose proof (Hstep 0%nat r l eq_refl HP) as HP1.
    destruct (loop_body_step (idx0 + 0) r l) as (evs & Hrun & _).
    rewrite Hrun in HP1. rewrite Nat.add_0_r in Hrun. rewrite Hrun.
    simpl in HP1.
    apply (IH (fun i => P (S i)) (S idx0)); [|by rewrite Nat.add_0_r in HP1].
    intros i r' l' Hr' HP'.
    replace (S idx0 + i)%nat with (idx0 + S i)%nat by lia.
    by apply Hstep.
Qed.

Lemma for_each_ok records idx l :
  exists l', Ingest.for_each loop_body idx records l = (l', Ok tt).
Proof.
  destruct (for_each_ind (fun _ _ => True) records idx) with (l := l)
    as (l' & H & _); eauto.
Qed.

(** Running the loop over a list with one more record at its end is
    running it over the list and then taking one more turn. *)
Lemma for_each_snoc records record idx l :
  Ingest.for_each loop_body idx (records ++ [record]) l
  = loop_body (idx + length records) record
      (Ingest.for_each loop_body idx records l).1.
Proof.
  revert idx l. induction records as [|r rest IH]; intros idx l; simpl.
  - unfold Py.bind. rewrite Nat.add_0_r.
    by destruct (loop_body_step idx record l) as (evs & -> & _).
  - unfold Py.bind.
    destruct (loop_body_step idx r l) as (evs & -> & _).
    rewrite IH. by replace (S idx + length rest)%nat with (idx + S (length rest))%nat by lia.
Qed.

(** The whole function on a list that loaded. *)
Lemma embed_and_store_run records w :
  let l0 := {| Ingest.world := (Chroma.get_or_create_collection name w).1;
               Ingest.success_count := 0;
               Ingest.error_count := 0 |} in
  let l' := (Ingest.for_each loop_body 0 records l0).1 in
  Ingest.embed_and_store embed_content policy script batch_size (Ok records) w
  = (Ingest.world l', Ok (Ingest.success_count l', Ingest.error_count l')).
Proof.
  intros l0 l'. unfold Ingest.embed_and_store, Py.try_except, Py.bind, Py.lift.
  assert (exists w0, Chroma.get_or_create_collection name w = (w0, Ok name)) as [w0 Hw0].
  { unfold Chroma.get_or_create_collection. destruct (store w !! name); eauto. }
  subst l' l0. rewrite Hw0. simpl.
  by destruct (for_each_ok records 0 {| Ingest.world := w0;
                                        Ingest.success_count := 0;
                                        Ingest.error_count := 0 |}) as (l' & ->).
Qed.

(** C5, amended: the pause goes by a record's place in the input, not
    by the number of records stored so far.  In the turn for the record
    that follows [before] (whatever became of those), the loop sleeps
    exactly when the record was stored and shown (its [Stored] line was
    printed) and its 1-based place, [length before + 1], is a multiple
    of [batch_size]; a skipped or failed record never brings a pause,
    but it does take up a place. *)
Theorem pause_goes_by_position (before : list json) (record : json) (w : World) :
  batch_size <> 0 ->
  let run := Ingest.embed_and_store embed_content policy script batch_size in
  let w1 := (run (Ok before) w).1 in
  let w2 := (run (Ok (before ++ [record])%list) w).1 in
  exists evs,
    trace w2 = (trace w1 ++ evs)%list
    /\ existsb Observed.is_sleep evs
       = existsb Observed.is_stored_line evs
         && ((Z.of_nat (length before) + 1) mod batch_size =? 0).
Proof.
  intros Hb run w1 w2. subst run w1 w2.
  rewrite !embed_and_store_run. simpl. rewrite for_each_snoc. simpl.
  set (l := (Ingest.for_each _ _ before _).1).
  destruct (loop_body_step (length before) record l)
    as (evs & -> & _ & Hstored & Hsleep).
  exists evs. split; [done|].
  rewrite Hsleep, Hstored. unfold Records.completes.
  apply Z.eqb_neq in Hb. rewrite Hb. simpl. by rewrite andb_true_r.
Qed.

(** *** What the loop leaves in the collection *)

Lemma settle_lookup_other c id oe id' :
  id' <> id -> settle c id oe !! id' = c !! id'.
Proof.
  intros Hne. unfold Records.settle, Chroma.add_entry.
  destruct oe as [e|]; [|done].
  destruct (Chroma.fits c (embedding e)); [|done].
  destruct (c !! id), policy; simpl; rewrite ?lookup_insert_ne; done.
Qed.

Lemma settle_lookup_mono c id oe id' :
  is_Some (c !! id') -> is_Some (settle c id oe !! id').
Proof.
  intros Hsome. destruct (decide (id' = id)) as [->|Hne].
  - unfold Records.settle, Chroma.add_entry. destruct oe as [e|]; [|done].
    destruct (Chroma.fits c (embedding e)); [|done].
    destruct (c !! id) eqn:Hc, policy; simpl; rewrite ?lookup_insert_eq, ?Hc; eauto.
  - by rewrite settle_lookup_other.
Qed.

Lemma add_entry_stored c id e c' :
  Chroma.add_entry policy c id e = Ok c' -> is_Some (c' !! id).
Proof.
  unfold Chroma.add_entry. destruct (Chroma.fits c (embedding e)); [|done].
  destruct (c !! id) eqn:Hc, policy; intros [= <-];
    rewrite ?lookup_insert_eq, ?Hc; eauto.
Qed.

Lemma add_entry_accepts c id e :
  Chroma.fits c (embedding e) = true ->
  (policy = Chroma.RejectDuplicate -> c !! id = None) ->
  exists c', Chroma.add_entry policy c id e = Ok c'.
Proof.
  intros Hfits Hfresh. unfold Chroma.add_entry. rewrite Hfits.
  destruct policy; try (destruct (c !! id); eauto; fail).
  rewrite Hfresh by done. eauto.
Qed.

(** A vector the collection takes after a turn is one it took before:
    the turn adds no vector of a new length to a collection that holds
    one. *)
Lemma fits_settle c id oe v :
  Chroma.fits (settle c id oe) v = true -> Chroma.fits c v = true.
Proof.
  unfold Records.settle, Chroma.add_entry. destruct oe as [e|]; [|done].
  destruct (Chroma.fits c (embedding e)) eqn:He; [|done].
  destruct (c !! id) eqn:Hc, policy; simpl; try done;
    rewrite !fits_spec in *; intros [Hv H]; (split; [done|]);
    intros id' e' He';
    (rewrite (proj2 He id' e' He'); apply (H id); apply lookup_insert_eq).
Qed.

(** The vectors of a collection that holds vectors of [d] components
    only, after one more turn with a vector of [d] components. *)
Lemma settle_holds (d : nat) c id oe :
  (forall id' e', c !! id' = Some e' -> length (embedding e') = d) ->
  (forall e, oe = Some e -> length (embedding e) = d) ->
  forall id' e', settle c id oe !! id' = Some e' -> length (embedding e') = d.
Proof.
  intros Hc Hoe id' e'. unfold Records.settle, Chroma.add_entry.
  destruct oe as [e|]; [|by apply Hc].
  destruct (Chroma.fits c (embedding e)); [|by apply Hc].
  destruct (c !! id) eqn:Hid, policy; simpl; try by apply Hc.
  all: destruct (decide (id' = id)) as [->|Hne];
    [rewrite lookup_insert_eq; intros [= <-]; by apply Hoe
    |rewrite lookup_insert_ne by done; by apply Hc].
Qed.

Lemma entry_id_inj i j : entry_id i = entry_id j -> i = j.
Proof.
  unfold Ingest.entry_id. intros H.
  apply (inj (String.app _)) in H. by apply (inj pretty) in H.
Qed.


Local Abbreviation well_formed := (Records.well_formed embed_content script).
Local Abbreviation malformed := (Records.malformed embed_content script).
Local Abbreviation gives_vectors_of := (Records.gives_vectors_of embed_content).

Lemma failures_app evs1 evs2 :
  Observed.failures (evs1 ++ evs2)
  = (Observed.failures evs1 ++ Observed.failures evs2)%list.
Proof. apply omap_app. Qed.

Lemma candidate_length d t record e :
  gives_vectors_of d -> candidate t record = Some e -> length (embedding e) = d.
Proof.
  intros Hd. unfold Records.candidate.
  destruct (Ingest.create_text script record) as [text|]; [|done].
  destruct (blank text); [done|].
  destruct (embed_content t text) as [|[v|]] eqn:Hv; try done.
  destruct (Ingest.build_metadata script record); [|done].
  intros [= <-]. simpl. by apply (Hd t text).
Qed.

Lemma malformed_fails t idx record oc :
  malformed t record -> completes t idx record oc = false.
Proof.
  unfold Records.completes, Records.stores. intros [Hnone|Hshow].
  - rewrite Hnone. by destruct oc.
  - rewrite Hshow. by rewrite andb_false_r.
Qed.

Lemma well_formed_completes d t idx record c :
  batch_size <> 0 -> d <> 0%nat -> gives_vectors_of d ->
  well_formed t record ->
  (forall id e, c !! id = Some e -> length (embedding e) = d) ->
  (policy = Chroma.RejectDuplicate -> c !! entry_id idx = None) ->
  completes t idx record (Some c) = true
  /\ stores t idx record (Some c) = true
  /\ is_Some (settle c (entry_id idx) (candidate t record) !! entry_id idx).
Proof.
  intros Hb Hd Hgives [Hshow [e He]] Hc Hfresh.
  unfold Records.completes, Records.stores, Records.settle.
  rewrite He, Hshow.
  pose proof (candidate_length d t record e Hgives He) as Hlen.
  destruct (add_entry_accepts c (entry_id idx) e) as [c' Hadd]; [|done|].
  { apply fits_spec. rewrite Hlen. split; [done|]. apply Hc. }
  rewrite Hadd. apply Z.eqb_neq in Hb. rewrite Hb.
  repeat split; [done..|]. by eapply add_entry_stored.
Qed.

(** The loop's variables when the turn for the record at [i] begins. *)
Local Abbreviation before_turn :=
  (fun (records : list json) (l0 : Ingest.Loop) (i : nat) =>
     (Ingest.for_each loop_body 0 (take i records) l0).1).

(** The loop over a list in which the record at [k] is malformed and
    all the others are well formed, each at the moment of its turn. *)
Lemma for_each_one_bad d records k bad l0 c0 :
  batch_size <> 0 -> d <> 0%nat -> gives_vectors_of d ->
  records !! k = Some bad ->
  malformed (now (Ingest.world (before_turn records l0 k))) bad ->
  (forall i r, i <> k -> records !! i = Some r ->
               well_formed (now (Ingest.world (before_turn records l0 i))) r) ->
  store (Ingest.world l0) !! name = Some c0 ->
  (forall id e, c0 !! id = Some e -> length (embedding e) = d) ->
  (policy = Chroma.RejectDuplicate ->
   forall i, (i < length records)%nat -> c0 !! entry_id i = None) ->
  exists l',
    Ingest.for_each loop_body 0 records l0 = (l', Ok tt)
    /\ Ingest.error_count l' = (Ingest.error_count l0 + 1)%nat
    /\ (Ingest.success_count l0 + length records
        <= Ingest.success_count l' + 1)%nat
    /\ (Ingest.success_count l' <= Ingest.success_count l0 + length records)%nat
    /\ Observed.failures (trace (Ingest.world l'))
       = (Observed.failures (trace (Ingest.world l0)) ++ [(k + 1)%nat])%list
    /\ exists c, store (Ingest.world l') !! name = Some c
                 /\ forall i, (i < length records)%nat -> i <> k ->
                              is_Some (c !! entry_id i).
Proof.
  intros Hb Hd Hgives Hk Hbad Hgood Hc0 Hdim0 Hfresh.
  pose proof (lookup_lt_Some _ _ _ Hk) as Hklt.
  set (P := fun (i : nat) (l : Ingest.Loop) =>
    let hit := bool_decide (k < i)%nat in
    l = before_turn records l0 i
    /\ Ingest.error_count l = (Ingest.error_count l0 + Nat.b2n hit)%nat
    /\ (Ingest.success_count l0 + i <= Ingest.success_count l + Nat.b2n hit)%nat
    /\ (Ingest.success_count l <= Ingest.success_count l0 + i)%nat
    /\ Observed.failures (trace (Ingest.world l))
       = (Observed.failures (trace (Ingest.world l0))
          ++ if hit then [(k + 1)%nat] else [])%list
    /\ exists c, store (Ingest.world l) !! name = Some c
                 /\ (forall id e, c !! id = Some e -> length (embedding e) = d)
                 /\ (forall j, (j < i)%nat -> j <> k -> is_Some (c !! entry_id j))
                 /\ (forall id, (forall j, (j < i)%nat -> id <> entry_id j) ->
                                 c !! id = c0 !! id)).
  destruct (for_each_ind P records 0) with (l := l0) as (l' & Hrun & HP).
  - intros i r l Hr (Hl & Herr & Hlo & Hhi & Hfail & c & Hc & Hdim & Hin & Hout).
    pose proof (lookup_lt_Some _ _ _ Hr) as Hilt.
    change (0 + i)%nat with i.
    assert (Hnext : (loop_body i r l).1 = before_turn records l0 (S i)).
    { rewrite (take_S_r _ _ _ Hr), for_each_snoc, <- Hl.
      by rewrite length_take, Nat.min_l by lia. }
    unfold P. split; [done|]. clear Hnext.
    destruct (loop_body_step i r l) as (evs & -> & Hevs & _).
    cbn [fst Ingest.world Ingest.error_count Ingest.success_count store trace].
    rewrite failures_app, Hfail, Hevs.
    unfold Records.store_after. rewrite Hc, lookup_insert_eq.
    set (t := now (Ingest.world l)).
    assert (Hdim' : forall id e,
               settle c (entry_id i) (candidate t r) !! id = Some e ->
               length (embedding e) = d).
    { apply settle_holds; [done|]. intros e. by apply candidate_length. }
    destruct (decide (i = k)) as [->|Hne].
    + assert (r = bad) as -> by congruence.
      rewrite (malformed_fails t k bad); [|subst t; by rewrite Hl].
      rewrite (bool_decide_eq_false_2 (k < k)%nat) in * by lia.
      rewrite (bool_decide_eq_true_2 (k < S k)%nat) by lia.
      destruct (stores t k bad (Some c)); cbn [Nat.b2n negb] in *;
        rewrite ?app_nil_r;
        (split; [lia|]; split; [lia|]; split; [lia|];
         split; [done|]; eexists; split; [done|]; split; [done|]; split;
         [intros j Hj Hjk; apply settle_lookup_mono, Hin; [lia|done]
         |intros id Hid; rewrite settle_lookup_other by (apply Hid; lia);
          apply Hout; intros j Hj; apply Hid; lia]).
    + destruct (well_formed_completes d t i r c Hb Hd Hgives) as (Hcomp & Hst & Hsome).
      { subst t. rewrite Hl. by apply Hgood. }
      { done. }
      { intros Hpol. rewrite Hout; [by apply Hfresh|].
        intros j Hj Heq. apply entry_id_inj in Heq. lia. }
      rewrite Hcomp, Hst.
      replace (bool_decide (k < S i)%nat) with (bool_decide (k < i)%nat)
        by (apply bool_decide_ext; lia).
      cbn [Nat.b2n negb]. rewrite app_nil_r.
      split; [lia|]. split; [lia|]. split; [lia|].
      split; [done|]. eexists; split; [done|]. split; [done|]. split.
      * intros j Hj Hjk. destruct (decide (j = i)) as [->|Hji]; [done|].
        apply settle_lookup_mono, Hin; [lia|done].
      * intros id Hid. rewrite settle_lookup_other by (apply Hid; lia).
        apply Hout. intros j Hj. apply Hid. lia.
  - unfold P. simpl. rewrite app_nil_r.
    split; [done|]. split; [lia|]. split; [lia|]. split; [lia|]. split; [done|].
    exists c0. split; [done|]. split; [done|]. split; [intros; lia|done].
  - exists l'. split; [done|].
    destruct HP as (_ & Herr & Hlo & Hhi & Hfail & c & Hc & _ & Hin & _).
    rewrite (bool_decide_eq_true_2 (k < length records)%nat) in * by done.
    simpl in *. repeat split; [lia..|done|]. eauto.
Qed.

(** C4: when exactly one record of the input, the one at [k], is
    malformed at its turn and the others are well formed at theirs, the
    loop still takes every record: the function returns normally with
    one error and at least N-1 successes, the only record reported as
    skipped or failed is number k+1, and every other record has its
    entry in the collection.  The store takes the vectors: the
    embedding service gives vectors of [d] components, [d] not 0, the
    collection holds no vector of another length, and a store that
    refuses duplicate ids starts without the ids of this input;
    [batch_size] is not 0. *)
Theorem one_bad_record_is_isolated (d : nat) (records : list json) (k : nat)
    (bad : json) (w : World) :
  batch_size <> 0 ->
  d <> 0%nat ->
  gives_vectors_of d ->
  Records.holds_vectors_of script d w ->
  (policy = Chroma.RejectDuplicate -> Records.ids_unused script (length records) w) ->
  let turn_start := Records.turn_start embed_content policy script batch_size records w in
  records !! k = Some bad ->
  malformed (turn_start k) bad ->
  (forall i r, i <> k -> records !! i = Some r -> well_formed (turn_start i) r) ->
  exists w' successes,
    Ingest.embed_and_store embed_content policy script batch_size (Ok records) w
    = (w', Ok (successes, 1%nat))
    /\ (length records <= successes + 1)%nat
    /\ (successes <= length records)%nat
    /\ Observed.failures (trace w')
       = (Observed.failures (trace w) ++ [(k + 1)%nat])%list
    /\ exists c, store w' !! name = Some c
                 /\ forall i, (i < length records)%nat -> i <> k ->
                              is_Some (c !! entry_id i).
Proof.
  intros Hb Hd Hgives Hdim Hfresh turn_start Hk Hbad Hgood. subst turn_start.
  unfold Records.turn_start in Hbad, Hgood.
  rewrite embed_and_store_run. cbv zeta.
  set (w0 := (Chroma.get_or_create_collection name w).1).
  set (l0 := {| Ingest.world := w0; Ingest.success_count := 0; Ingest.error_count := 0 |}).
  assert (exists c0, store w0 !! name = Some c0
                     /\ trace w0 = trace w
                     /\ (forall id e, c0 !! id = Some e -> length (embedding e) = d)
                     /\ (policy = Chroma.RejectDuplicate ->
                         forall i, (i < length records)%nat -> c0 !! entry_id i = None))
    as (c0 & Hc0 & Htr & Hdim0 & Hfresh0).
  { subst w0. unfold Chroma.get_or_create_collection.
    destruct (store w !! name) as [c|] eqn:Hw; simpl.
    - exists c. split; [done|]. split; [done|]. split.
      + intros id e. by apply Hdim.
      + intros Hpol i Hi. by apply (Hfresh Hpol c).
    - exists ∅. rewrite lookup_insert_eq. split; [done|]. split; [done|].
      split; [intros id e; by rewrite lookup_empty|]. intros _ i _. apply lookup_empty. }
  destruct (for_each_one_bad d records k bad l0 c0 Hb Hd Hgives Hk)
    as (l' & -> & Herr & Hlo & Hhi & Hfail & c & Hc & Hin); try done.
  { rewrite embed_and_store_run in Hbad. exact Hbad. }
  { intros i r Hi Hr. specialize (Hgood i r Hi Hr).
    rewrite embed_and_store_run in Hgood. exact Hgood. }
  simpl in *. rewrite Herr. rewrite Htr in Hfail.
  exists (Ingest.world l'), (Ingest.success_count l'). eauto 10.
Qed.

Local Abbreviation settle_all := (Records.settle_all policy script).
Local Abbreviation overwrites := Chroma.overwrites.

(** *** Going through the same candidates a second time *)

Lemma settle_all_fits c idx cands v :
  Chroma.fits (settle_all c idx cands) v = true -> Chroma.fits c v = true.
Proof.
  revert c idx. induction cands as [|oe rest IH]; intros c idx; simpl; [done|].
  intros H. by apply IH, fits_settle in H.
Qed.

Lemma settle_all_lookup_other c idx cands id :
  (forall j, (idx <= j)%nat -> id <> entry_id j) ->
  settle_all c idx cands !! id = c !! id.
Proof.
  revert c idx. induction cands as [|oe rest IH]; intros c idx Hid; simpl; [done|].
  rewrite IH by (intros j Hj; apply Hid; lia).
  apply settle_lookup_other, Hid. lia.
Qed.

(** An entry the collection takes is in it after [add], and it is the
    entry held there when [add] overwrites. *)
Lemma settle_present c id e :
  Chroma.fits c (embedding e) = true ->
  exists x, settle c id (Some e) !! id = Some x /\ (overwrites policy = true -> x = e).
Proof.
  intros Hfits. unfold Records.settle, Chroma.add_entry. rewrite Hfits.
  destruct (c !! id) as [x|] eqn:Hc, policy; simpl;
    rewrite ?lookup_insert_eq, ?Hc; eauto; by exists x.
Qed.

Lemma settle_all_present c idx cands i e :
  cands !! i = Some (Some e) ->
  Chroma.fits (settle_all c idx cands) (embedding e) = true ->
  exists x, settle_all c idx cands !! entry_id (idx + i) = Some x
            /\ (overwrites policy = true -> x = e).
Proof.
  revert c idx i. induction cands as [|oe rest IH]; intros c idx i Hi Hfits; [done|].
  destruct i as [|i]; simpl in *.
  - injection Hi as ->. rewrite Nat.add_0_r.
    rewrite settle_all_lookup_other
      by (intros j Hj Heq; apply entry_id_inj in Heq; lia).
    apply settle_present. by apply settle_all_fits, fits_settle in Hfits.
  - replace (idx + S i)%nat with (S idx + i)%nat by lia. by apply IH.
Qed.

(** [add] changes nothing when the entry, if the collection takes it,
    is there already. *)
Lemma settle_fixed c id e :
  (Chroma.fits c (embedding e) = true ->
   exists x, c !! id = Some x /\ (overwrites policy = true -> x = e)) ->
  settle c id (Some e) = c.
Proof.
  intros H. unfold Records.settle, Chroma.add_entry.
  destruct (Chroma.fits c (embedding e)); [|done].
  destruct (H eq_refl) as (x & Hx & Ho). rewrite Hx.
  destruct policy; simpl; try done.
  rewrite Ho in Hx by done. by rewrite insert_id.
Qed.

Lemma settle_all_fixed c idx cands :
  (forall i e, cands !! i = Some (Some e) ->
               settle c (entry_id (idx + i)) (Some e) = c) ->
  settle_all c idx cands = c.
Proof.
  revert idx. induction cands as [|oe rest IH]; intros idx H; simpl; [done|].
  assert (settle c (entry_id idx) oe = c) as ->.
  { destruct oe as [e|]; [|done]. specialize (H 0%nat e eq_refl).
    by rewrite Nat.add_0_r in H. }
  apply IH. intros i e Hi. specialize (H (S i) e Hi).
  by replace (S idx + i)%nat with (idx + S i)%nat by lia.
Qed.

(** After the candidates went through the collection, none of them
    changes it any more. *)
Lemma settle_after_all c idx cands i e :
  cands !! i = Some (Some e) ->
  settle (settle_all c idx cands) (entry_id (idx + i)) (Some e)
  = settle_all c idx cands.
Proof.
  intros Hi. apply settle_fixed. intros Hfits. by apply settle_all_present.
Qed.

(** Taking the same candidates a second time changes nothing. *)
Lemma settle_all_idem c idx cands :
  settle_all (settle_all c idx cands) idx cands = settle_all c idx cands.
Proof. apply settle_all_fixed. intros i e Hi. by apply settle_after_all. Qed.

(** A store that does not overwrite keeps the entries it holds. *)
Lemma settle_keeps c id oe id' x :
  overwrites policy = false -> c !! id' = Some x -> settle c id oe !! id' = Some x.
Proof.
  intros Ho Hx. unfold Records.settle, Chroma.add_entry.
  destruct oe as [e|]; [|done].
  destruct (Chroma.fits c (embedding e)); [|done].
  destruct (decide (id' = id)) as [->|Hne].
  - rewrite Hx. by destruct policy.
  - destruct (c !! id), policy; simpl; rewrite ?lookup_insert_ne; done.
Qed.

Lemma run_keeps data w collection c id x :
  overwrites policy = false ->
  store w !! collection = Some c -> c !! id = Some x ->
  exists c', store (Ingest.embed_and_store embed_content policy script batch_size
                      data w).1 !! collection = Some c'
             /\ c' !! id = Some x.
Proof.
  intros Ho Hc Hx. destruct data as [records|e]; [|by exists c].
  rewrite embed_and_store_run. cbv zeta.
  set (w0 := (Chroma.get_or_create_collection name w).1).
  assert (Hc0 : store w0 !! collection = Some c).
  { subst w0. unfold Chroma.get_or_create_collection.
    destruct (store w !! name) eqn:Hn; simpl; [done|].
    rewrite lookup_insert_ne; [done|]. intros <-. congruence. }
  set (l0 := {| Ingest.world := w0; Ingest.success_count := 0; Ingest.error_count := 0 |}).
  destruct (for_each_ind
              (fun _ l => exists c', store (Ingest.world l) !! collection = Some c'
                                     /\ c' !! id = Some x)
              records 0) with (l := l0) as (l' & -> & HP); [| |done].
  - intros i r l Hr (c' & Hc' & Hx').
    destruct (loop_body_step (0 + i) r l) as (evs & -> & _).
    cbn [fst Ingest.world store]. unfold Records.store_after.
    destruct (store (Ingest.world l) !! name) as [cn|] eqn:Hn; [|eauto].
    destruct (decide (collection = name)) as [->|Hne].
    + rewrite lookup_insert_eq. eexists. split; [done|].
      apply settle_keeps; [done|]. congruence.
    + rewrite lookup_insert_ne by done. eauto.
  - by exists c.
Qed.

Section Steady.
(** The embedding service answers a text the same way every time. *)
Hypothesis steady : forall t t' text, embed_content t text = embed_content t' text.

Lemma candidate_steady t record : candidate t record = candidate 0 record.
Proof.
  unfold Records.candidate. destruct (Ingest.create_text script record); [|done].
  destruct (blank a); [done|]. by rewrite (steady t 0%nat).
Qed.

Lemma for_each_store records idx l c :
  store (Ingest.world l) !! name = Some c ->
  store (Ingest.world (Ingest.for_each loop_body idx records l).1)
  = <[name := settle_all c idx (map (candidate 0) records)]> (store (Ingest.world l)).
Proof.
  revert idx l c. induction records as [|r rest IH]; intros idx l c Hc; simpl.
  - by rewrite insert_id.
  - unfold Py.bind.
    destruct (loop_body_step idx r l) as (evs & -> & _).
    erewrite IH; cycle 1.
    { simpl. unfold Records.store_after. rewrite Hc. apply lookup_insert_eq. }
    simpl. unfold Records.store_after. rewrite Hc, insert_insert_eq.
    by rewrite candidate_steady.
Qed.

(** The collection after a run, and the second run's start in it. *)
Lemma first_run records w :
  let w1 := (Ingest.embed_and_store embed_content policy script batch_size
               (Ok records) w).1 in
  exists c0,
    store w1 !! name = Some (settle_all c0 0 (map (candidate 0) records))
    /\ (Chroma.get_or_create_collection name w1).1 = w1.
Proof.
  intros w1. subst w1. rewrite embed_and_store_run. cbv zeta.
  set (w0 := (Chroma.get_or_create_collection name w).1).
  assert (exists c0, store w0 !! name = Some c0) as [c0 Hc0].
  { subst w0. unfold Chroma.get_or_create_collection.
    destruct (store w !! name) eqn:Hw; simpl; eauto.
    rewrite lookup_insert_eq. eauto. }
  exists c0.
  set (l0 := {| Ingest.world := w0; Ingest.success_count := 0; Ingest.error_count := 0 |}).
  pose proof (for_each_store records 0 l0 c0 Hc0) as H1. cbn [fst].
  assert (Hc1 : store (Ingest.world (Ingest.for_each loop_body 0 records l0).1) !! name
                = Some (settle_all c0 0 (map (candidate 0) records))).
  { rewrite H1. apply lookup_insert_eq. }
  split; [done|]. unfold Chroma.get_or_create_collection. by rewrite Hc1.
Qed.

(** After a run the collection has the records. *)
Lemma first_run_holds records w :
  Records.holds_records embed_content policy script records
    (Ingest.embed_and_store embed_content policy script batch_size
       (Ok records) w).1.
Proof.
  destruct (first_run records w) as (c0 & Hc1 & _).
  intros c i r t e Hc Hr Hcand Hfits. rewrite Hc1 in Hc. injection Hc as <-.
  apply (settle_all_present c0 0 _ i e); [|done].
  change (map (candidate 0) records) with (candidate 0 <$> records).
  by rewrite list_lookup_fmap, Hr, <- Hcand, candidate_steady.
Qed.

(** Ingesting a dataset over the result of ingesting it leaves the
    store as it is. *)
Lemma embed_and_store_idem data w :
  let run := Ingest.embed_and_store embed_content policy script batch_size data in
  store (run (run w).1).1 = store (run w).1.
Proof.
  intros run. subst run. destruct data as [records|e]; [|done].
  destruct (first_run records w) as (c0 & Hc1 & Hsame).
  set (w1 := (Ingest.embed_and_store _ _ _ _ (Ok records) w).1) in *.
  rewrite embed_and_store_run. cbv zeta. rewrite Hsame. cbn [fst].
  rewrite (for_each_store records 0
             {| Ingest.world := w1; Ingest.success_count := 0; Ingest.error_count := 0 |}
             _ Hc1). simpl.
  rewrite settle_all_idem. by apply insert_id.
Qed.

(** With a store that refuses an id it holds, the second run over a
    dataset stores nothing and counts every record as an error. *)
Lemma rerun_rejected records w :
  policy = Chroma.RejectDuplicate ->
  let run := Ingest.embed_and_store embed_content policy script batch_size
               (Ok records) in
  (run (run w).1).2 = Ok (0%nat, length records).
Proof.
  intros Hpol run. subst run.
  destruct (first_run records w) as (c0 & Hc1 & Hsame).
  set (w1 := (Ingest.embed_and_store _ _ _ _ (Ok records) w).1) in *.
  set (c1 := settle_all c0 0 (map (candidate 0) records)) in *.
  rewrite embed_and_store_run. cbv zeta. rewrite Hsame.
  set (l1 := {| Ingest.world := w1; Ingest.success_count := 0; Ingest.error_count := 0 |}).
  destruct (for_each_ind
              (fun i l => store (Ingest.world l) !! name = Some c1
                          /\ Ingest.success_count l = 0%nat
                          /\ Ingest.error_count l = i)
              records 0) with (l := l1) as (l' & -> & Hst & Hs & He); [| |].
  - intros i r l Hr (Hst & Hs & He). change (0 + i)%nat with i.
    destruct (loop_body_step i r l) as (evs & -> & _).
    cbn [fst Ingest.world Ingest.success_count Ingest.error_count store].
    unfold Records.store_after, Records.completes, Records.stores.
    rewrite Hst, lookup_insert_eq, candidate_steady.
    destruct (candidate 0 r) as [e|] eqn:Hcand; cycle 1.
    { simpl. split; [done|]. split; lia. }
    assert (Hi : map (candidate 0) records !! i = Some (Some e)).
    { change (map (candidate 0) records) with (candidate 0 <$> records).
      by rewrite list_lookup_fmap, Hr, <- Hcand. }
    pose proof (settle_after_all c0 0 _ i e Hi) as Hfix.
    change (0 + i)%nat with i in Hfix. fold c1 in Hfix. rewrite Hfix.
    assert (Chroma.add_entry policy c1 (entry_id i) e = Raise StoreError) as ->.
    { unfold Chroma.add_entry.
      destruct (Chroma.fits c1 (embedding e)) eqn:Hfits; [|done].
      destruct (settle_all_present c0 0 _ i e Hi Hfits) as (x & Hx & _).
      change (0 + i)%nat with i in Hx. fold c1 in Hx. rewrite Hx.
      by rewrite Hpol. }
    simpl. split; [done|]. split; lia.
  - done.
  - simpl. by rewrite Hs, He.
Qed.
End Steady.

End IngestFacts.

(** C1, amended: run over the result of a first run on the same dataset,
    with an embedding service that answers a text the same way every
    time, either script leaves the store as the first run left it: its
    collection has the same number of entries and the same entry under
    every id, whichever way [add] treats an id it already holds, and it
    has the records of the dataset.  But [add] does not overwrite: when it keeps the entry it holds, or
    refuses the id, every entry a collection holds before a run is there
    unchanged after it, whatever the run's data and vectors; and when it
    refuses the id, the second run over a dataset has no success and
    counts every record as an error. *)
Theorem reingestion_is_idempotent (py_repr : json -> string)
    (embed_content : nat -> string -> EmbeddingUtils.EmbedOutcome)
    (policy : Chroma.DuplicatePolicy) (batch_size : Z)
    (data : result (list json)) (w : World) :
  let products :=
    EmbedProducts.embed_and_store_products py_repr embed_content policy batch_size data in
  let faqs :=
    EmbedFaqs.embed_and_store_faqs py_repr embed_content policy batch_size data in
  let steady := forall t t' text, embed_content t text = embed_content t' text in
  (steady ->
   (store (products (products w).1).1 = store (products w).1
    /\ Chroma.count (products (products w).1).1 "products"
       = Chroma.count (products w).1 "products")
   /\ (store (faqs (faqs w).1).1 = store (faqs w).1
       /\ Chroma.count (faqs (faqs w).1).1 "faqs" = Chroma.count (faqs w).1 "faqs")
   /\ (forall records, data = Ok records ->
       Records.holds_records embed_content policy (EmbedProducts.script py_repr)
         records (products w).1
       /\ Records.holds_records embed_content policy (EmbedFaqs.script py_repr)
            records (faqs w).1))
  /\ (Chroma.overwrites policy = false ->
      forall collection c id e,
        store w !! collection = Some c -> c !! id = Some e ->
        (exists c', store (products w).1 !! collection = Some c' /\ c' !! id = Some e)
        /\ (exists c', store (faqs w).1 !! collection = Some c' /\ c' !! id = Some e))
  /\ (policy = Chroma.RejectDuplicate -> steady ->
      forall records, data = Ok records ->
        (products (products w).1).2 = Ok (0%nat, length records)
        /\ (faqs (faqs w).1).2 = Ok (0%nat, length records)).
Proof.
  intros products faqs steady. split; [|split].
  - intros Hsteady.
    assert (Hp : store (products (products w).1).1 = store (products w).1)
      by apply (embed_and_store_idem _ _ _ _ Hsteady).
    assert (Hf : store (faqs (faqs w).1).1 = store (faqs w).1)
      by apply (embed_and_store_idem _ _ _ _ Hsteady).
    unfold Chroma.count. rewrite Hp, Hf. split; [done|]. split; [done|].
    intros records ->. split; by apply first_run_holds.
  - intros Ho collection c id e Hc He. split; by eapply run_keeps.
  - intros Hpol Hsteady records ->. split; by apply rerun_rejected.
Qed.

Section Normalizer.
Variable py_repr : json -> string.

Lemma str_items_joinable items :
  if forallb Records.is_str items
  then exists parts, Py.str_items items = Ok parts
  else Py.str_items items = Raise TypeError.
Proof.
  induction items as [|v rest IH]; simpl; [eauto|].
  destruct v; simpl; try done.
  destruct (forallb Records.is_str rest).
  - destruct IH as [parts ->]. simpl. eauto.
  - by rewrite IH.
Qed.

Lemma get_missing fields key dflt key' dflt' :
  (key' = key -> dflt' = dflt) ->
  Py.get (JDict (delete key fields)) key' dflt'
  = Py.get (JDict (<[key := dflt]> fields)) key' dflt'.
Proof.
  intros Hd. unfold Py.get. f_equal.
  destruct (decide (key' = key)) as [->|Hne].
  - rewrite lookup_delete_eq, lookup_insert_eq. simpl. by rewrite Hd.
  - by rewrite lookup_delete_ne, lookup_insert_ne.
Qed.

(** C7, amended: on a record that is a JSON object, [create_faq_text]
    always returns a string, and [create_product_text] returns a string
    unless the record's [coverType] is a list with an item that is not a
    string, in which case it raises [TypeError]; a field that is missing
    is rendered as the empty string is (a missing [coverType] as the
    empty list is). *)
Theorem normalization_of_objects (fields : gmap string json) :
  (exists text, EmbedFaqs.create_faq_text py_repr (JDict fields) = Ok text)
  /\ (if Records.cover_types_joinable fields
      then exists text, EmbedProducts.create_product_text py_repr (JDict fields) = Ok text
      else EmbedProducts.create_product_text py_repr (JDict fields) = Raise TypeError)
  /\ (forall key,
        EmbedFaqs.create_faq_text py_repr (JDict (delete key fields))
        = EmbedFaqs.create_faq_text py_repr (JDict (<[key := JStr EmptyString]> fields)))
  /\ (forall key, key <> "coverType" ->
        EmbedProducts.create_product_text py_repr (JDict (delete key fields))
        = EmbedProducts.create_product_text py_repr
            (JDict (<[key := JStr EmptyString]> fields)))
  /\ EmbedProducts.create_product_text py_repr (JDict (delete "coverType" fields))
     = EmbedProducts.create_product_text py_repr
         (JDict (<["coverType" := JList []]> fields)).
Proof.
  split; [|split; [|split; [|split]]].
  - unfold EmbedFaqs.create_faq_text, EmbedFaqs.field. simpl. eauto.
  - unfold Records.cover_types_joinable, EmbedProducts.create_product_text,
      EmbedProducts.field. simpl.
    destruct (fields !! "coverType") as [v|]; simpl; [|eauto].
    destruct v; simpl; eauto.
    pose proof (str_items_joinable items) as H.
    destruct (forallb Records.is_str items).
    + destruct H as [parts ->]. simpl. eauto.
    + by rewrite H.
  - intros key. unfold EmbedFaqs.create_faq_text, EmbedFaqs.field.
    by rewrite !(get_missing fields key (JStr EmptyString)).
  - intros key Hkey. unfold EmbedProducts.create_product_text, EmbedProducts.field.
    by rewrite !(get_missing fields key (JStr EmptyString)) by congruence.
  - unfold EmbedProducts.create_product_text, EmbedProducts.field.
    rewrite !(get_missing fields "coverType" (JList [])) by done.
    done.
Qed.
End Normalizer.

(** C1 fails as stated: the store operation is [collection.add], which
    does not overwrite.  When it keeps the entry it holds, a second run
    over the same dataset, for which the embedding service answers with
    another vector, calls [add] for the same id, counts a success, and
    leaves the first run's vector in the collection; when it refuses an
    id it holds, the second run has no success and counts the record as
    an error. *)
Lemma rerun_does_not_overwrite :
  let run policy :=
    EmbedFaqs.embed_and_store_faqs Samples.repr Samples.embed policy 10
      (Ok [Samples.returns_faq]) in
  let vector (w : World) :=
    embedding <$> (store w !! "faqs" ≫= fun c => c !! "faq_0") in
  let once := (run Chroma.KeepExisting Samples.empty_world).1 in
  let twice := run Chroma.KeepExisting once in
  vector once = Some [0; 42]
  /\ embedding <$> Records.candidate Samples.embed (EmbedFaqs.script Samples.repr)
                     (now once) Samples.returns_faq = Some [3; 42]
  /\ Derived.added_ids (trace twice.1) = ["faq_0"; "faq_0"]
  /\ twice.2 = Ok (1%nat, 0%nat)
  /\ vector twice.1 = Some [0; 42]
  /\ (run Chroma.RejectDuplicate (run Chroma.RejectDuplicate Samples.empty_world).1).2
     = Ok (0%nat, 1%nat).
Proof. vm_compute. by repeat split. Qed.

(** C2 fails as stated: one request, two calls of the embedding service
    with the same text, and the FAQ query runs on the vector of the second
    call, which is not the vector the product query ran on. *)
Lemma query_text_embedded_twice :
  let w' := (Main.query_chatbot Samples.embed Samples.rank Samples.generate
               Samples.globals (Samples.ask "  clear case ") Samples.shop).1 in
  take 4 (trace w')
  = [EmbedContent "clear case"; CollectionQuery "products" [0; 10] 3;
     EmbedContent "clear case"; CollectionQuery "faqs" [2; 10] 2]
  /\ length (Observed.embed_calls (trace w')) = 2%nat.
Proof. vm_compute. by split. Qed.

(** C5 fails as stated: with [batch_size] 2, a stored record in second
    place brings a pause after one success only, and two stored records in
    first and third place bring none. *)
Lemma pause_ignores_success_count :
  let run := EmbedFaqs.embed_and_store_faqs Samples.repr Samples.steady_embed
               Chroma.Overwrite 2 in
  let one := run (Ok [Samples.broken_record; Samples.returns_faq]) Samples.empty_world in
  let two := run (Ok [Samples.returns_faq; Samples.broken_record;
                      Samples.shipping_faq; Samples.broken_record])
                 Samples.empty_world in
  (one.2 = Ok (1%nat, 1%nat) /\ existsb Observed.is_sleep (trace one.1) = true)
  /\ (two.2 = Ok (2%nat, 2%nat) /\ existsb Observed.is_sleep (trace two.1) = false).
Proof. vm_compute. by repeat split. Qed.

(** C7 fails as stated: a product with a name, whose [coverType] is a
    list of numbers, makes [create_product_text] raise. *)
Lemma numbered_cover_types_raise :
  Py.get Samples.numbered_cover_case "productName" (JStr EmptyString)
  = Ok (JStr "Clear Case")
  /\ EmbedProducts.create_product_text Samples.repr Samples.numbered_cover_case
     = Raise TypeError.
Proof. vm_compute. by split. Qed.

(** C9 fails as stated: a query of 600 characters, 500 of them between
    white space, is not refused; it is embedded and answered. *)
Lemma padded_overlong_query_is_answered :
  String.length Samples.padded_query = 600%nat
  /\ match Main.query_chatbot Samples.embed Samples.rank Samples.generate
             Samples.globals (Samples.ask Samples.padded_query) Samples.shop with
     | (w', Ok response) =>
         String.length (Main.query response) = 500%nat
         /\ length (Observed.embed_calls (trace w')) = 2%nat
     | (_, Raise _) => False
     end.
Proof. vm_compute. by split. Qed.

(** *** The theorems at sample inputs *)

Lemma reingestion_is_idempotent_witness :
  let records := [Samples.clear_case; Samples.broken_record; Samples.numbered_cover_case] in
  let products :=
    EmbedProducts.embed_and_store_products Samples.repr Samples.steady_embed
      Chroma.RejectDuplicate 10 (Ok records) in
  let faqs :=
    EmbedFaqs.embed_and_store_faqs Samples.repr Samples.steady_embed
      Chroma.RejectDuplicate 10 (Ok records) in
  ((store (products (products Samples.shop).1).1 = store (products Samples.shop).1
    /\ Chroma.count (products (products Samples.shop).1).1 "products"
       = Chroma.count (products Samples.shop).1 "products")
   /\ (store (faqs (faqs Samples.shop).1).1 = store (faqs Samples.shop).1
       /\ Chroma.count (faqs (faqs Samples.shop).1).1 "faqs"
          = Chroma.count (faqs Samples.shop).1 "faqs"))
  /\ (exists c', store (faqs Samples.shop).1 !! "faqs" = Some c'
                 /\ c' !! "faq_0"
                    = Some (Samples.faq_entry "What is your return policy?" "30 days."))
  /\ (products (products Samples.shop).1).2 = Ok (0%nat, 3%nat).
Proof.
  intros records products faqs.
  destruct (reingestion_is_idempotent Samples.repr Samples.steady_embed
              Chroma.RejectDuplicate 10 (Ok records) Samples.shop)
    as (Hsame & Hkept & Hrejected).
  split.
  { destruct Hsame as (Hp & Hf & _); [intros t t' text; reflexivity|]. by split. }
  split.
  - apply (Hkept eq_refl "faqs"
             (list_to_map [("faq_0", Samples.faq_entry "What is your return policy?"
                                       "30 days.")])
             "faq_0" (Samples.faq_entry "What is your return policy?" "30 days."));
      reflexivity.
  - apply (Hrejected eq_refl (fun _ _ _ => eq_refl) records eq_refl).
Defined.

Lemma each_helper_embeds_the_query_witness :
  Observed.embed_calls
    (trace (Main.query_chatbot Samples.embed Samples.rank Samples.generate
              Samples.globals (Samples.ask "  clear case ") Samples.shop).1)
  = ["clear case"; "clear case"].
Proof.
  apply (each_helper_embeds_the_query Samples.embed Samples.rank Samples.generate
           Samples.globals (Samples.ask "  clear case ") Samples.shop
           "products" "faqs" 3 2); try reflexivity.
  vm_compute. lia.
Defined.

Lemma generation_failure_is_masked_witness :
  exists response,
    (Main.query_chatbot Samples.embed Samples.rank Samples.failing_generate
       Samples.globals (Samples.ask "clear case") Samples.shop).2 = Ok response
    /\ Main.responseText response
       = "I found 1 product(s) that match your query. Check them out below!".
Proof.
  destruct (generation_failure_is_masked Samples.embed Samples.rank
              Samples.failing_generate Samples.globals
              (Samples.ask "clear case") Samples.shop _ _ (surjective_pairing _))
    as (response & Hr & Htext & _).
  - exists 4%nat. eexists. split; [vm_compute; lia|]. split; [vm_compute; reflexivity|].
    exact I.
  - exists response. split; [exact Hr|].
    rewrite Htext. vm_compute in Hr. injection Hr as <-. reflexivity.
Defined.

Lemma one_bad_record_is_isolated_witness :
  exists w' successes,
    EmbedFaqs.embed_and_store_faqs Samples.repr Samples.embed Chroma.KeepExisting 10
      (Ok [Samples.returns_faq; Samples.broken_record; Samples.shipping_faq])
      Samples.shop
    = (w', Ok (successes, 1%nat))
    /\ (2 <= successes)%nat
    /\ Observed.failures (trace w') = [2%nat].
Proof.
  destruct (one_bad_record_is_isolated Samples.embed Chroma.KeepExisting
              (EmbedFaqs.script Samples.repr) 10 2
              [Samples.returns_faq; Samples.broken_record; Samples.shipping_faq]
              1 Samples.broken_record Samples.shop)
    as (w' & successes & Hrun & Hlo & _ & Hfail & _).
  - lia.
  - lia.
  - intros t text v [= <-]. reflexivity.
  - intros c id e Hc He.
    assert (Hfits : Chroma.fits c [0; 0] = true).
    { vm_compute in Hc. injection Hc as <-. reflexivity. }
    exact (proj2 (proj1 (fits_spec c [0; 0]) Hfits) id e He).
  - discriminate.
  - reflexivity.
  - left. reflexivity.
  - intros i r Hi Hr. destruct i as [|[|[|i]]]; [| lia | |discriminate].
    + injection Hr as <-. split; [reflexivity|]. eexists. reflexivity.
    + injection Hr as <-. split; [reflexivity|]. eexists. reflexivity.
  - exists w', successes. split; [exact Hrun|]. split; [simpl in Hlo; lia|exact Hfail].
Defined.

Lemma pause_goes_by_position_witness :
  exists evs,
    trace (EmbedFaqs.embed_and_store_faqs Samples.repr Samples.steady_embed
             Chroma.Overwrite 2
             (Ok [Samples.broken_record; Samples.returns_faq]) Samples.empty_world).1
    = (trace (EmbedFaqs.embed_and_store_faqs Samples.repr Samples.steady_embed
                Chroma.Overwrite 2
                (Ok [Samples.broken_record]) Samples.empty_world).1 ++ evs)%list
    /\ existsb Observed.is_sleep evs = existsb Observed.is_stored_line evs && true.
Proof.
  apply (pause_goes_by_position Samples.steady_embed Chroma.Overwrite
           (EmbedFaqs.script Samples.repr) 2 [Samples.broken_record]
           Samples.returns_faq Samples.empty_world).
  lia.
Defined.

Lemma blank_text_gets_no_embedding_witness :
  EmbeddingUtils.get_embedding Samples.embed "   " Samples.shop = (Samples.shop, Ok None).
Proof.
  apply (proj1 (blank_text_gets_no_embedding Samples.embed "   " eq_refl)).
Defined.

Lemma stripped_query_checked_before_any_call_witness :
  exists detail,
    Main.query_chatbot Samples.embed Samples.rank Samples.generate Samples.globals
      (Samples.ask (Samples.repeat_char 501 "a")) Samples.shop
    = (Samples.shop, Raise (HTTPException 400 detail)).
Proof.
  apply (stripped_query_checked_before_any_call Samples.embed Samples.rank
           Samples.generate Samples.globals
           (Samples.ask (Samples.repeat_char 501 "a")) Samples.shop).
  right. vm_compute. lia.
Defined.

Lemma query_is_stripped_before_use_witness :
  (forall detail,
      (Main.query_chatbot Samples.embed Samples.rank Samples.generate Samples.globals
         (Samples.ask Samples.padded_query) Samples.shop).2
      <> Raise (HTTPException 400 detail))
  /\ (forall response,
        (Main.query_chatbot Samples.embed Samples.rank Samples.generate Samples.globals
           (Samples.ask Samples.padded_query) Samples.shop).2 = Ok response ->
        Main.query response = Samples.repeat_char 500 "a").
Proof.
  destruct (query_is_stripped_before_use Samples.embed Samples.rank Samples.generate
              Samples.globals (Samples.ask Samples.padded_query) Samples.shop
              _ _ (surjective_pairing _)) as (_ & _ & Hok).
  destruct Hok as (Hnot & _ & Hquery); [reflexivity | vm_compute; lia |].
  split; [exact Hnot|]. intros response Hr. rewrite (Hquery response Hr). reflexivity.
Defined.

Lemma normalization_of_objects_witness :
  EmbedFaqs.create_faq_text Samples.repr (JDict (delete "answer" ∅))
  = EmbedFaqs.create_faq_text Samples.repr (JDict (<["answer" := JStr EmptyString]> ∅)).
Proof.
  apply (normalization_of_objects Samples.repr ∅).
Defined.

Section IngestMore.
Variable embed_content : nat -> string -> EmbeddingUtils.EmbedOutcome.
Variable policy : Chroma.DuplicatePolicy.
Variable script : Ingest.Script.
Variable batch_size : Z.

Local Abbreviation loop_body := (Ingest.loop_body embed_content policy script batch_size).
Local Abbreviation entry_id := (Ingest.entry_id script).
Local Abbreviation name := (Ingest.collection_name script).
Local Abbreviation candidate := (Records.candidate embed_content script).
Local Abbreviation settle := (Records.settle policy).
Local Abbreviation stores := (Records.stores embed_content policy script).
Local Abbreviation completes := (Records.completes embed_content policy script batch_size).
Local Abbreviation run := (Ingest.embed_and_store embed_content policy script batch_size).

(** What one turn sends to the embedding service and to the store. *)
Lemma loop_body_calls idx record l :
  let w' := Ingest.world (loop_body idx record l).1 in
  Observed.embed_calls (trace w')
  = (Observed.embed_calls (trace (Ingest.world l))
     ++ match Ingest.create_text script record with
        | Ok text => if blank text then [] else [text]
        | Raise _ => []
        end)%list
  /\ Derived.added_ids (trace w')
     = (Derived.added_ids (trace (Ingest.world l))
        ++ match candidate (now (Ingest.world l)) record with
           | Some _ => [entry_id idx]
           | None => []
           end)%list.
Proof.
  unfold Ingest.loop_body, Ingest.process_record, Records.candidate,
    Ingest.pacing_due, Ingest.print, Ingest.sleep,
    Ingest.incr_success, Ingest.incr_error.
  unfold Py.try_except, Py.bind, Py.lift, Py.ret, Py.modify, Ingest.in_world.
  destruct (Ingest.create_text script record) as [text|e] eqn:Htext;
    rewrite ?get_embedding_run;
    unfold EmbeddingUtils.call_provider, Chroma.add, Py.bind, emit, Py.modify;
    fold (now (Ingest.world l));
    repeat (case_match; simplify_eq/=);
    unfold Observed.embed_calls, Derived.added_ids;
    simpl; rewrite ?omap_app; simpl; rewrite ?app_nil_r, <- ?app_assoc.
  all: split; reflexivity.
Qed.

Lemma texts_snoc records r :
  Derived.texts script (records ++ [r])
  = (Derived.texts script records
     ++ match Ingest.create_text script r with Ok text => [text] | Raise _ => [] end)%list.
Proof.
  unfold Derived.texts. rewrite omap_app. simpl.
  by destruct (Ingest.create_text script r).
Qed.

Lemma get_or_create_run w :
  exists w0, Chroma.get_or_create_collection name w = (w0, Ok name)
             /\ trace w0 = trace w
             /\ store w0 !! name = Some (default ∅ (store w !! name))
             /\ store w0 = <[name := default ∅ (store w !! name)]> (store w).
Proof.
  unfold Chroma.get_or_create_collection.
  destruct (store w !! name) as [c|] eqn:Hc; simpl.
  - exists w. by rewrite insert_id.
  - eexists. split; [done|]. simpl. by rewrite lookup_insert_eq.
Qed.

(** The loop sends the embedding service the text of every record
    whose text can be built, provided the script never builds a blank
    text. *)
Lemma run_embed_calls records w :
  (forall r text, Ingest.create_text script r = Ok text -> blank text = false) ->
  Observed.embed_calls (trace (run (Ok records) w).1)
  = (Observed.embed_calls (trace w) ++ Derived.texts script records)%list.
Proof.
  intros Hnb. rewrite embed_and_store_run. cbv zeta.
  destruct (get_or_create_run w) as (w0 & -> & Htr & _). cbn [fst].
  set (l0 := {| Ingest.world := w0; Ingest.success_count := 0; Ingest.error_count := 0 |}).
  destruct (for_each_ind embed_content policy script batch_size
              (fun i l => Observed.embed_calls (trace (Ingest.world l))
                          = (Observed.embed_calls (trace w)
                             ++ Derived.texts script (take i records))%list)
              records 0) with (l := l0) as (l' & -> & HP).
  - intros i r l Hr HP.
    destruct (loop_body_calls (0 + i) r l) as [-> _]. rewrite HP.
    rewrite (take_S_r _ _ _ Hr), texts_snoc, <- app_assoc. do 2 f_equal.
    destruct (Ingest.create_text script r) as [text|] eqn:Ht; [|done].
    by rewrite (Hnb r text Ht).
  - simpl. by rewrite Htr, app_nil_r.
  - cbn [fst]. by rewrite HP, firstn_all.
Qed.

(** The two counters against the number of records: each record is
    counted at least once and in each counter at most once. *)
Lemma run_counters data w :
  exists w' successes errors,
    run data w = (w', Ok (successes, errors))
    /\ match data with
       | Ok records =>
           (successes <= length records)%nat
           /\ (errors <= length records)%nat
           /\ (length records <= successes + errors)%nat
       | Raise _ => w' = w /\ successes = 0%nat /\ errors = 0%nat
       end.
Proof.
  destruct data as [records|e]; [|by exists w, 0%nat, 0%nat].
  rewrite embed_and_store_run. cbv zeta.
  destruct (get_or_create_run w) as (w0 & -> & _). cbn [fst].
  set (l0 := {| Ingest.world := w0; Ingest.success_count := 0; Ingest.error_count := 0 |}).
  destruct (for_each_ind embed_content policy script batch_size
              (fun i l => (Ingest.success_count l <= i)%nat
                          /\ (Ingest.error_count l <= i)%nat
                          /\ (i <= Ingest.success_count l + Ingest.error_count l)%nat)
              records 0) with (l := l0) as (l' & -> & HP).
  - intros i r l Hr (Hs & He & Hse).
    destruct (loop_body_step embed_content policy script batch_size (0 + i) r l)
      as (evs & -> & _).
    cbn [fst Ingest.success_count Ingest.error_count].
    unfold Records.completes.
    destruct (Records.stores _ _ _ _ _ _ _); simpl; [|lia].
    destruct (Records.displays script r && negb (batch_size =? 0)); simpl; lia.
  - simpl. lia.
  - eauto.
Qed.

Lemma existsb_sleep_app evs1 evs2 :
  existsb Observed.is_sleep (evs1 ++ evs2)
  = existsb Observed.is_sleep evs1 || existsb Observed.is_sleep evs2.
Proof. apply existsb_app. Qed.

(** With [batch_size] 0 the pacing test divides by zero in every turn
    that gets to it. *)
Lemma run_zero_batch records w :
  batch_size = 0 ->
  exists w' successes,
    run (Ok records) w = (w', Ok (successes, length records))
    /\ existsb Observed.is_sleep (trace w') = existsb Observed.is_sleep (trace w).
Proof.
  intros Hb. rewrite embed_and_store_run. cbv zeta.
  destruct (get_or_create_run w) as (w0 & -> & Htr & _). cbn [fst].
  set (l0 := {| Ingest.world := w0; Ingest.success_count := 0; Ingest.error_count := 0 |}).
  destruct (for_each_ind embed_content policy script batch_size
              (fun i l => Ingest.error_count l = i
                          /\ existsb Observed.is_sleep (trace (Ingest.world l))
                             = existsb Observed.is_sleep (trace w))
              records 0) with (l := l0) as (l' & -> & HP).
  - intros i r l Hr [He Hs].
    destruct (loop_body_step embed_content policy script batch_size (0 + i) r l)
      as (evs & -> & _ & _ & Hsleep).
    cbn [fst Ingest.world Ingest.error_count trace].
    rewrite existsb_sleep_app, Hsleep, Hs.
    unfold Records.completes. rewrite Hb. simpl.
    rewrite !andb_false_r. simpl. rewrite orb_false_r. split; [lia|done].
  - simpl. by rewrite Htr.
  - destruct HP as [He Hs]. cbn [fst]. rewrite He. eauto.
Qed.

(** The run changes one collection only, and in it only the entries
    under the ids of this input; no entry is ever removed. *)
Lemma run_store records w :
  let before := default ∅ (store w !! name) in
  exists after,
    store (run (Ok records) w).1 = <[name := after]> (store w)
    /\ (forall id, is_Some (before !! id) -> is_Some (after !! id))
    /\ (forall id, (forall i, (i < length records)%nat -> id <> entry_id i) ->
                   after !! id = before !! id).
Proof.
  intros before. rewrite embed_and_store_run. cbv zeta.
  destruct (get_or_create_run w) as (w0 & -> & _ & Hc0 & Hst0). cbn [fst].
  fold before in Hc0, Hst0.
  set (l0 := {| Ingest.world := w0; Ingest.success_count := 0; Ingest.error_count := 0 |}).
  destruct (for_each_ind embed_content policy script batch_size
              (fun i l => exists c,
                   store (Ingest.world l) = <[name := c]> (store w)
                   /\ (forall id, is_Some (before !! id) -> is_Some (c !! id))
                   /\ (forall id, (forall j, (j < i)%nat -> id <> entry_id j) ->
                                  c !! id = before !! id))
              records 0) with (l := l0) as (l' & -> & HP).
  - intros i r l Hr (c & Hst & Hmono & Hout).
    destruct (loop_body_step embed_content policy script batch_size (0 + i) r l)
      as (evs & -> & _).
    cbn [fst Ingest.world store]. unfold Records.store_after.
    rewrite Hst, lookup_insert_eq, insert_insert_eq.
    eexists. split; [done|]. split.
    + intros id Hid. by apply settle_lookup_mono, Hmono.
    + intros id Hid. rewrite settle_lookup_other by (apply (Hid i); lia).
      apply Hout. intros j Hj. apply Hid. lia.
  - exists before. simpl. split; [done|]. split; [done|]. done.
  - cbn [fst]. destruct HP as (c & Hst & Hmono & Hout). eauto.
Qed.

(** Run on a store that has no entry in the script's collection yet,
    the collection ends with as many entries as the run counted
    successes: one per id handed to [add]. *)
Lemma run_fresh_count records w :
  default ∅ (store w !! name) = ∅ ->
  exists w' successes errors,
    run (Ok records) w = (w', Ok (successes, errors))
    /\ Chroma.count w' name = successes.
Proof.
  intros Hfresh. rewrite embed_and_store_run. cbv zeta.
  destruct (get_or_create_run w) as (w0 & -> & _ & Hc0 & _). cbn [fst].
  rewrite Hfresh in Hc0.
  set (l0 := {| Ingest.world := w0; Ingest.success_count := 0; Ingest.error_count := 0 |}).
  destruct (for_each_ind embed_content policy script batch_size
              (fun i l => exists c : gmap string Entry,
                   store (Ingest.world l) !! name = Some c
                   /\ size c = Ingest.success_count l
                   /\ (forall id, is_Some (c !! id) ->
                                  exists j, (j < i)%nat /\ id = entry_id j))
              records 0) with (l := l0) as (l' & -> & HP).
  - intros i r l Hr (c & Hc & Hsize & Hdom). change (0 + i)%nat with i.
    destruct (loop_body_step embed_content policy script batch_size i r l)
      as (evs & -> & _).
    cbn [fst Ingest.world Ingest.success_count store].
    unfold Records.store_after, Records.stores, Records.settle.
    rewrite Hc, lookup_insert_eq.
    assert (Hnew : c !! entry_id i = None).
    { destruct (c !! entry_id i) eqn:Hi; [|done].
      destruct (Hdom (entry_id i)) as (j & Hj & Heq); [by rewrite Hi|].
      apply entry_id_inj in Heq. lia. }
    destruct (candidate _ r) as [e|]; [destruct (Chroma.fits c (embedding e)) eqn:Hfits|].
    + unfold Chroma.add_entry. rewrite Hfits, Hnew. simpl.
      eexists. split; [done|]. split.
      * rewrite map_size_insert_None by done. lia.
      * intros id [x Hx]. destruct (decide (id = entry_id i)) as [->|Hne].
        { exists i. split; [lia|done]. }
        rewrite lookup_insert_ne in Hx by done.
        destruct (Hdom id) as (j & Hj & ->); [by rewrite Hx|].
        exists j. split; [lia|done].
    + unfold Chroma.add_entry. rewrite Hfits. simpl.
      exists c. split; [done|]. split; [simpl; lia|].
      intros id Hid. destruct (Hdom id Hid) as (j & Hj & ->).
      exists j. split; [lia|done].
    + exists c. split; [done|]. split; [simpl; lia|].
      intros id Hid. destruct (Hdom id Hid) as (j & Hj & ->).
      exists j. split; [lia|done].
  - exists ∅. simpl. split; [done|]. split; [done|].
    intros id [x Hx]. by rewrite lookup_empty in Hx.
  - destruct HP as (c & Hc & Hsize & _). cbn [fst].
    exists (Ingest.world l'), (Ingest.success_count l'), (Ingest.error_count l').
    split; [done|]. unfold Chroma.count. by rewrite Hc.
Qed.

(** The run over records that are all well formed, whenever their
    turn comes, with a store that takes their vectors: every record is
    a success and none an error. *)
Lemma run_all_good d records w :
  batch_size <> 0 -> d <> 0%nat ->
  Records.gives_vectors_of embed_content d ->
  Records.holds_vectors_of script d w ->
  (policy = Chroma.RejectDuplicate -> Records.ids_unused script (length records) w) ->
  (forall i r t, records !! i = Some r -> Records.well_formed embed_content script t r) ->
  exists w',
    run (Ok records) w = (w', Ok (length records, 0%nat))
    /\ Observed.failures (trace w') = Observed.failures (trace w)
    /\ exists c, store w' !! name = Some c
                 /\ forall i, (i < length records)%nat -> is_Some (c !! entry_id i).
Proof.
  intros Hb Hd Hgives Hdim Hfresh Hgood.
  rewrite embed_and_store_run. cbv zeta.
  destruct (get_or_create_run w) as (w0 & -> & Htr & Hc0 & _). cbn [fst].
  set (c0 := default ∅ (store w !! name)) in *.
  assert (Hdim0 : forall id e, c0 !! id = Some e -> length (embedding e) = d).
  { subst c0. intros id e. destruct (store w !! name) as [c|] eqn:Hw; simpl.
    - by apply (Hdim c).
    - by rewrite lookup_empty. }
  assert (Hfresh0 : policy = Chroma.RejectDuplicate ->
                    forall i, (i < length records)%nat -> c0 !! entry_id i = None).
  { subst c0. intros Hpol i Hi. destruct (store w !! name) as [c|] eqn:Hw; simpl.
    - by apply (Hfresh Hpol c).
    - apply lookup_empty. }
  set (l0 := {| Ingest.world := w0; Ingest.success_count := 0; Ingest.error_count := 0 |}).
  destruct (for_each_ind embed_content policy script batch_size
              (fun i l =>
                 Ingest.success_count l = i /\ Ingest.error_count l = 0%nat
                 /\ Observed.failures (trace (Ingest.world l))
                    = Observed.failures (trace w)
                 /\ exists c, store (Ingest.world l) !! name = Some c
                              /\ (forall id e, c !! id = Some e ->
                                               length (embedding e) = d)
                              /\ (forall j, (j < i)%nat -> is_Some (c !! entry_id j))
                              /\ (forall id, (forall j, (j < i)%nat -> id <> entry_id j) ->
                                              c !! id = c0 !! id))
              records 0) with (l := l0)
    as (l' & -> & Hs & He & Hfail & c & Hc & _ & Hin & _).
  - intros i r l Hr (Hs & He & Hfail & c & Hc & Hdimc & Hin & Hout).
    pose proof (lookup_lt_Some _ _ _ Hr) as Hilt. change (0 + i)%nat with i.
    destruct (loop_body_step embed_content policy script batch_size i r l)
      as (evs & -> & Hevs & _).
    cbn [fst Ingest.world Ingest.error_count Ingest.success_count store trace].
    rewrite failures_app, Hfail, Hevs.
    unfold Records.store_after. rewrite Hc, lookup_insert_eq.
    set (t := now (Ingest.world l)).
    destruct (well_formed_completes embed_content policy script batch_size
                d t i r c Hb Hd Hgives) as (Hcomp & Hst & Hsome).
    { by apply (Hgood i). }
    { done. }
    { intros Hpol. rewrite Hout; [by apply Hfresh0|].
      intros j Hj Heq. apply entry_id_inj in Heq. lia. }
    rewrite Hcomp, Hst. cbn [Nat.b2n negb]. rewrite app_nil_r.
    split; [lia|]. split; [lia|]. split; [done|].
    eexists. split; [done|]. split; [|split].
    + apply settle_holds; [done|]. intros e. by apply candidate_length.
    + intros j Hj. destruct (decide (j = i)) as [->|Hji]; [done|].
      apply settle_lookup_mono, Hin. lia.
    + intros id Hid. rewrite settle_lookup_other by (apply Hid; lia).
      apply Hout. intros j Hj. apply Hid. lia.
  - simpl. split; [done|]. split; [done|]. split; [by rewrite Htr|].
    exists c0. split; [done|]. split; [done|]. split; [intros; lia|done].
  - cbn [fst]. rewrite Hs, He. eexists. split; [done|]. split; [done|]. eauto.
Qed.
End IngestMore.

Section ServerMore.
Variable embed_content : nat -> string -> EmbeddingUtils.EmbedOutcome.
Variable rank : gmap string Entry -> Embedding -> list string.
Variable generate_content : nat -> string -> Main.GenOutcome.
Variable globals : Main.Globals.

Local Abbreviation retrieve_products := (Main.retrieve_products embed_content rank globals).
Local Abbreviation retrieve_faqs := (Main.retrieve_faqs embed_content rank globals).
Local Abbreviation generate_response_with_gemini :=
  (Main.generate_response_with_gemini generate_content globals).
Local Abbreviation query_chatbot :=
  (Main.query_chatbot embed_content rank generate_content globals).

Lemma collect_products_displayable ms :
  Forall (fun p => Derived.displayable_product p = true) (Main.collect_products ms).
Proof.
  unfold Main.collect_products. induction ms as [|m ms IH]; csimpl; [constructor|].
  destruct (Main.truthy (m !! "productName") && Main.truthy (m !! "productPrice"))
    eqn:Hm; csimpl; [|done].
  constructor; [|done].
  apply andb_true_iff in Hm as [Hn Hp]. unfold Derived.displayable_product. simpl.
  destruct (m !! "productName"), (m !! "productPrice"); try done.
  simpl in *. by rewrite Hn, Hp.
Qed.

Lemma collect_faqs_displayable ms :
  Forall (fun f => Derived.displayable_faq f = true) (Main.collect_faqs ms).
Proof.
  unfold Main.collect_faqs. induction ms as [|m ms IH]; csimpl; [constructor|].
  destruct (Main.truthy (m !! "question") && Main.truthy (m !! "answer"))
    eqn:Hm; csimpl; [|done].
  constructor; [|done].
  apply andb_true_iff in Hm as [Hn Hp]. unfold Derived.displayable_faq. simpl.
  destruct (m !! "question"), (m !! "answer"); try done.
  simpl in *. by rewrite Hn, Hp.
Qed.

Lemma retrieve_products_displayable q k w w' l :
  retrieve_products q k w = (w', Ok l) ->
  Forall (fun p => Derived.displayable_product p = true) l.
Proof.
  unfold Main.retrieve_products, Py.try_except, Py.bind, Py.ret.
  destruct (Main.products_collection globals) as [c|]; [|by intros [= _ <-]].
  destruct (EmbeddingUtils.get_embedding _ _ _) as [w1 [[v|]|e]];
    try by intros [= _ <-].
  destruct (Chroma.query rank c v _ w1) as [w2 [ms|e]]; intros [= _ <-]; [|done].
  apply collect_products_displayable.
Qed.

Lemma retrieve_faqs_displayable q k w w' l :
  retrieve_faqs q k w = (w', Ok l) ->
  Forall (fun f => Derived.displayable_faq f = true) l.
Proof.
  unfold Main.retrieve_faqs, Py.try_except, Py.bind, Py.ret.
  destruct (Main.faqs_collection globals) as [c|]; [|by intros [= _ <-]].
  destruct (EmbeddingUtils.get_embedding _ _ _) as [w1 [[v|]|e]];
    try by intros [= _ <-].
  destruct (Chroma.query rank c v _ w1) as [w2 [ms|e]]; intros [= _ <-]; [|done].
  apply collect_faqs_displayable.
Qed.

(** What lies behind an answer of the handler. *)
Lemma query_chatbot_ok_inv request w w' response :
  query_chatbot request w = (w', Ok response) ->
  let q := strip (Main.req_query request) in
  exists k_p k_f w1 w2,
    Main.top_k_products request = Some k_p
    /\ Main.top_k_faqs request = Some k_f
    /\ retrieve_products q (Z.min k_p 10) w = (w1, Ok (Main.products response))
    /\ retrieve_faqs q (Z.min k_f 5) w1 = (w2, Ok (Main.faqs response))
    /\ generate_response_with_gemini q (Main.products response) (Main.faqs response) w2
       = (w', Ok (Main.responseText response))
    /\ Main.query response = q
    /\ Main.hasResults response
       = (0 <? length (Main.products response))%nat
         || (0 <? length (Main.faqs response))%nat.
Proof.
  intros Hrun q. unfold Main.query_chatbot in Hrun. fold q in Hrun.
  repeat (case_match; try done).
  unfold Py.try_except, Py.bind, Py.lift, Py.ret, Py.raise, Main.py_min in Hrun.
  destruct (Main.top_k_products request) as [k_p|]; [|done].
  destruct (retrieve_products q (Z.min k_p 10) w) as [w1 [prods|e]] eqn:Hp; [|done].
  destruct (Main.top_k_faqs request) as [k_f|]; [|done].
  destruct (retrieve_faqs q (Z.min k_f 5) w1) as [w2 [fs|e]] eqn:Hf; [|done].
  destruct (generate_response_with_gemini q prods fs w2) as [w3 [text|e]] eqn:Hg;
    [|done].
  injection Hrun as <- <-. simpl. exists k_p, k_f, w1, w2. done.
Qed.

Local Abbreviation rejects :=
  (query_chatbot_rejects embed_content rank generate_content globals).
Local Abbreviation cases :=
  (query_chatbot_cases embed_content rank generate_content globals).
Local Abbreviation full_run :=
  (query_chatbot_run embed_content rank generate_content globals).

(** The one request to the generative model a run of the handler
    makes, and what the answer's text is according to its outcome. *)
Lemma sole_generate_event request w w' r t prompt :
  query_chatbot request w = (w', r) ->
  (now w <= t)%nat ->
  trace w' !! t = Some (GenerateContent prompt) ->
  exists response,
    r = Ok response
    /\ match generate_content t prompt with
       | Main.GenResponse (Some reply) => Main.responseText response = strip reply
       | _ => Main.responseText response
              = Main.fallback_response (Main.products response) (Main.faqs response)
       end.
Proof.
  intros Hrun Ht Hev. unfold now in Ht.
  assert (Hnone : trace w !! t = Some (GenerateContent prompt) -> False).
  { intros H. apply lookup_lt_Some in H. lia. }
  destruct (blank (Main.req_query request)) eqn:Hb.
  { destruct (rejects request w (or_introl Hb)) as (d & Hr & _).
    rewrite Hr in Hrun. injection Hrun as <- <-. by destruct Hnone. }
  destruct (Nat.le_gt_cases (String.length (strip (Main.req_query request))) 500)
    as [Hlen|Hlen]; cycle 1.
  { destruct (rejects request w (or_intror Hlen)) as (d & Hr & _).
    rewrite Hr in Hrun. injection Hrun as <- <-. by destruct Hnone. }
  destruct (cases request w Hb Hlen)
    as [(code & d & Hr & _)|[(c_p & k_p & d & Hr)|
        (c_p & c_f & k_p & k_f & Hg & Hp & Hf & Hkp & Hkf)]].
  - rewrite Hr in Hrun. injection Hrun as <- <-. by destruct Hnone.
  - rewrite Hr in Hrun. injection Hrun as <- <-. simpl in Hev.
    rewrite lookup_app_r in Hev by done.
    by apply retrieval_events_no_generate in Hev.
  - destruct (full_run request w c_p c_f k_p k_f Hb Hlen Hg Hp Hf Hkp Hkf)
      as (prods & fs & text & Hr & _ & _ & Htext).
    rewrite Hr in Hrun. injection Hrun as <- <-.
    cbv zeta in Htext. simpl trace in Hev, Htext.
    set (evs_p := Observed.retrieval_events _ c_p _ _ _ _) in *.
    set (evs_f := Observed.retrieval_events _ c_f _ _ _ _) in *.
    assert (t = length ((trace w ++ evs_p) ++ evs_f) /\
            prompt = Main.build_prompt (strip (Main.req_query request)) prods fs)
      as [-> ->].
    { destruct (decide (t < length ((trace w ++ evs_p) ++ evs_f))%nat) as [Hlt|Hge].
      - rewrite lookup_app_l in Hev by done.
        destruct (decide (t < length (trace w ++ evs_p))%nat) as [Hlt'|Hge'].
        + rewrite lookup_app_l in Hev by done.
          rewrite lookup_app_r in Hev by done.
          by apply retrieval_events_no_generate in Hev.
        + rewrite lookup_app_r in Hev by lia.
          by apply retrieval_events_no_generate in Hev.
      - rewrite lookup_app_r in Hev by lia.
        destruct (t - length ((trace w ++ evs_p) ++ evs_f))%nat as [|i] eqn:Hi;
          simpl in Hev; [|done].
        injection Hev as <-. split; [lia|done]. }
    unfold now in Htext. simpl trace in Htext.
    eexists. split; [done|]. simpl.
    by destruct (generate_content _ _) as [|[reply|]].
Qed.

(** X15: the text of an answer is the model's text stripped, whatever it
    is: a model that answers with white space only gives an answer
    whose [responseText] is empty, the fallback sentence is not used. *)
Theorem model_text_is_only_stripped (request : Main.QueryRequest) (w w' : World)
    (r : result Main.QueryResponse) (t : nat) (prompt reply : string) :
  query_chatbot request w = (w', r) ->
  (now w <= t)%nat ->
  trace w' !! t = Some (GenerateContent prompt) ->
  generate_content t prompt = Main.GenResponse (Some reply) ->
  exists response,
    r = Ok response
    /\ Main.responseText response = strip reply
    /\ (blank reply = true -> Main.responseText response = EmptyString).
Proof.
  intros Hrun Ht Hev Hreply.
  destruct (sole_generate_event request w w' r t prompt Hrun Ht Hev)
    as (response & -> & Htext).
  rewrite Hreply in Htext. exists response. split; [done|]. split; [done|].
  intros Hb. rewrite Htext. unfold strip. by rewrite lstrip_blank.
Qed.

(** X9: every answer of the handler holds only products with a name and
    a price and only FAQs with a question and an answer, echoes the
    stripped query, and has [hasResults] set exactly when one of the two
    lists is not empty. *)
Theorem answers_hold_only_displayable_results (request : Main.QueryRequest)
    (w w' : World) (response : Main.QueryResponse) :
  query_chatbot request w = (w', Ok response) ->
  Forall (fun p => Derived.displayable_product p = true) (Main.products response)
  /\ Forall (fun f => Derived.displayable_faq f = true) (Main.faqs response)
  /\ Main.query response = strip (Main.req_query request)
  /\ (Main.hasResults response = false
      <-> Main.products response = [] /\ Main.faqs response = []).
Proof.
  intros Hrun.
  destruct (query_chatbot_ok_inv request w w' response Hrun)
    as (k_p & k_f & w1 & w2 & _ & _ & Hp & Hf & _ & Hq & Hhas).
  split; [by eapply retrieve_products_displayable|].
  split; [by eapply retrieve_faqs_displayable|].
  split; [done|]. rewrite Hhas.
  destruct (Main.products response), (Main.faqs response); simpl;
    (split; [done | by intros [??]]).
Qed.

(** X10: a request that passes the four checks and carries both counts
    is always answered, and the store is left as it was: whatever the
    embedding service, the store's search and the model do, the handler
    does not fail. *)
Theorem accepted_query_is_always_answered (request : Main.QueryRequest) (w : World)
    (c_p c_f : string) (k_p k_f : Z) :
  blank (Main.req_query request) = false ->
  (String.length (strip (Main.req_query request)) <= 500)%nat ->
  Main.gemini_client globals = Some tt ->
  Main.products_collection globals = Some c_p ->
  Main.faqs_collection globals = Some c_f ->
  Main.top_k_products request = Some k_p ->
  Main.top_k_faqs request = Some k_f ->
  exists w' response,
    query_chatbot request w = (w', Ok response) /\ store w' = store w.
Proof.
  intros Hb Hlen Hg Hp Hf Hkp Hkf.
  destruct (full_run request w c_p c_f k_p k_f Hb Hlen Hg Hp Hf Hkp Hkf)
    as (prods & fs & text & -> & _).
  eauto.
Qed.

(** X11: the handler never writes to the store, whatever the request. *)
Theorem query_never_writes_the_store (request : Main.QueryRequest) (w : World) :
  store (query_chatbot request w).1 = store w.
Proof.
  destruct (blank (Main.req_query request)) eqn:Hb.
  { by destruct (rejects request w (or_introl Hb)) as (d & -> & _). }
  destruct (Nat.le_gt_cases (String.length (strip (Main.req_query request))) 500)
    as [Hlen|Hlen]; cycle 1.
  { by destruct (rejects request w (or_intror Hlen)) as (d & -> & _). }
  destruct (cases request w Hb Hlen)
    as [(code & d & -> & _)|[(c_p & k_p & d & ->)|
        (c_p & c_f & k_p & k_f & Hg & Hp & Hf & Hkp & Hkf)]]; [done..|].
  by destruct (full_run request w c_p c_f k_p k_f Hb Hlen Hg Hp Hf Hkp Hkf)
    as (prods & fs & text & -> & _).
Qed.

(** X12: the only failures of the handler are HTTP errors with status
    400, 500 or 503; no other exception leaves it. *)
Theorem query_failures_are_http_errors (request : Main.QueryRequest) (w : World) :
  match (query_chatbot request w).2 with
  | Ok _ => True
  | Raise (HTTPException status_code _) =>
      status_code = 400 \/ status_code = 500 \/ status_code = 503
  | Raise _ => False
  end.
Proof.
  destruct (blank (Main.req_query request)) eqn:Hb.
  { destruct (rejects request w (or_introl Hb)) as (d & -> & _). simpl. auto. }
  destruct (Nat.le_gt_cases (String.length (strip (Main.req_query request))) 500)
    as [Hlen|Hlen]; cycle 1.
  { destruct (rejects request w (or_intror Hlen)) as (d & -> & _). simpl. auto. }
  destruct (cases request w Hb Hlen)
    as [(code & d & -> & Hcode)|[(c_p & k_p & d & ->)|
        (c_p & c_f & k_p & k_f & Hg & Hp & Hf & Hkp & Hkf)]]; simpl.
  - destruct Hcode; auto.
  - auto.
  - by destruct (full_run request w c_p c_f k_p k_f Hb Hlen Hg Hp Hf Hkp Hkf)
      as (prods & fs & text & -> & _).
Qed.

Lemma valid_text_passes request :
  blank (Main.req_query request) = false ->
  (String.length (strip (Main.req_query request)) <= 500)%nat ->
  is_empty (strip (Main.req_query request)) = false
  /\ (500 <? String.length (strip (Main.req_query request)))%nat = false.
Proof.
  intros Hb Hlen. split; [by rewrite strip_empty|]. apply Nat.ltb_ge. lia.
Qed.

(** A request with a valid text is answered 503 when a collection or
    the model client is missing, before anything is sent out; a missing
    collection is reported first. *)
Lemma unavailable_service_is_503 (request : Main.QueryRequest) (w : World) :
  blank (Main.req_query request) = false ->
  (String.length (strip (Main.req_query request)) <= 500)%nat ->
  Main.gemini_client globals = None
  \/ Main.products_collection globals = None
  \/ Main.faqs_collection globals = None ->
  query_chatbot request w
  = (w, Raise (HTTPException 503
                 (if Main.is_none (Main.products_collection globals)
                     || Main.is_none (Main.faqs_collection globals)
                  then "Database not available. Please contact support."
                  else "AI service temporarily unavailable. Please try again."))).
Proof.
  intros Hb Hlen Hmiss. destruct (valid_text_passes request Hb Hlen) as [He Hl].
  unfold Main.query_chatbot. rewrite He, Hl.
  destruct (Main.products_collection globals), (Main.faqs_collection globals),
    (Main.gemini_client globals); simpl; try done.
  by destruct Hmiss as [?|[?|?]].
Qed.

(** X13: a request whose [top_k_products] is null is answered 500 with
    nothing sent out; one whose [top_k_faqs] alone is null is answered
    500 after the product retrieval has run, its embedding request
    spent. *)
Theorem missing_top_k_is_500 (request : Main.QueryRequest) (w : World)
    (c_p c_f : string) :
  blank (Main.req_query request) = false ->
  (String.length (strip (Main.req_query request)) <= 500)%nat ->
  Main.gemini_client globals = Some tt ->
  Main.products_collection globals = Some c_p ->
  Main.faqs_collection globals = Some c_f ->
  let failure : result Main.QueryResponse :=
    Raise (HTTPException 500
             "An error occurred processing your request. Please try again.") in
  (Main.top_k_products request = None -> query_chatbot request w = (w, failure))
  /\ (forall k_p,
        Main.top_k_products request = Some k_p ->
        Main.top_k_faqs request = None ->
        exists w',
          query_chatbot request w = (w', failure)
          /\ Observed.embed_calls (trace w')
             = (Observed.embed_calls (trace w) ++ [strip (Main.req_query request)])%list).
Proof.
  intros Hb Hlen Hg Hp Hf failure.
  destruct (valid_text_passes request Hb Hlen) as [He Hl].
  destruct (strip_not_blank _ Hb) as [Hqb _].
  split.
  - intros Hk. unfold Main.query_chatbot. by rewrite He, Hl, Hg, Hp, Hf, Hk.
  - intros k_p Hkp Hkf. unfold Main.query_chatbot.
    rewrite He, Hl, Hg, Hp, Hf, Hkp, Hkf. simpl.
    unfold Py.try_except, Py.bind, Py.lift. simpl.
    destruct (retrieve_products_run embed_content rank globals c_p _
                (Z.min k_p 10) w Hp Hqb) as (prods & -> & _).
    simpl. eexists. split; [done|]. simpl.
    by rewrite embed_calls_app, (embed_calls_retrieval embed_content).
Qed.

(** X14: the retrieval helpers give an empty list, and send no query to
    the store, when their collection is missing or the embedding request
    for a text that is not blank fails or returns no vector. *)
Theorem retrieval_degrades_to_empty (query_text : string) (top_k : Z) (w : World) :
  (Main.products_collection globals = None ->
   retrieve_products query_text top_k w = (w, Ok []))
  /\ (Main.faqs_collection globals = None ->
      retrieve_faqs query_text top_k w = (w, Ok []))
  /\ (blank query_text = false ->
      (forall v, embed_content (now w) query_text
                 <> EmbeddingUtils.EmbedValues (Some v)) ->
      let w' := {| store := store w;
                   trace := trace w ++ [EmbedContent query_text] |} in
      (is_Some (Main.products_collection globals) ->
       retrieve_products query_text top_k w = (w', Ok []))
      /\ (is_Some (Main.faqs_collection globals) ->
          retrieve_faqs query_text top_k w = (w', Ok []))).
Proof.
  split; [|split].
  - intros Hc. unfold Main.retrieve_products. by rewrite Hc.
  - intros Hc. unfold Main.retrieve_faqs. by rewrite Hc.
  - intros Hb Hemb w'. split; intros [c Hc].
    + unfold Main.retrieve_products. rewrite Hc.
      unfold Py.try_except, Py.bind. rewrite get_embedding_calls by done.
      unfold EmbeddingUtils.call_provider.
      destruct (embed_content (now w) query_text) as [|[v|]] eqn:He; try done.
      by destruct (Hemb v).
    + unfold Main.retrieve_faqs. rewrite Hc.
      unfold Py.try_except, Py.bind. rewrite get_embedding_calls by done.
      unfold EmbeddingUtils.call_provider.
      destruct (embed_content (now w) query_text) as [|[v|]] eqn:He; try done.
      by destruct (Hemb v).
Qed.

(** X17: the start-up report and the handler agree: for a request with a
    valid text, the answer is 503 exactly when [startup_event] did not
    print its line that all services are ready. *)
Theorem ready_line_means_no_503 (request : Main.QueryRequest) (w : World) :
  blank (Main.req_query request) = false ->
  (String.length (strip (Main.req_query request)) <= 500)%nat ->
  (exists detail, (query_chatbot request w).2 = Raise (HTTPException 503 detail))
  <-> ~ In Main.AllServicesReady (Main.startup_event globals).
Proof.
  intros Hb Hlen. destruct (valid_text_passes request Hb Hlen) as [He Hl].
  unfold Main.startup_event, Main.query_chatbot. rewrite He, Hl.
  destruct (Main.products_collection globals), (Main.faqs_collection globals),
    (Main.gemini_client globals); simpl.
  2-8: split; [intros _ H; repeat (destruct H as [H|H]; [discriminate|]); done
              |eauto].
  split; [|intros H; destruct H; auto].
  intros [detail H]. exfalso. revert H.
  unfold Py.try_except. by destruct (Py.bind _ _ w) as [w1 [response|e]].
Qed.
End ServerMore.

(** X16: the prompt shows the model at most the first five products and
    the first three FAQs: what was retrieved beyond them does not change
    it. *)
Theorem prompt_shows_five_products_three_faqs (q : string)
    (prods : list Main.ProductResult) (fs : list Main.FAQResult) :
  Main.build_prompt q prods fs = Main.build_prompt q (take 5 prods) (take 3 fs)
  /\ forall more_products more_faqs,
       (5 <= length prods)%nat -> (3 <= length fs)%nat ->
       Main.build_prompt q (prods ++ more_products) (fs ++ more_faqs)
       = Main.build_prompt q prods fs.
Proof.
  assert (Hp : forall l, Main.products_context (take 5 l) = Main.products_context l).
  { intros l. unfold Main.products_context.
    destruct l as [|p l]; [done|]. simpl. by rewrite take_take. }
  assert (Hf : forall l, Main.faqs_context (take 3 l) = Main.faqs_context l).
  { intros l. unfold Main.faqs_context.
    destruct l as [|f l]; [done|]. simpl. by rewrite take_take. }
  split.
  - unfold Main.build_prompt. by rewrite Hp, Hf.
  - intros mp mf Hlp Hlf. unfold Main.build_prompt.
    rewrite <- (Hp (prods ++ mp)%list), <- (Hf (fs ++ mf)%list).
    rewrite !take_app_le by done. by rewrite Hp, Hf.
Qed.

Section ScriptsMore.
Variable py_repr : json -> string.
Variable embed_content : nat -> string -> EmbeddingUtils.EmbedOutcome.
Variable policy : Chroma.DuplicatePolicy.

Lemma create_product_text_not_blank product text :
  EmbedProducts.create_product_text py_repr product = Ok text -> blank text = false.
Proof.
  unfold EmbedProducts.create_product_text, EmbedProducts.field, Py.get, Py.rbind.
  destruct product; try done.
  destruct (default (JList []) (fields !! "coverType")); try (by intros [= <-]).
  destruct (str_items items); [|done]. by intros [= <-].
Qed.

Lemma create_faq_text_not_blank faq text :
  EmbedFaqs.create_faq_text py_repr faq = Ok text -> blank text = false.
Proof.
  unfold EmbedFaqs.create_faq_text, EmbedFaqs.field, Py.get, Py.rbind.
  destruct faq; try done. by intros [= <-].
Qed.

(** X1: neither script ever builds a blank text, so each run asks the
    embedding service once for every record whose text can be built,
    with exactly that text, in input order, and for no other record. *)
Theorem ingestion_embeds_each_text (batch_size : Z) (records : list json) (w : World) :
  Observed.embed_calls
    (trace (EmbedProducts.embed_and_store_products py_repr embed_content policy
              batch_size (Ok records) w).1)
  = (Observed.embed_calls (trace w)
     ++ Derived.texts (EmbedProducts.script py_repr) records)%list
  /\ Observed.embed_calls
       (trace (EmbedFaqs.embed_and_store_faqs py_repr embed_content policy
                 batch_size (Ok records) w).1)
     = (Observed.embed_calls (trace w)
        ++ Derived.texts (EmbedFaqs.script py_repr) records)%list.
Proof.
  split.
  - apply run_embed_calls. apply create_product_text_not_blank.
  - apply run_embed_calls. apply create_faq_text_not_blank.
Qed.
End ScriptsMore.

(** X2: an ingestion function always returns its two counters: when the
    data loaded, neither exceeds the number of records and together they
    cover it (a record is counted at least once, and twice only when it
    fails after it was stored); when the data did not load, both are 0 and
    the world is untouched. *)
Theorem ingestion_counters_cover_the_input
    (embed_content : nat -> string -> EmbeddingUtils.EmbedOutcome)
    (policy : Chroma.DuplicatePolicy) (script : Ingest.Script) (batch_size : Z)
    (data : result (list json)) (w : World) :
  exists w' successes errors,
    Ingest.embed_and_store embed_content policy script batch_size data w
    = (w', Ok (successes, errors))
    /\ match data with
       | Ok records =>
           (successes <= length records)%nat
           /\ (errors <= length records)%nat
           /\ (length records <= successes + errors)%nat
       | Raise _ => w' = w /\ successes = 0%nat /\ errors = 0%nat
       end.
Proof. apply run_counters. Qed.

(** X3: called with [batch_size] 0, an ingestion function counts every
    record as an error, because the pacing test raises in each turn that
    reaches it, and it never pauses; the number of successes it returns
    beside that is whatever number of records it stored. *)
Theorem zero_batch_size_fails_every_record
    (embed_content : nat -> string -> EmbeddingUtils.EmbedOutcome)
    (policy : Chroma.DuplicatePolicy) (script : Ingest.Script)
    (records : list json) (w : World) :
  exists w' successes,
    Ingest.embed_and_store embed_content policy script 0 (Ok records) w
    = (w', Ok (successes, length records))
    /\ existsb Observed.is_sleep (trace w') = existsb Observed.is_sleep (trace w).
Proof. by apply run_zero_batch. Qed.

(** X4: a run changes the script's own collection only, and there only
    the entries under the ids of this input, [prefix_0] to [prefix_(N-1)]:
    every other collection and every other entry is as before, and no id
    the collection held is lost. *)
Theorem ingestion_touches_only_its_ids
    (embed_content : nat -> string -> EmbeddingUtils.EmbedOutcome)
    (policy : Chroma.DuplicatePolicy) (script : Ingest.Script) (batch_size : Z)
    (records : list json) (w : World) :
  let w' := (Ingest.embed_and_store embed_content policy script batch_size
               (Ok records) w).1 in
  let before := default ∅ (store w !! Ingest.collection_name script) in
  exists after,
    store w' !! Ingest.collection_name script = Some after
    /\ (forall other, other <> Ingest.collection_name script ->
                      store w' !! other = store w !! other)
    /\ (forall id, is_Some (before !! id) -> is_Some (after !! id))
    /\ (forall id,
          (forall i, (i < length records)%nat -> id <> Ingest.entry_id script i) ->
          after !! id = before !! id).
Proof.
  intros w' before. subst w'.
  destruct (run_store embed_content policy script batch_size records w)
    as (after & -> & Hmono & Hout).
  exists after. split; [apply lookup_insert_eq|].
  split; [|by split].
  intros other Hother. by rewrite lookup_insert_ne.
Qed.

(** X5: run on a store whose collection is absent or empty, an ingestion
    function leaves in it exactly as many entries as it reports
    successes: the count its last line prints is its success count. *)
Theorem fresh_collection_count_is_success_count
    (embed_content : nat -> string -> EmbeddingUtils.EmbedOutcome)
    (policy : Chroma.DuplicatePolicy) (script : Ingest.Script) (batch_size : Z)
    (records : list json) (w : World) :
  default ∅ (store w !! Ingest.collection_name script) = ∅ ->
  exists w' successes errors,
    Ingest.embed_and_store embed_content policy script batch_size (Ok records) w
    = (w', Ok (successes, errors))
    /\ Chroma.count w' (Ingest.collection_name script) = successes.
Proof. apply run_fresh_count. Qed.

(** X7: what the product script stores for a record that is an object
    comes back from the retrieval loop as one product with the same
    rendered fields when its name and price are not empty, and is dropped
    otherwise; a brand or model that was missing comes back as the empty
    string, not as [None]. *)
Theorem stored_product_round_trip (py_repr : json -> string)
    (fields : gmap string json) :
  exists m,
    EmbedProducts.product_metadata py_repr (JDict fields) = Ok m
    /\ Main.collect_products [m]
       = if Derived.displayable_product (Derived.shown_product py_repr fields)
         then [Derived.shown_product py_repr fields]
         else [].
Proof.
  unfold EmbedProducts.product_metadata, EmbedProducts.field, Py.get, Py.rbind.
  eexists. split; [reflexivity|].
  unfold Derived.shown_product, Derived.displayable_product, Derived.rendered.
  cbn [Main.productName Main.productPrice].
  generalize (Py.str py_repr (default (JStr EmptyString) (fields !! "productName"))).
  generalize (Py.str py_repr (default (JStr EmptyString) (fields !! "productUrl"))).
  generalize (Py.str py_repr (default (JStr EmptyString) (fields !! "productImage"))).
  generalize (Py.str py_repr (default (JStr EmptyString) (fields !! "productPrice"))).
  generalize (Py.str py_repr (default (JStr EmptyString) (fields !! "brandName"))).
  generalize (Py.str py_repr (default (JStr EmptyString) (fields !! "phoneModel"))).
  generalize (Py.str py_repr (default (JStr EmptyString) (fields !! "productCategory"))).
  intros category model brand price image url name.
  destruct name, price; reflexivity.
Qed.

(** X8: the same for the FAQ script: a stored FAQ comes back with its
    question and answer when neither is empty, and is dropped otherwise. *)
Theorem stored_faq_round_trip (py_repr : json -> string) (fields : gmap string json) :
  exists m,
    EmbedFaqs.faq_metadata py_repr (JDict fields) = Ok m
    /\ Main.collect_faqs [m]
       = if Derived.displayable_faq (Derived.shown_faq py_repr fields)
         then [Derived.shown_faq py_repr fields]
         else [].
Proof.
  unfold EmbedFaqs.faq_metadata, EmbedFaqs.field, Py.get, Py.rbind.
  eexists. split; [reflexivity|].
  unfold Derived.shown_faq, Derived.displayable_faq, Derived.rendered.
  cbn [Main.question Main.answer].
  generalize (Py.str py_repr (default (JStr EmptyString) (fields !! "question"))).
  generalize (Py.str py_repr (default (JStr EmptyString) (fields !! "answer"))).
  intros a q.
  destruct q, a; reflexivity.
Qed.

Section ProcessMore.
Variable py_repr : json -> string.
Variable embed_content : nat -> string -> EmbeddingUtils.EmbedOutcome.
Variable policy : Chroma.DuplicatePolicy.

Local Abbreviation chroma_setup := (Main.chroma_setup py_repr embed_content policy).
Local Abbreviation module_setup := (Main.module_setup py_repr embed_content policy).

(** An ingestion function never raises; afterwards its collection is
    there if the data loaded or it was there before, and the other
    collections are as they were. *)
Lemma run_availability script batch_size data w :
  exists w' counters,
    Ingest.embed_and_store embed_content policy script batch_size data w
    = (w', Ok counters)
    /\ (forall other, other <> Ingest.collection_name script ->
                      store w' !! other = store w !! other)
    /\ Main.is_none (store w' !! Ingest.collection_name script)
       = negb (Derived.available data w (Ingest.collection_name script)).
Proof.
  destruct (run_counters embed_content policy script batch_size data w)
    as (w' & s & e & Hrun & Hdata).
  exists w', (s, e). split; [done|].
  destruct data as [records|err].
  - pose proof (run_store embed_content policy script batch_size records w) as Hst.
    rewrite Hrun in Hst. destruct Hst as (after & Hst & _). simpl in Hst.
    rewrite Hst. split.
    + intros other Hother. by rewrite lookup_insert_ne.
    + rewrite lookup_insert_eq. unfold Derived.available.
      by destruct (store w !! Ingest.collection_name script).
  - destruct Hdata as (-> & _). split; [done|].
    unfold Derived.available.
    by destruct (store w !! Ingest.collection_name script).
Qed.

(** The second set-up block, in full. *)
Lemma chroma_setup_run client products_data faqs_data w :
  exists w',
    chroma_setup client products_data faqs_data w
    = (w', Ok (if Derived.succeeded client
                  && Derived.available products_data w "products"
                  && Derived.available faqs_data w "faqs"
               then (Some "products", Some "faqs")
               else (None, None)))
    /\ (Derived.succeeded client = false -> w' = w).
Proof.
  unfold Main.chroma_setup, Py.try_except, Py.bind, Py.lift.
  destruct client as [[]|e]; [|by exists w].
  unfold EmbedProducts.embed_and_store_products, EmbedFaqs.embed_and_store_faqs.
  destruct (run_availability (EmbedProducts.script py_repr) 10 products_data w)
    as (w1 & c1 & -> & Hother1 & Hp1).
  destruct (run_availability (EmbedFaqs.script py_repr) 10 faqs_data w1)
    as (w2 & c2 & -> & Hother2 & Hf2).
  change (Ingest.collection_name (EmbedProducts.script py_repr)) with "products" in *.
  change (Ingest.collection_name (EmbedFaqs.script py_repr)) with "faqs" in *.
  assert (Hf2' : Main.is_none (store w2 !! "faqs")
                 = negb (Derived.available faqs_data w "faqs")).
  { rewrite Hf2. unfold Derived.available. by rewrite (Hother1 "faqs"). }
  assert (Hp2 : Main.is_none (store w2 !! "products")
                = negb (Derived.available products_data w "products")).
  { by rewrite (Hother2 "products"). }
  exists w2. split; [|done]. unfold Chroma.get_collection. simpl.
  destruct (store w2 !! "products"), (store w2 !! "faqs"); simpl in *;
    destruct (Derived.available products_data w "products"),
             (Derived.available faqs_data w "faqs"); simpl in *; done.
Qed.

(** X18: when the client creation in [utils/embedding_utils.py], run
    by the module's first import, raises, start-up ends there with that
    exception and nothing is ingested.  Otherwise start-up completes
    and takes both collection handles or neither, never one: it takes
    both exactly when the store opened and each collection either had
    its data loaded or was in the store already; [gemini_client] is
    [None] exactly when the module's own client creation raised; without
    an open store nothing is ingested. *)
Theorem setup_takes_both_collections_or_neither
    (embedding_client gemini client : result unit)
    (products_data faqs_data : result (list json)) (w : World) :
  match embedding_client with
  | Raise e =>
      module_setup embedding_client gemini client products_data faqs_data w
      = (w, Raise e)
  | Ok _ =>
      exists w' globals,
        module_setup embedding_client gemini client products_data faqs_data w
        = (w', Ok globals)
        /\ (Main.products_collection globals, Main.faqs_collection globals)
           = (if Derived.succeeded client
                 && Derived.available products_data w "products"
                 && Derived.available faqs_data w "faqs"
              then (Some "products", Some "faqs")
              else (None, None))
        /\ Main.is_none (Main.gemini_client globals) = negb (Derived.succeeded gemini)
        /\ (Derived.succeeded client = false -> w' = w)
  end.
Proof.
  unfold Main.module_setup, Py.bind, Py.ret, Py.lift.
  destruct embedding_client as [[]|e]; [|done].
  destruct (chroma_setup_run client products_data faqs_data w) as (w' & -> & Hw).
  eexists _, _. split; [done|]. simpl. split; [by case_match|].
  split; [by destruct gemini|done].
Qed.

(** X19: when the FAQ data (or the product data) cannot be loaded and the
    store does not hold that collection yet, a start-up that gets past
    its imports and opens the store leaves both handles [None],
    although the other collection was ingested, and every request with
    a valid text is then answered 503. *)
Theorem missing_data_on_a_new_store_disables_queries
    (gemini : result unit) (products_data faqs_data : result (list json))
    (w : World) (rank : gmap string Entry -> Embedding -> list string)
    (generate_content : nat -> string -> Main.GenOutcome)
    (request : Main.QueryRequest) :
  Derived.available products_data w "products"
  && Derived.available faqs_data w "faqs" = false ->
  blank (Main.req_query request) = false ->
  (String.length (strip (Main.req_query request)) <= 500)%nat ->
  exists w' globals,
    module_setup (Ok tt) gemini (Ok tt) products_data faqs_data w = (w', Ok globals)
    /\ forall w'',
         Main.query_chatbot embed_content rank generate_content globals request w''
         = (w'', Raise (HTTPException 503
                          "Database not available. Please contact support.")).
Proof.
  intros Hmiss Hb Hlen.
  unfold Main.module_setup, Py.bind, Py.ret, Py.lift.
  destruct (chroma_setup_run (Ok tt) products_data faqs_data w) as (w' & -> & _).
  simpl. rewrite Hmiss. eexists _, _. split; [done|]. intros w''.
  destruct (valid_text_passes request Hb Hlen) as [He Hl].
  unfold Main.query_chatbot. by rewrite He, Hl.
Qed.

(** X20: after a start-up that got past its imports, on a store that
    holds neither collection, with both datasets loaded, [GET /health] reports the store as available
    and, for each collection, the number of successes its ingestion
    returned. *)
Theorem health_counts_after_first_start (gemini : result unit)
    (products faqs : list json) (w : World) :
  store w !! "products" = None ->
  store w !! "faqs" = None ->
  exists w1 w2 p_ok p_err f_ok f_err globals,
    EmbedProducts.embed_and_store_products py_repr embed_content policy 10
      (Ok products) w = (w1, Ok (p_ok, p_err))
    /\ EmbedFaqs.embed_and_store_faqs py_repr embed_content policy 10
         (Ok faqs) w1 = (w2, Ok (f_ok, f_err))
    /\ module_setup (Ok tt) gemini (Ok tt) (Ok products) (Ok faqs) w
       = (w2, Ok globals)
    /\ Main.services_chromadb (Main.healthcheck globals w2) = true
    /\ Main.collections_products (Main.healthcheck globals w2) = p_ok
    /\ Main.collections_faqs (Main.healthcheck globals w2) = f_ok.
Proof.
  intros Hp Hf.
  unfold EmbedProducts.embed_and_store_products, EmbedFaqs.embed_and_store_faqs.
  destruct (run_fresh_count embed_content policy (EmbedProducts.script py_repr) 10
              products w) as (w1 & p_ok & p_err & Hrun1 & Hcount1).
  { change (Ingest.collection_name (EmbedProducts.script py_repr)) with "products".
    by rewrite Hp. }
  pose proof (run_store embed_content policy (EmbedProducts.script py_repr) 10
                products w) as Hst1.
  rewrite Hrun1 in Hst1. destruct Hst1 as (after1 & Hst1 & _). simpl in Hst1.
  change (Ingest.collection_name (EmbedProducts.script py_repr)) with "products" in *.
  assert (Hf1 : store w1 !! "faqs" = None) by (by rewrite Hst1, lookup_insert_ne).
  destruct (run_fresh_count embed_content policy (EmbedFaqs.script py_repr) 10
              faqs w1) as (w2 & f_ok & f_err & Hrun2 & Hcount2).
  { change (Ingest.collection_name (EmbedFaqs.script py_repr)) with "faqs".
    by rewrite Hf1. }
  pose proof (run_store embed_content policy (EmbedFaqs.script py_repr) 10
                faqs w1) as Hst2.
  rewrite Hrun2 in Hst2. destruct Hst2 as (after2 & Hst2 & _). simpl in Hst2.
  change (Ingest.collection_name (EmbedFaqs.script py_repr)) with "faqs" in *.
  assert (Hcount1' : Chroma.count w2 "products" = p_ok).
  { rewrite <- Hcount1. unfold Chroma.count. by rewrite Hst2, lookup_insert_ne. }
  exists w1, w2, p_ok, p_err, f_ok, f_err.
  unfold Main.module_setup, Main.chroma_setup, Py.try_except, Py.bind, Py.lift, Py.ret.
  unfold EmbedProducts.embed_and_store_products, EmbedFaqs.embed_and_store_faqs.
  assert (Hlp : store w2 !! "products" = Some after1).
  { by rewrite Hst2, lookup_insert_ne, Hst1, lookup_insert_eq. }
  assert (Hlf : store w2 !! "faqs" = Some after2).
  { by rewrite Hst2, lookup_insert_eq. }
  rewrite Hrun1, Hrun2. unfold Chroma.get_collection. simpl.
  rewrite Hlp, Hlf. simpl.
  eexists. split; [done|]. split; [done|]. split; [reflexivity|].
  unfold Main.healthcheck. simpl. done.
Qed.
End ProcessMore.

Section CleaningFacts.

Lemma get_stripped_inv p key s :
  CleanProducts.get_stripped p key = Ok s ->
  strip s = s /\ exists fields, p = JDict fields.
Proof.
  unfold CleanProducts.get_stripped, Py.get, Py.rbind.
  destruct p; try done.
  destruct (default (JStr EmptyString) (fields !! key)); try done.
  intros [= <-]. split; [apply strip_idem|eauto].
Qed.

Lemma get_stripped_raises p key e :
  CleanProducts.get_stripped p key = Raise e -> e = AttributeError.
Proof.
  unfold CleanProducts.get_stripped, Py.get, Py.rbind.
  destruct p; try (by intros [= <-]).
  destruct (default (JStr EmptyString) (fields !! key)); by intros [= <-].
Qed.

(** What a successful cleaning comes from and gives. *)
Lemma clean_product_inv p q :
  CleanProducts.clean_product p = Ok q ->
  exists fields name brand model description category image id,
    p = JDict fields
    /\ CleanProducts.get_stripped p "_id" = Ok id
    /\ strip name = name /\ strip brand = brand /\ strip model = model
    /\ strip description = description /\ strip category = category
    /\ strip image = image
    /\ q = JDict (Derived.cleaned name brand model
                    (default (JList []) (fields !! "coverType")) description
                    (default (JInt 0) (fields !! "productPrice")) category image
                    ("http://localhost:3000/products/"
                     +:+ CleanProducts.lower category +:+ "/" +:+ id)).
Proof.
  unfold CleanProducts.clean_product, Py.rbind.
  destruct (CleanProducts.get_stripped p "productCategory") as [category|] eqn:Hc;
    [|done].
  destruct (CleanProducts.get_stripped p "_id") as [id|] eqn:Hid; [|done].
  destruct (CleanProducts.get_stripped p "productName") as [name|] eqn:Hn; [|done].
  destruct (Py.get p "brands" (JDict ∅)) as [brands|] eqn:Hbs; [|done].
  destruct (CleanProducts.get_stripped brands "brandName") as [brand|] eqn:Hbr;
    [|done].
  destruct (CleanProducts.get_stripped p "phoneModel") as [model|] eqn:Hm; [|done].
  destruct (Py.get p "coverType" (JList [])) as [cover|] eqn:Hcov; [|done].
  destruct (CleanProducts.get_stripped p "productDescription") as [description|]
    eqn:Hd; [|done].
  destruct (Py.get p "productPrice" (JInt 0)) as [price|] eqn:Hpr; [|done].
  destruct (CleanProducts.get_stripped p "productImage") as [image|] eqn:Hi; [|done].
  intros [= <-].
  destruct (get_stripped_inv _ _ _ Hc) as [? [fields ->]].
  destruct (get_stripped_inv _ _ _ Hn) as [? _].
  destruct (get_stripped_inv _ _ _ Hbr) as [? _].
  destruct (get_stripped_inv _ _ _ Hm) as [? _].
  destruct (get_stripped_inv _ _ _ Hd) as [? _].
  destruct (get_stripped_inv _ _ _ Hi) as [? _].
  simpl in Hcov, Hpr. injection Hcov as <-. injection Hpr as <-.
  exists fields, name, brand, model, description, category, image, id.
  by repeat split.
Qed.

Lemma clean_product_raises p e :
  CleanProducts.clean_product p = Raise e -> e = AttributeError.
Proof.
  unfold CleanProducts.clean_product, Py.rbind.
  repeat (match goal with
          | |- context [match CleanProducts.get_stripped ?a ?k with _ => _ end] =>
              let H := fresh in
              destruct (CleanProducts.get_stripped a k) eqn:H;
              [|apply get_stripped_raises in H; by intros [= <-]]
          | |- context [match Py.get ?a ?k ?d with _ => _ end] =>
              let H := fresh in
              destruct (Py.get a k d) eqn:H;
              [|destruct a; simplify_eq/=; by intros [= <-]]
          end).
  done.
Qed.

Lemma cleaned_lookups name brand model cover description price category image url :
  let m := Derived.cleaned name brand model cover description price category image url in
  m !! "productName" = Some (JStr name)
  /\ m !! "brandName" = Some (JStr brand)
  /\ m !! "phoneModel" = Some (JStr model)
  /\ m !! "coverType" = Some cover
  /\ m !! "productDescription" = Some (JStr description)
  /\ m !! "productPrice" = Some price
  /\ m !! "productCategory" = Some (JStr category)
  /\ m !! "productImage" = Some (JStr image)
  /\ m !! "productUrl" = Some (JStr url)
  /\ m !! "_id" = None
  /\ m !! "brands" = None.
Proof. by repeat split. Qed.

(** X21: a cleaned product is an object whose six text fields are free of
    white space at both ends, whose URL is the fixed prefix, the category
    in lower case, a slash and the stripped [_id], and whose cover types
    and price are the raw ones (an empty list and 0 when missing). *)
Theorem cleaned_product_shape (p q : json) :
  CleanProducts.clean_product p = Ok q ->
  (forall key, key ∈ Derived.stripped_keys ->
               exists s, Derived.text_field q key = Some s /\ strip s = s)
  /\ (exists category id,
        Derived.text_field q "productCategory" = Some category
        /\ CleanProducts.get_stripped p "_id" = Ok id
        /\ Derived.text_field q "productUrl"
           = Some ("http://localhost:3000/products/"
                   +:+ CleanProducts.lower category +:+ "/" +:+ id))
  /\ Py.get q "coverType" (JList []) = Py.get p "coverType" (JList [])
  /\ Py.get q "productPrice" (JInt 0) = Py.get p "productPrice" (JInt 0).
Proof.
  intros Hq.
  destruct (clean_product_inv p q Hq)
    as (fields & name & brand & model & description & category & image & id
        & -> & Hid & Hn & Hb & Hm & Hd & Hc & Hi & ->).
  split; [|split; [|split]].
  - intros key Hkey. unfold Derived.stripped_keys in Hkey.
    repeat (apply elem_of_cons in Hkey as [->|Hkey]); [..|by apply elem_of_nil in Hkey];
      (eexists; split; [reflexivity|done]).
  - exists category, id. by repeat split.
  - reflexivity.
  - reflexivity.
Qed.

Lemma clean_products_inv products cleaned :
  CleanProducts.clean_products products = Ok cleaned ->
  Forall2 (fun p q => CleanProducts.clean_product p = Ok q) products cleaned.
Proof.
  revert cleaned. induction products as [|p rest IH]; intros cleaned; simpl.
  - intros [= <-]. constructor.
  - unfold Py.rbind.
    destruct (CleanProducts.clean_product p) as [q|] eqn:Hq; [|done].
    destruct (CleanProducts.clean_products rest) as [others|]; [|done].
    intros [= <-]. constructor; [done|]. by apply IH.
Qed.

(** X22: the cleaning loop is all or nothing: its output has one cleaned
    product per raw product, in order, and a single raw product that
    cannot be cleaned makes the whole run raise [AttributeError]. *)
Theorem cleaning_is_all_or_nothing (products : list json) :
  (forall cleaned, CleanProducts.clean_products products = Ok cleaned ->
                   Forall2 (fun p q => CleanProducts.clean_product p = Ok q)
                           products cleaned)
  /\ (forall k p e, products !! k = Some p ->
                    CleanProducts.clean_product p = Raise e ->
                    CleanProducts.clean_products products = Raise AttributeError).
Proof.
  split.
  - apply clean_products_inv.
  - induction products as [|p0 rest IH]; intros k p e Hk Hp; [done|].
    simpl. unfold Py.rbind.
    destruct (CleanProducts.clean_product p0) as [q|e0] eqn:Hq.
    + destruct k as [|k]; [simpl in Hk; congruence|].
      by rewrite (IH k p e Hk Hp).
    + by rewrite (clean_product_raises _ _ Hq).
Qed.

Lemma product_text_of_object py_repr fields :
  if Records.cover_types_joinable fields
  then exists text, EmbedProducts.create_product_text py_repr (JDict fields) = Ok text
  else EmbedProducts.create_product_text py_repr (JDict fields) = Raise TypeError.
Proof.
  unfold Records.cover_types_joinable, EmbedProducts.create_product_text,
    EmbedProducts.field. simpl.
  destruct (fields !! "coverType") as [v|]; simpl; [|eauto].
  destruct v; simpl; eauto.
  pose proof (str_items_joinable items) as H.
  destruct (forallb Records.is_str items).
  - destruct H as [parts ->]. simpl. eauto.
  - by rewrite H.
Qed.

(** What the product script makes of a cleaned product. *)
Lemma cleaned_record py_repr fields q :
  CleanProducts.clean_product (JDict fields) = Ok q ->
  if Records.cover_types_joinable fields
  then Records.displays (EmbedProducts.script py_repr) q = true
       /\ exists text meta,
            EmbedProducts.create_product_text py_repr q = Ok text
            /\ blank text = false
            /\ EmbedProducts.product_metadata py_repr q = Ok meta
  else EmbedProducts.create_product_text py_repr q = Raise TypeError.
Proof.
  intros Hq.
  destruct (clean_product_inv _ q Hq)
    as (fields' & name & brand & model & description & category & image & id
        & [= <-] & Hid & _ & _ & _ & _ & _ & _ & ->).
  set (m := Derived.cleaned _ _ _ _ _ _ _ _ _).
  assert (Hsame : Records.cover_types_joinable m = Records.cover_types_joinable fields).
  { unfold Records.cover_types_joinable.
    change (m !! "coverType") with (Some (default (JList []) (fields !! "coverType"))).
    by destruct (fields !! "coverType"). }
  pose proof (product_text_of_object py_repr m) as Htext. rewrite Hsame in Htext.
  destruct (Records.cover_types_joinable fields); [|done].
  destruct Htext as [text Htext]. split; [reflexivity|].
  exists text. eexists. split; [done|].
  split; [by apply (create_product_text_not_blank py_repr _ _ Htext)|].
  reflexivity.
Qed.

(** X23: the cleaned products are records the product script takes
    without an error.  For raw products whose cover types are strings,
    the run over the cleaned list returns N successes and no error,
    reports no record as skipped or failed, and leaves an entry for each
    product in the collection, provided the store takes the vectors:
    the embedding service answers every request with a vector of [d]
    components, [d] not 0, the collection holds no vector of another
    length, a store that refuses duplicate ids starts without the ids
    of this input, and [batch_size] is not 0.  A raw product whose cover
    types are not all strings gives a cleaned product for which
    building the text raises [TypeError]. *)
Theorem cleaned_product_suits_ingestion (py_repr : json -> string)
    (embed_content : nat -> string -> EmbeddingUtils.EmbedOutcome)
    (policy : Chroma.DuplicatePolicy) (batch_size : Z) (d : nat)
    (raw cleaned : list json) (w : World) :
  CleanProducts.clean_products raw = Ok cleaned ->
  (forall k fields q,
      raw !! k = Some (JDict fields) -> cleaned !! k = Some q ->
      Records.cover_types_joinable fields = false ->
      EmbedProducts.create_product_text py_repr q = Raise TypeError)
  /\ ((forall k fields, raw !! k = Some (JDict fields) ->
                        Records.cover_types_joinable fields = true) ->
      batch_size <> 0 -> d <> 0%nat ->
      (forall t text, exists v,
          embed_content t text = EmbeddingUtils.EmbedValues (Some v)
          /\ length v = d) ->
      Records.holds_vectors_of (EmbedProducts.script py_repr) d w ->
      (policy = Chroma.RejectDuplicate ->
       Records.ids_unused (EmbedProducts.script py_repr) (length raw) w) ->
      exists w',
        EmbedProducts.embed_and_store_products py_repr embed_content policy
          batch_size (Ok cleaned) w
        = (w', Ok (length raw, 0%nat))
        /\ Observed.failures (trace w') = Observed.failures (trace w)
        /\ exists c, store w' !! "products" = Some c
                     /\ forall i, (i < length raw)%nat ->
                                  is_Some (c !! Ingest.entry_id
                                                  (EmbedProducts.script py_repr) i)).
Proof.
  intros Hclean. apply clean_products_inv in Hclean.
  pose proof (Forall2_length _ _ _ Hclean) as Hlen.
  split.
  - intros k fields q Hk Hq Hcov.
    pose proof (Forall2_lookup_lr _ _ _ _ _ _ Hclean Hk Hq) as Hkq.
    pose proof (cleaned_record py_repr fields q Hkq) as H. by rewrite Hcov in H.
  - intros Hcov Hb Hd Hembed Hdim Hfresh. rewrite Hlen in *.
    unfold EmbedProducts.embed_and_store_products.
    apply (run_all_good embed_content policy (EmbedProducts.script py_repr)
             batch_size d cleaned w); try done.
    + intros t text v Hv. destruct (Hembed t text) as (v' & Hv' & Hl). congruence.
    + intros i q t Hq.
      destruct (Forall2_lookup_r _ _ _ _ _ Hclean Hq) as (p & Hp & Hpq).
      destruct (clean_product_inv _ _ Hpq) as (fields & _ & _ & _ & _ & _ & _ & _ & -> & _).
      pose proof (cleaned_record py_repr fields q Hpq) as H.
      rewrite (Hcov i fields Hp) in H.
      destruct H as (Hshow & text & meta & Htext & Hblank & Hmeta).
      split; [done|]. destruct (Hembed t text) as (v & Hv & _).
      unfold Records.candidate.
      change (Ingest.create_text (EmbedProducts.script py_repr))
        with (EmbedProducts.create_product_text py_repr).
      change (Ingest.build_metadata (EmbedProducts.script py_repr))
        with (EmbedProducts.product_metadata py_repr).
      rewrite Htext, Hblank, Hv, Hmeta. eauto.
Qed.

(** X24: cleaning is not meant to be run on its own output: it succeeds
    on a cleaned product and keeps its text fields, but the brand, which
    it reads from [brands], comes out empty and the URL loses the id. *)
Theorem recleaning_loses_brand_and_id (p q : json) :
  CleanProducts.clean_product p = Ok q ->
  exists q' category,
    CleanProducts.clean_product q = Ok q'
    /\ Derived.text_field q' "brandName" = Some EmptyString
    /\ Derived.text_field q "productCategory" = Some category
    /\ Derived.text_field q' "productUrl"
       = Some ("http://localhost:3000/products/"
               +:+ CleanProducts.lower category +:+ "/")
    /\ (forall key, key ∈ Derived.stripped_keys -> key <> "brandName" ->
                    Derived.text_field q' key = Derived.text_field q key).
Proof.
  intros Hq.
  destruct (clean_product_inv p q Hq)
    as (fields & name & brand & model & description & category & image & id
        & -> & Hid & Hn & Hb & Hm & Hd & Hc & Hi & ->).
  set (url := "http://localhost:3000/products/"
              +:+ CleanProducts.lower category +:+ "/" +:+ id).
  set (cover := default (JList []) (fields !! "coverType")).
  set (price := default (JInt 0) (fields !! "productPrice")).
  destruct (cleaned_lookups name brand model cover description price category image url)
    as (Ln & Lb & Lm & Lcov & Ld & Lp & Lc & Li & Lu & Lid & Lbs).
  assert (Hclean : CleanProducts.clean_product
                     (JDict (Derived.cleaned name brand model cover description price
                               category image url))
                   = Ok (JDict (Derived.cleaned name EmptyString model cover description
                                  price category image
                                  ("http://localhost:3000/products/"
                                   +:+ CleanProducts.lower category +:+ "/"
                                   +:+ EmptyString)))).
  { unfold CleanProducts.clean_product, CleanProducts.get_stripped, Py.get, Py.rbind.
    rewrite Ln, Lm, Lcov, Ld, Lp, Lc, Li, Lid, Lbs. simpl.
    rewrite lookup_empty. simpl.
    by rewrite Hn, Hm, Hd, Hc, Hi. }
  eexists _, category. split; [exact Hclean|].
  split; [reflexivity|]. split; [reflexivity|]. split.
  - reflexivity.
  - intros key Hkey Hne. unfold Derived.stripped_keys in Hkey.
    repeat (apply elem_of_cons in Hkey as [->|Hkey]); [..|by apply elem_of_nil in Hkey];
      done.
Qed.
End CleaningFacts.

(** X6: within one run no two records are handed to [add] under the same
    id: the ids are the prefix followed by the positions of the records
    that got that far, each position once and in input order: a
    position further on in the list is a larger one. *)
Theorem ingestion_ids_are_distinct
    (embed_content : nat -> string -> EmbeddingUtils.EmbedOutcome)
    (policy : Chroma.DuplicatePolicy) (script : Ingest.Script) (batch_size : Z)
    (records : list json) (w : World) :
  let w' := (Ingest.embed_and_store embed_content policy script batch_size
               (Ok records) w).1 in
  exists positions : list nat,
    Derived.added_ids (trace w')
    = (Derived.added_ids (trace w) ++ (Ingest.entry_id script <$> positions))%list
    /\ Forall (fun i => (i < length records)%nat) positions
    /\ (forall a b i j, positions !! a = Some i -> positions !! b = Some j ->
                        (a < b)%nat -> (i < j)%nat)
    /\ NoDup positions
    /\ NoDup (Ingest.entry_id script <$> positions).
Proof.
  intros w'. subst w'. rewrite embed_and_store_run. cbv zeta.
  destruct (get_or_create_run script w) as (w0 & -> & Htr & _). cbn [fst].
  set (l0 := {| Ingest.world := w0; Ingest.success_count := 0; Ingest.error_count := 0 |}).
  destruct (for_each_ind embed_content policy script batch_size
              (fun i l => exists positions : list nat,
                   Derived.added_ids (trace (Ingest.world l))
                   = (Derived.added_ids (trace w)
                      ++ (Ingest.entry_id script <$> positions))%list
                   /\ Forall (fun j => (j < i)%nat) positions
                   /\ (forall a b x y, positions !! a = Some x ->
                                       positions !! b = Some y ->
                                       (a < b)%nat -> (x < y)%nat)
                   /\ NoDup positions)
              records 0) with (l := l0)
    as (l' & -> & positions & Hids & Hlt & Hinc & Hnd).
  - intros i r l Hr (positions & Hids & Hlt & Hinc & Hnd). change (0 + i)%nat with i.
    destruct (loop_body_calls embed_content policy script batch_size i r l) as [_ ->].
    rewrite Hids, <- app_assoc.
    destruct (Records.candidate _ _ _ r).
    + exists (positions ++ [i])%list. rewrite fmap_app. split; [done|].
      split; [|split].
      * apply Forall_app. split; [|by repeat constructor].
        eapply Forall_impl; [exact Hlt|]. simpl. lia.
      * intros a b x y Ha Hb Hab.
        pose proof (lookup_lt_Some _ _ _ Hb) as Hblt. rewrite length_app in Hblt.
        simpl in Hblt. rewrite lookup_app_l in Ha by lia.
        destruct (decide (b < length positions)%nat) as [Hb'|Hb'].
        { rewrite lookup_app_l in Hb by done. by apply (Hinc a b). }
        rewrite lookup_app_r in Hb by lia.
        replace (b - length positions)%nat with 0%nat in Hb by lia.
        injection Hb as <-. rewrite Forall_lookup in Hlt. by apply (Hlt a).
      * apply NoDup_app. split; [done|]. split; [|apply NoDup_singleton].
        intros j Hj Hji. apply list_elem_of_singleton in Hji as ->.
        rewrite Forall_forall in Hlt. specialize (Hlt _ Hj). lia.
    + exists positions. rewrite app_nil_r. split; [done|]. split; [|done].
      eapply Forall_impl; [exact Hlt|]. simpl. lia.
  - exists []. simpl. rewrite Htr, app_nil_r.
    split; [done|]. split; [constructor|]. split; [done|constructor].
  - cbn [fst]. exists positions. split; [done|]. split; [done|]. split; [done|].
    split; [done|].
    apply NoDup_fmap_2; [|done]. intros i j. apply entry_id_inj.
Qed.

(** *** The further theorems at sample inputs *)

Lemma fresh_collection_count_is_success_count_witness :
  exists w' successes errors,
    Ingest.embed_and_store Samples.steady_embed Chroma.RejectDuplicate
      (EmbedFaqs.script Samples.repr) 10
      (Ok [Samples.returns_faq; Samples.broken_record; Samples.shipping_faq])
      Samples.empty_world
    = (w', Ok (successes, errors))
    /\ Chroma.count w' "faqs" = successes.
Proof.
  apply (fresh_collection_count_is_success_count Samples.steady_embed
           Chroma.RejectDuplicate (EmbedFaqs.script Samples.repr) 10).
  reflexivity.
Defined.

Lemma ingestion_touches_only_its_ids_witness :
  exists after,
    store (Ingest.embed_and_store Samples.steady_embed Chroma.Overwrite
             (EmbedFaqs.script Samples.repr) 10 (Ok [Samples.shipping_faq])
             Samples.shop).1 !! "faqs" = Some after
    /\ store (Ingest.embed_and_store Samples.steady_embed Chroma.Overwrite
                (EmbedFaqs.script Samples.repr) 10 (Ok [Samples.shipping_faq])
                Samples.shop).1 !! "products"
       = store Samples.shop !! "products".
Proof.
  destruct (ingestion_touches_only_its_ids Samples.steady_embed Chroma.Overwrite
              (EmbedFaqs.script Samples.repr) 10 [Samples.shipping_faq] Samples.shop)
    as (after & Hafter & Hother & _).
  exists after. split; [exact Hafter|]. apply Hother. discriminate.
Defined.

Lemma answers_hold_only_displayable_results_witness :
  exists w' response,
    Main.query_chatbot Samples.embed Samples.rank Samples.generate Samples.globals
      (Samples.ask "clear case") Samples.shop = (w', Ok response)
    /\ Forall (fun p => Derived.displayable_product p = true) (Main.products response)
    /\ Main.query response = "clear case".
Proof.
  destruct (query_chatbot_run Samples.embed Samples.rank Samples.generate Samples.globals
              (Samples.ask "clear case") Samples.shop "products" "faqs" 3 2)
    as (prods & fs & text & Hrun & _); try reflexivity; [vm_compute; lia|].
  eexists _, _. split; [exact Hrun|].
  destruct (answers_hold_only_displayable_results _ _ _ _ _ _ _ _ Hrun)
    as (Hp & _ & Hq & _).
  split; [exact Hp|exact Hq].
Defined.

Lemma accepted_query_is_always_answered_witness :
  exists w' response,
    Main.query_chatbot Samples.failing_embed Samples.rank Samples.failing_generate
      Samples.globals (Samples.ask "clear case") Samples.shop = (w', Ok response)
    /\ store w' = store Samples.shop.
Proof.
  apply (accepted_query_is_always_answered Samples.failing_embed Samples.rank
           Samples.failing_generate Samples.globals (Samples.ask "clear case")
           Samples.shop "products" "faqs" 3 2); try reflexivity.
  vm_compute. lia.
Defined.

Lemma missing_top_k_is_500_witness :
  exists w',
    Main.query_chatbot Samples.embed Samples.rank Samples.generate Samples.globals
      (Samples.ask_without_faq_count "clear case") Samples.shop
    = (w', Raise (HTTPException 500
                    "An error occurred processing your request. Please try again."))
    /\ Observed.embed_calls (trace w') = ["clear case"].
Proof.
  destruct (missing_top_k_is_500 Samples.embed Samples.rank Samples.generate
              Samples.globals (Samples.ask_without_faq_count "clear case") Samples.shop
              "products" "faqs") as [_ H]; try reflexivity; [vm_compute; lia|].
  apply (H 3); reflexivity.
Defined.

Lemma retrieval_degrades_to_empty_witness :
  Main.retrieve_products Samples.failing_embed Samples.rank Samples.globals
    "clear case" 3 Samples.shop
  = ({| store := store Samples.shop;
        trace := trace Samples.shop ++ [EmbedContent "clear case"] |}, Ok []).
Proof.
  destruct (retrieval_degrades_to_empty Samples.failing_embed Samples.rank
              Samples.globals "clear case" 3 Samples.shop) as (_ & _ & H).
  destruct H as [H _]; [reflexivity|discriminate|].
  apply H. eexists. reflexivity.
Defined.

Lemma ready_line_means_no_503_witness :
  exists detail,
    (Main.query_chatbot Samples.embed Samples.rank Samples.generate Samples.no_store
       (Samples.ask "clear case") Samples.shop).2
    = Raise (HTTPException 503 detail).
Proof.
  apply (ready_line_means_no_503 Samples.embed Samples.rank Samples.generate
           Samples.no_store (Samples.ask "clear case") Samples.shop);
    [reflexivity | vm_compute; lia |].
  vm_compute. intros [H|[]]. discriminate.
Defined.

Lemma model_text_is_only_stripped_witness :
  exists response,
    (Main.query_chatbot Samples.embed Samples.rank Samples.blank_generate
       Samples.globals (Samples.ask "clear case") Samples.shop).2 = Ok response
    /\ Main.responseText response = EmptyString.
Proof.
  destruct (model_text_is_only_stripped Samples.embed Samples.rank
              Samples.blank_generate Samples.globals (Samples.ask "clear case")
              Samples.shop _ _ 4%nat
              (Main.build_prompt "clear case"
                 (Main.collect_products
                    [metadata (Samples.product_entry "Clear Case" "499");
                     metadata (Samples.product_entry "Matte Case" EmptyString)])
                 (Main.collect_faqs
                    [metadata (Samples.faq_entry "What is your return policy?"
                                 "30 days.")]))
              "   " (surjective_pairing _))
    as (response & Hr & _ & Hblank).
  - vm_compute. lia.
  - vm_compute. reflexivity.
  - reflexivity.
  - exists response. split; [exact Hr|]. apply Hblank. reflexivity.
Defined.

Lemma prompt_shows_five_products_three_faqs_witness :
  Main.build_prompt "clear case" [] (replicate 4 (Derived.shown_faq Samples.repr ∅))
  = Main.build_prompt "clear case" [] (replicate 3 (Derived.shown_faq Samples.repr ∅)).
Proof.
  exact (proj1 (prompt_shows_five_products_three_faqs "clear case" []
                  (replicate 4 (Derived.shown_faq Samples.repr ∅)))).
Defined.

Lemma setup_takes_both_collections_or_neither_witness :
  Main.module_setup Samples.repr Samples.steady_embed Chroma.KeepExisting
    (Raise ProviderError) (Ok tt) (Ok tt) (Ok [Samples.clear_case])
    (Raise FileNotFoundError) Samples.empty_world
  = (Samples.empty_world, Raise ProviderError)
  /\ exists w' globals,
       Main.module_setup Samples.repr Samples.steady_embed Chroma.KeepExisting
         (Ok tt) (Ok tt) (Ok tt) (Ok [Samples.clear_case]) (Raise FileNotFoundError)
         Samples.empty_world = (w', Ok globals)
       /\ (Main.products_collection globals, Main.faqs_collection globals)
          = (None, None).
Proof.
  split.
  - exact (setup_takes_both_collections_or_neither Samples.repr Samples.steady_embed
             Chroma.KeepExisting (Raise ProviderError) (Ok tt) (Ok tt)
             (Ok [Samples.clear_case]) (Raise FileNotFoundError) Samples.empty_world).
  - destruct (setup_takes_both_collections_or_neither Samples.repr Samples.steady_embed
                Chroma.KeepExisting (Ok tt) (Ok tt) (Ok tt) (Ok [Samples.clear_case])
                (Raise FileNotFoundError) Samples.empty_world)
      as (w' & globals & Hrun & Hboth & _).
    exists w', globals. split; [exact Hrun|exact Hboth].
Defined.

Lemma missing_data_on_a_new_store_disables_queries_witness :
  exists w' globals,
    Main.module_setup Samples.repr Samples.steady_embed Chroma.KeepExisting
      (Ok tt) (Ok tt) (Ok tt) (Ok [Samples.clear_case]) (Raise FileNotFoundError)
      Samples.empty_world = (w', Ok globals)
    /\ forall w'',
         Main.query_chatbot Samples.steady_embed Samples.rank Samples.generate globals
           (Samples.ask "clear case") w''
         = (w'', Raise (HTTPException 503
                          "Database not available. Please contact support.")).
Proof.
  apply (missing_data_on_a_new_store_disables_queries Samples.repr Samples.steady_embed
           Chroma.KeepExisting (Ok tt) (Ok [Samples.clear_case])
           (Raise FileNotFoundError) Samples.empty_world Samples.rank Samples.generate
           (Samples.ask "clear case")); [reflexivity | reflexivity | vm_compute; lia].
Defined.

Lemma health_counts_after_first_start_witness :
  exists w2 globals,
    Main.module_setup Samples.repr Samples.steady_embed Chroma.KeepExisting
      (Ok tt) (Ok tt) (Ok tt) (Ok [Samples.clear_case; Samples.broken_record])
      (Ok [Samples.returns_faq]) Samples.empty_world = (w2, Ok globals)
    /\ Main.services_chromadb (Main.healthcheck globals w2) = true.
Proof.
  destruct (health_counts_after_first_start Samples.repr Samples.steady_embed
              Chroma.KeepExisting (Ok tt) [Samples.clear_case; Samples.broken_record]
              [Samples.returns_faq] Samples.empty_world)
    as (w1 & w2 & p_ok & p_err & f_ok & f_err & globals & _ & _ & Hrun & Hup & _);
    [reflexivity | reflexivity |].
  exists w2, globals. split; [exact Hrun|exact Hup].
Defined.

Lemma cleaned_product_shape_witness :
  exists q,
    CleanProducts.clean_product Samples.raw_case = Ok q
    /\ Derived.text_field q "productUrl"
       = Some "http://localhost:3000/products/phone cases/64af01".
Proof.
  destruct (CleanProducts.clean_product Samples.raw_case) as [q|e] eqn:Hq;
    [|vm_compute in Hq; discriminate].
  exists q. split; [reflexivity|].
  destruct (cleaned_product_shape Samples.raw_case q Hq)
    as (_ & (category & id & Hc & Hid & Hurl) & _).
  rewrite Hurl. vm_compute in Hq. injection Hq as <-.
  vm_compute in Hc, Hid. injection Hc as <-. injection Hid as <-. reflexivity.
Defined.

Lemma cleaning_is_all_or_nothing_witness :
  CleanProducts.clean_products [Samples.raw_case; Samples.raw_numbered]
  = Raise AttributeError.
Proof.
  apply (proj2 (cleaning_is_all_or_nothing [Samples.raw_case; Samples.raw_numbered])
           1%nat Samples.raw_numbered AttributeError); reflexivity.
Defined.

Lemma cleaned_product_suits_ingestion_witness :
  exists cleaned w',
    CleanProducts.clean_products [Samples.raw_case; Samples.raw_case] = Ok cleaned
    /\ EmbedProducts.embed_and_store_products Samples.repr Samples.embed
         Chroma.KeepExisting 10 (Ok cleaned) Samples.shop
       = (w', Ok (2%nat, 0%nat)).
Proof.
  destruct (CleanProducts.clean_products [Samples.raw_case; Samples.raw_case])
    as [cleaned|e] eqn:Hclean; [|vm_compute in Hclean; discriminate].
  destruct (proj2 (cleaned_product_suits_ingestion Samples.repr Samples.embed
                     Chroma.KeepExisting 10 2 [Samples.raw_case; Samples.raw_case]
                     cleaned Samples.shop Hclean))
    as (w' & Hrun & _).
  - intros k fields Hk. destruct k as [|[|k]]; [| |discriminate];
      injection Hk as <-; reflexivity.
  - lia.
  - lia.
  - intros t text. eexists. split; reflexivity.
  - intros c id e Hc He.
    assert (Hfits : Chroma.fits c [0; 0] = true).
    { vm_compute in Hc. injection Hc as <-. reflexivity. }
    exact (proj2 (proj1 (fits_spec c [0; 0]) Hfits) id e He).
  - discriminate.
  - exists cleaned, w'. split; [reflexivity|exact Hrun].
Defined.

Lemma recleaning_loses_brand_and_id_witness :
  exists q q',
    CleanProducts.clean_product Samples.raw_case = Ok q
    /\ CleanProducts.clean_product q = Ok q'
    /\ Derived.text_field q "brandName" = Some "Apple"
    /\ Derived.text_field q' "brandName" = Some EmptyString.
Proof.
  destruct (CleanProducts.clean_product Samples.raw_case) as [q|e] eqn:Hq;
    [|vm_compute in Hq; discriminate].
  destruct (recleaning_loses_brand_and_id Samples.raw_case q Hq)
    as (q' & category & Hq' & Hbrand & _).
  exists q, q'. split; [reflexivity|]. split; [exact Hq'|]. split; [|exact Hbrand].
  vm_compute in Hq. injection Hq as <-. reflexivity.
Defined.
